(** * PCIe error recovery (drivers/pci/pcie/err.c)

    A shallow embedding of the AER recovery code: the vote merger
    [merge_result], the four per-device broadcast callbacks
    ([report_error_detected], [report_mmio_enabled], [report_slot_reset],
    [report_resume]) and the two orchestrators
    [pcie_do_nonfatal_recovery] and [pcie_do_fatal_recovery].

    The device topology below the acting port is a rose tree.  Every call
    the C code makes to a collaborator outside err.c (driver callbacks,
    uevents, log lines, locks, reset, removal, rescan) is recorded, in
    program order, in a trace of [event]s; the functions are written in a
    small writer monad over that trace. *)

From Stdlib Require Import ZArith List Bool String Lia.
Import ListNotations.
Local Open Scope Z_scope.

Set Implicit Arguments.

(** ** Votes and channel states *)

(** [enum pci_ers_result] (include/linux/pci.h). *)
Inductive pci_ers_result : Type :=
| PCI_ERS_RESULT_NONE
| PCI_ERS_RESULT_CAN_RECOVER
| PCI_ERS_RESULT_NEED_RESET
| PCI_ERS_RESULT_DISCONNECT
| PCI_ERS_RESULT_RECOVERED
| PCI_ERS_RESULT_NO_AER_DRIVER.

(** [pci_channel_state_t] (include/linux/pci.h). *)
Inductive pci_channel_state : Type :=
| pci_channel_io_normal
| pci_channel_io_frozen
| pci_channel_io_perm_failure.

Definition pci_ers_result_eq_dec (a b : pci_ers_result) : {a = b} + {a <> b}.
Proof. decide equality. Defined.

Definition pci_channel_state_eq_dec (a b : pci_channel_state) : {a = b} + {a <> b}.
Proof. decide equality. Defined.

(** ** The vote merger *)

(** [merge_result], err.c lines 23-46. *)
Definition merge_result (orig new : pci_ers_result) : pci_ers_result :=
  if pci_ers_result_eq_dec new PCI_ERS_RESULT_NO_AER_DRIVER then
    PCI_ERS_RESULT_NO_AER_DRIVER
  else if pci_ers_result_eq_dec new PCI_ERS_RESULT_NONE then
    orig
  else
    match orig with
    | PCI_ERS_RESULT_CAN_RECOVER
    | PCI_ERS_RESULT_RECOVERED => new
    | PCI_ERS_RESULT_DISCONNECT =>
        if pci_ers_result_eq_dec new PCI_ERS_RESULT_NEED_RESET then
          PCI_ERS_RESULT_NEED_RESET
        else orig
    | _ => orig
    end.

(** ** The call trace *)

(** One entry per call that err.c makes to code outside it.  A device is
    named by its [pci_name]. *)
Inductive event : Type :=
| Ev_device_lock (dev : string)
| Ev_device_unlock (dev : string)
| Ev_set_io_state (dev : string) (new : pci_channel_state) (changed : bool)
| Ev_set_disconnected (dev : string)
| Ev_error_detected (dev : string) (state : pci_channel_state) (vote : pci_ers_result)
| Ev_mmio_enabled (dev : string) (vote : pci_ers_result)
| Ev_slot_reset (dev : string) (vote : pci_ers_result)
| Ev_resume (dev : string)
| Ev_uevent_ers (dev : string) (vote : pci_ers_result)
| Ev_pci_info (dev : string) (msg : string)
| Ev_pci_dbg (dev : string) (msg : string)
| Ev_pci_err (dev : string) (msg : string) (ret : Z)
| Ev_pci_reset_bus (dev : string) (ret : Z)
| Ev_lock_rescan_remove
| Ev_unlock_rescan_remove
| Ev_pci_dev_get (dev : string)
| Ev_pci_dev_put (dev : string)
| Ev_stop_and_remove (dev : string)
| Ev_reset_link (dev : string) (result : pci_ers_result)
| Ev_aer_clear_fatal_status (dev : string)
| Ev_aer_clear_nonfatal_status (dev : string)
| Ev_clear_device_status (dev : string)
| Ev_wait_for_link (dev : string) (up : bool)
| Ev_rescan_bus (dev : string).

(** The writer monad: a value and the calls made while computing it. *)
Definition M (A : Type) : Type := (A * list event)%type.

Definition ret (A : Type) (a : A) : M A := (a, []).

Definition bind (A B : Type) (m : M A) (f : A -> M B) : M B :=
  (fst (f (fst m)), snd m ++ snd (f (fst m))).

Definition emit (e : event) : M unit := (tt, [e]).

Definition value (A : Type) (m : M A) : A := fst m.
Definition trace (A : Type) (m : M A) : list event := snd m.

Declare Scope recovery_scope.
Delimit Scope recovery_scope with recovery.
Notation "x <- c1 ;; c2" := (bind c1 (fun x => c2))
  (at level 61, c1 at next level, right associativity) : recovery_scope.
Notation "c1 ;; c2" := (bind c1 (fun _ => c2))
  (at level 61, right associativity) : recovery_scope.
Local Open Scope recovery_scope.

(** The option monad, for the pointer dereferences that may hit NULL. *)
Definition obind (A B : Type) (o : option A) (f : A -> option B) : option B :=
  match o with
  | Some a => f a
  | None => None
  end.

Section Recovery.

(** Driver-private state of a device: what a driver callback may read and
    change when it is called on the device. *)
Variable D : Type.

(** Constants of include/uapi/linux/pci_regs.h, which err.c compares
    [hdr_type] and [pci_pcie_type] against. *)
Variable PCI_HEADER_TYPE_BRIDGE : Z.
Variable PCI_EXP_TYPE_ROOT_PORT : Z.
Variable PCI_EXP_TYPE_DOWNSTREAM : Z.

(** ** Handlers, devices and the topology *)

(** [struct pci_error_handlers]: four optional callbacks.  A callback
    works on the driver's private data of the device it is called on and
    returns the data as it leaves it; it does not write the fields of
    [struct pci_dev] that err.c reads. *)
Record pci_error_handlers : Type := mk_pci_error_handlers {
  error_detected : option (D -> pci_channel_state -> pci_ers_result * D);
  mmio_enabled : option (D -> pci_ers_result * D);
  slot_reset : option (D -> pci_ers_result * D);
  resume : option (D -> D)
}.

(** [struct pci_driver], as far as err.c reads it. *)
Record pci_driver : Type := mk_pci_driver {
  err_handler : option pci_error_handlers
}.

(** [struct pci_dev], as far as err.c reads or writes it; the link to the
    subordinate bus is kept in [pci_node]. *)
Record pci_dev : Type := mk_pci_dev {
  pci_name : string;
  hdr_type : Z;
  pcie_type : Z;
  error_state : pci_channel_state;
  driver : option pci_driver;
  drvdata : D
}.

Definition set_error_state (dev : pci_dev) (s : pci_channel_state) : pci_dev :=
  mk_pci_dev (pci_name dev) (hdr_type dev) (pcie_type dev) s (driver dev) (drvdata dev).

Definition set_drvdata (dev : pci_dev) (x : D) : pci_dev :=
  mk_pci_dev (pci_name dev) (hdr_type dev) (pcie_type dev) (error_state dev) (driver dev) x.

(** A device with [dev->subordinate]: [None] is a NULL pointer, [Some l]
    a bus whose [devices] list is [l], in list order. *)
#[local] Unset Elimination Schemes.
Inductive pci_node : Type :=
| Node (dev : pci_dev) (subordinate : option (list pci_node)).

#[local] Set Elimination Schemes.

Definition node_dev (n : pci_node) : pci_dev :=
  match n with Node d _ => d end.

Definition subordinate (n : pci_node) : option (list pci_node) :=
  match n with Node _ s => s end.

(** [pci_pcie_type] reads the port type from the device. *)
Definition pci_pcie_type (dev : pci_dev) : Z := pcie_type dev.

(** The callback [dev->driver->err_handler-><op>], [None] when the driver,
    its handler table or the operation is NULL. *)
Definition handler_op (T : Type) (op : pci_error_handlers -> option T) (dev : pci_dev) : option T :=
  match driver dev with
  | None => None
  | Some drv =>
      match err_handler drv with
      | None => None
      | Some eh => op eh
      end
  end.

(** External collaborators called by the orchestrators, each a function
    of the device it is called on: the bus reset of the non-fatal path (an
    [int], negative on failure), the AER ownership test and the bounded
    wait for link training. *)
Variable pci_reset_bus_result : pci_dev -> Z.
Variable pcie_aer_is_native : pci_dev -> bool.
Variable pcie_wait_for_link_result : pci_dev -> bool.

(** ** Logging and notification

    Messages are recorded without the "AER: " prefix of [dev_fmt] and
    without the trailing newline. *)

Definition device_lock (dev : pci_dev) : M unit := emit (Ev_device_lock (pci_name dev)).
Definition device_unlock (dev : pci_dev) : M unit := emit (Ev_device_unlock (pci_name dev)).
Definition pci_uevent_ers (dev : pci_dev) (v : pci_ers_result) : M unit :=
  emit (Ev_uevent_ers (pci_name dev) v).
Definition pci_info (dev : pci_dev) (msg : string) : M unit := emit (Ev_pci_info (pci_name dev) msg).
Definition pci_dbg (dev : pci_dev) (msg : string) : M unit := emit (Ev_pci_dbg (pci_name dev) msg).
Definition pci_err (dev : pci_dev) (msg : string) (r : Z) : M unit :=
  emit (Ev_pci_err (pci_name dev) msg r).

(** ** Helpers of drivers/pci that err.c calls *)

(** Modelled from the spec: [pci_dev_set_io_state] (drivers/pci/pci.h) is
    not part of the sources.  The spec, 4.2 step 2: the channel state is
    set to the reported state; if the device had already been marked
    PERM_FAILURE the set fails.  The result tells whether the state was
    set. *)
Definition pci_dev_set_io_state (dev : pci_dev) (new : pci_channel_state) : M (bool * pci_dev) :=
  let changed :=
    if pci_channel_state_eq_dec (error_state dev) pci_channel_io_perm_failure
    then false else true in
  emit (Ev_set_io_state (pci_name dev) new changed) ;;
  ret (changed, if changed then set_error_state dev new else dev).

(** Modelled from the spec: [pci_dev_set_disconnected] (drivers/pci/pci.h)
    is not part of the sources.  The spec, 4.4 step 2: the device is marked
    PERM_FAILURE; no handler is consulted. *)
Definition pci_dev_set_disconnected (dev : pci_dev) (data : unit) : M (Z * pci_dev * unit) :=
  emit (Ev_set_disconnected (pci_name dev)) ;;
  ret (0, set_error_state dev pci_channel_io_perm_failure, data).

(** Modelled from the spec: [pci_walk_bus] (drivers/pci/bus.c) is not part
    of the sources; [pci_walk_dev] is its visit of one device and of the
    bus below it.  The spec, 4.2: every device of the subtree is visited
    once, in pre-order, each callback finishing before the next starts; the
    walk never stops early, so the [int] a callback returns (0 for every
    callback of err.c) is not looked at.  The callback gets the device and
    [data] and may change both. *)
Fixpoint pci_walk_dev (A : Type) (cb : pci_dev -> A -> M (Z * pci_dev * A))
    (n : pci_node) (data : A) : M (pci_node * A) :=
  match n with
  | Node d sub =>
      r <- cb d data ;;
      match sub with
      | None => ret (Node (snd (fst r)) None, snd r)
      | Some l =>
          r' <- (fix walk (l : list pci_node) (data : A) : M (list pci_node * A) :=
                   match l with
                   | [] => ret ([], data)
                   | x :: rest =>
                       rx <- pci_walk_dev cb x data ;;
                       rr <- walk rest (snd rx) ;;
                       ret (fst rx :: fst rr, snd rr)
                   end) l (snd r) ;;
          ret (Node (snd (fst r)) (Some (fst r')), snd r')
      end
  end.

(** Modelled from the spec: the walk of [pci_walk_bus] over the devices of
    the bus [top], each with everything below it. *)
Fixpoint pci_walk_bus (A : Type) (cb : pci_dev -> A -> M (Z * pci_dev * A))
    (top : list pci_node) (data : A) : M (list pci_node * A) :=
  match top with
  | [] => ret ([], data)
  | x :: rest =>
      rx <- pci_walk_dev cb x data ;;
      rr <- pci_walk_bus cb rest (snd rx) ;;
      ret (fst rx :: fst rr, snd rr)
  end.

(** ** The per-device callbacks *)

(** [report_error_detected], err.c lines 48-80. *)
Definition report_error_detected (dev : pci_dev) (state : pci_channel_state)
    (result : pci_ers_result) : M (Z * pci_dev * pci_ers_result) :=
  device_lock dev ;;
  s <- pci_dev_set_io_state dev state ;;
  let dev := snd s in
  r <- match (if fst s then handler_op error_detected dev else None) with
       | None =>
           if negb (hdr_type dev =? PCI_HEADER_TYPE_BRIDGE) then
             pci_info dev "can't recover (no error_detected callback)" ;;
             ret (PCI_ERS_RESULT_NO_AER_DRIVER, dev)
           else
             ret (PCI_ERS_RESULT_NONE, dev)
       | Some cb =>
           let v := cb (drvdata dev) state in
           emit (Ev_error_detected (pci_name dev) state (fst v)) ;;
           ret (fst v, set_drvdata dev (snd v))
       end ;;
  let vote := fst r in
  let dev := snd r in
  pci_uevent_ers dev vote ;;
  let result := merge_result result vote in
  device_unlock dev ;;
  ret (0, dev, result).

(** [report_normal_detected], err.c lines 82-85. *)
Definition report_normal_detected (dev : pci_dev) (data : pci_ers_result)
    : M (Z * pci_dev * pci_ers_result) :=
  report_error_detected dev pci_channel_io_normal data.

(** [report_mmio_enabled], err.c lines 87-104. *)
Definition report_mmio_enabled (dev : pci_dev) (result : pci_ers_result)
    : M (Z * pci_dev * pci_ers_result) :=
  device_lock dev ;;
  r <- match handler_op mmio_enabled dev with
       | None => ret (dev, result)
       | Some cb =>
           let v := cb (drvdata dev) in
           emit (Ev_mmio_enabled (pci_name dev) (fst v)) ;;
           ret (set_drvdata dev (snd v), merge_result result (fst v))
       end ;;
  device_unlock (fst r) ;;
  ret (0, fst r, snd r).

(** [report_slot_reset], err.c lines 106-123. *)
Definition report_slot_reset (dev : pci_dev) (result : pci_ers_result)
    : M (Z * pci_dev * pci_ers_result) :=
  device_lock dev ;;
  r <- match handler_op slot_reset dev with
       | None => ret (dev, result)
       | Some cb =>
           let v := cb (drvdata dev) in
           emit (Ev_slot_reset (pci_name dev) (fst v)) ;;
           ret (set_drvdata dev (snd v), merge_result result (fst v))
       end ;;
  device_unlock (fst r) ;;
  ret (0, fst r, snd r).

(** [report_resume], err.c lines 125-142. *)
Definition report_resume (dev : pci_dev) (data : pci_ers_result)
    : M (Z * pci_dev * pci_ers_result) :=
  device_lock dev ;;
  s <- pci_dev_set_io_state dev pci_channel_io_normal ;;
  let dev := snd s in
  dev <- match (if fst s then handler_op resume dev else None) with
         | None => ret dev
         | Some cb =>
             emit (Ev_resume (pci_name dev)) ;;
             ret (set_drvdata dev (cb (drvdata dev)))
         end ;;
  pci_uevent_ers dev PCI_ERS_RESULT_RECOVERED ;;
  device_unlock dev ;;
  ret (0, dev, data).

(** ** The non-fatal orchestrator *)

(** [pci_reset_bus] (drivers/pci/pci.c), the external reset primitive. *)
Definition pci_reset_bus (dev : pci_dev) : M Z :=
  let r := pci_reset_bus_result dev in
  emit (Ev_pci_reset_bus (pci_name dev) r) ;;
  ret r.

Definition pcie_clear_device_status (dev : pci_dev) : M unit :=
  emit (Ev_clear_device_status (pci_name dev)).
Definition pci_aer_clear_nonfatal_status (dev : pci_dev) : M unit :=
  emit (Ev_aer_clear_nonfatal_status (pci_name dev)).
Definition pci_aer_clear_fatal_status (dev : pci_dev) : M unit :=
  emit (Ev_aer_clear_fatal_status (pci_name dev)).

(** The code after the label [failed:], err.c lines 244-250. *)
Definition nonfatal_failed (dev : pci_dev) (status : pci_ers_result) : M pci_ers_result :=
  pci_uevent_ers dev PCI_ERS_RESULT_DISCONNECT ;;
  pci_info dev "device recovery failed" ;;
  ret status.

(** The port the non-fatal recovery acts on, err.c lines 206-208:
    [dev] itself when it is a root or downstream port, else
    [dev->bus->self]. *)
Definition nonfatal_port (dev : pci_node) (dev_bus_self : option pci_node) : option pci_node :=
  if negb ((pci_pcie_type (node_dev dev) =? PCI_EXP_TYPE_ROOT_PORT) ||
           (pci_pcie_type (node_dev dev) =? PCI_EXP_TYPE_DOWNSTREAM))
  then dev_bus_self
  else Some dev.

(** Lines 211-218: the error_detected broadcast from CAN_RECOVER and, when
    its result is CAN_RECOVER, the mmio_enabled broadcast from RECOVERED. *)
Definition nonfatal_vote (dev : pci_dev) (bus : list pci_node)
    : M (list pci_node * pci_ers_result) :=
  let status := PCI_ERS_RESULT_CAN_RECOVER in
  pci_dbg dev "broadcast error_detected message" ;;
  r <- pci_walk_bus report_normal_detected bus status ;;
  if pci_ers_result_eq_dec (snd r) PCI_ERS_RESULT_CAN_RECOVER then
    pci_dbg dev "broadcast mmio_enabled message" ;;
    pci_walk_bus report_mmio_enabled (fst r) PCI_ERS_RESULT_RECOVERED
  else ret r.

(** Lines 220-230: the reset step.  [inl status] is a [goto failed] with
    that status, [inr status] falls through to line 232. *)
Definition nonfatal_reset (dev : pci_dev) (r : list pci_node * pci_ers_result)
    : M (list pci_node * (pci_ers_result + pci_ers_result)) :=
  if pci_ers_result_eq_dec (snd r) PCI_ERS_RESULT_NEED_RESET then
    rc <- pci_reset_bus dev ;;
    if rc <? 0 then
      pci_err dev "Failed to reset %d" rc ;;
      ret (fst r, inl PCI_ERS_RESULT_DISCONNECT)
    else
      pci_dbg dev "broadcast slot_reset message" ;;
      r' <- pci_walk_bus report_slot_reset (fst r) PCI_ERS_RESULT_RECOVERED ;;
      ret (fst r', inr (snd r'))
  else ret (fst r, inr (snd r)).

(** Lines 232-250: the resume broadcast and the clearing of the port's
    status when the vote is RECOVERED, the code at [failed:] otherwise. *)
Definition nonfatal_finish (dev : pci_dev)
    (r : list pci_node * (pci_ers_result + pci_ers_result))
    : M (pci_ers_result * list pci_node) :=
  match snd r with
  | inl status =>
      status <- nonfatal_failed dev status ;;
      ret (status, fst r)
  | inr status =>
      if pci_ers_result_eq_dec status PCI_ERS_RESULT_RECOVERED then
        pci_dbg dev "broadcast resume message" ;;
        r' <- pci_walk_bus report_resume (fst r) status ;;
        (if pcie_aer_is_native dev then pcie_clear_device_status dev else ret tt) ;;
        pci_aer_clear_nonfatal_status dev ;;
        pci_info dev "device recovery successful" ;;
        ret (snd r', fst r')
      else
        status <- nonfatal_failed dev status ;;
        ret (status, fst r)
  end.

(** The three steps in sequence, on the acting port and its bus. *)
Definition nonfatal_run (dev : pci_dev) (bus : list pci_node)
    : M (pci_ers_result * list pci_node) :=
  r <- nonfatal_vote dev bus ;;
  r <- nonfatal_reset dev r ;;
  nonfatal_finish dev r.

(** [pcie_do_nonfatal_recovery], err.c lines 196-251.  [dev_bus_self] is
    [dev->bus->self].  The result is [None] where the C code would
    dereference a NULL pointer; otherwise the returned status and the
    devices of the port's subordinate bus as the recovery leaves them. *)
Definition pcie_do_nonfatal_recovery (dev : pci_node) (dev_bus_self : option pci_node)
    : option (M (pci_ers_result * list pci_node)) :=
  obind (nonfatal_port dev dev_bus_self) (fun dev =>
  obind (subordinate dev) (fun bus =>
  Some (nonfatal_run (node_dev dev) bus))).

(** ** The fatal orchestrator *)

(** Modelled from the spec: [pci_stop_and_remove_bus_device]
    (drivers/pci/remove.c) is not part of the sources.  The spec, 4.4
    step 3: every device of the subtree is removed in reverse discovery
    order, children before parents, so that no device outlives its
    parent. *)
Fixpoint pci_stop_and_remove_bus_device (pdev : pci_node) : M unit :=
  match pdev with
  | Node d sub =>
      match sub with
      | None => ret tt
      | Some l =>
          (fix remove_reverse (l : list pci_node) : M unit :=
             match l with
             | [] => ret tt
             | x :: rest => remove_reverse rest ;; pci_stop_and_remove_bus_device x
             end) l
      end ;;
      emit (Ev_stop_and_remove (pci_name d))
  end.

(** [list_for_each_entry_safe_reverse] over [parent->devices], err.c lines
    162-165: the last entry first; every visited entry is unlinked, and
    the entries left on the list are returned. *)
Fixpoint remove_devices_reverse (devices : list pci_node) : M (list pci_node) :=
  match devices with
  | [] => ret []
  | pdev :: rest =>
      left <- remove_devices_reverse rest ;;
      pci_stop_and_remove_bus_device pdev ;;
      ret left
  end.

Definition pcie_wait_for_link (dev : pci_dev) : M bool :=
  let up := pcie_wait_for_link_result dev in
  emit (Ev_wait_for_link (pci_name dev) up) ;;
  ret up.

(** The bridge the fatal recovery acts on, err.c lines 152-155. *)
Definition fatal_udev (dev : pci_node) (dev_bus_self : option pci_node) : option pci_node :=
  if hdr_type (node_dev dev) =? PCI_HEADER_TYPE_BRIDGE then Some dev else dev_bus_self.

(** [pcie_do_fatal_recovery], err.c lines 144-194.  [dev_bus_self] is
    [dev->bus->self]; the result is [None] where the C code would
    dereference a NULL pointer, otherwise the value of [reset_link] and
    the devices left on the subordinate bus. *)
Definition pcie_do_fatal_recovery (dev : pci_node) (dev_bus_self : option pci_node)
    (reset_link : pci_dev -> pci_ers_result)
    : option (M (pci_ers_result * list pci_node)) :=
  obind (fatal_udev dev dev_bus_self) (fun udev =>
  obind (subordinate udev) (fun parent =>
  let dev := node_dev dev in
  let udev := node_dev udev in
  Some (
    w <- pci_walk_bus pci_dev_set_disconnected parent tt ;;
    emit Ev_lock_rescan_remove ;;
    emit (Ev_pci_dev_get (pci_name dev)) ;;
    left <- remove_devices_reverse (fst w) ;;
    let result := reset_link udev in
    emit (Ev_reset_link (pci_name udev) result) ;;
    (if hdr_type dev =? PCI_HEADER_TYPE_BRIDGE then
       pci_aer_clear_fatal_status dev ;;
       if pcie_aer_is_native dev then pcie_clear_device_status dev else ret tt
     else ret tt) ;;
    (if pci_ers_result_eq_dec result PCI_ERS_RESULT_RECOVERED then
       up <- pcie_wait_for_link udev ;;
       (if up then emit (Ev_rescan_bus (pci_name udev)) else ret tt) ;;
       pci_info dev "Device recovery from fatal error successful"
     else
       pci_uevent_ers dev PCI_ERS_RESULT_DISCONNECT ;;
       pci_info dev "Device recovery from fatal error failed") ;;
    emit (Ev_pci_dev_put (pci_name dev)) ;;
    emit Ev_unlock_rescan_remove ;;
    ret (result, left)))).

(** ** Observations used in the statements *)

(** Induction over a device tree: a device without subordinate bus, and a
    device over a bus all of whose devices satisfy the property. *)
Section pci_node_induction.
Variable P : pci_node -> Prop.
Hypothesis P_leaf : forall d, P (Node d None).
Hypothesis P_bus : forall d l, Forall P l -> P (Node d (Some l)).

Fixpoint pci_node_ind (n : pci_node) : P n :=
  match n with
  | Node d None => P_leaf d
  | Node d (Some l) =>
      P_bus d
        ((fix all (l : list pci_node) : Forall P l :=
            match l with
            | [] => Forall_nil P
            | x :: rest => Forall_cons x (pci_node_ind x) (all rest)
            end) l)
  end.
End pci_node_induction.

(** The devices on the subordinate bus of a device, none for a NULL bus. *)
Definition children (n : pci_node) : list pci_node :=
  match subordinate n with
  | None => []
  | Some l => l
  end.

(** The devices of a subtree in discovery order (pre-order). *)
Fixpoint node_devs (n : pci_node) : list pci_dev :=
  match n with
  | Node d sub =>
      d :: match sub with
           | None => []
           | Some l =>
               (fix devs (l : list pci_node) : list pci_dev :=
                  match l with
                  | [] => []
                  | x :: rest => node_devs x ++ devs rest
                  end) l
           end
  end.

Fixpoint bus_devs (l : list pci_node) : list pci_dev :=
  match l with
  | [] => []
  | x :: rest => node_devs x ++ bus_devs rest
  end.

(** A callback folded over a list of devices, left to right. *)
Fixpoint walk_devs (A : Type) (cb : pci_dev -> A -> M (Z * pci_dev * A))
    (l : list pci_dev) (data : A) : M (list pci_dev * A) :=
  match l with
  | [] => ret ([], data)
  | d :: rest =>
      r <- cb d data ;;
      rr <- walk_devs cb rest (snd r) ;;
      ret (snd (fst r) :: fst rr, snd rr)
  end.

(** A walk result read through the discovery order of its devices. *)
Definition in_order (A : Type) (m : M (list pci_node * A)) : M (list pci_dev * A) :=
  (bus_devs (fst (fst m)), snd (fst m), snd m).

(** [n] is a device somewhere in the forest [l]. *)
Inductive in_bus (n : pci_node) : list pci_node -> Prop :=
| in_bus_here : forall l, In n l -> in_bus n l
| in_bus_below : forall m l, In m l -> in_bus n (children m) -> in_bus n l.

(** The device is bound to a driver whose [error_detected] always votes
    CAN_RECOVER and whose [mmio_enabled] always votes RECOVERED. *)
Definition driver_votes_recoverable (bound : option pci_driver) : Prop :=
  exists drv eh cb_detect cb_mmio,
    bound = Some drv /\
    err_handler drv = Some eh /\
    error_detected eh = Some cb_detect /\
    (forall x st, fst (cb_detect x st) = PCI_ERS_RESULT_CAN_RECOVER) /\
    mmio_enabled eh = Some cb_mmio /\
    (forall x, fst (cb_mmio x) = PCI_ERS_RESULT_RECOVERED).

Definition votes_recoverable (dev : pci_dev) : Prop :=
  driver_votes_recoverable (driver dev).

(** The device has no bound driver, or the driver has no handler table, or
    the table lacks [error_detected]. *)
Definition no_error_detected (dev : pci_dev) : Prop :=
  driver dev = None \/
  (exists drv, driver dev = Some drv /\ err_handler drv = None) \/
  (exists drv eh, driver dev = Some drv /\ err_handler drv = Some eh /\
                  error_detected eh = None).

(** The vote of a device whose [error_detected] is not called. *)
Definition silent_vote (dev : pci_dev) : pci_ers_result :=
  if hdr_type dev =? PCI_HEADER_TYPE_BRIDGE
  then PCI_ERS_RESULT_NONE
  else PCI_ERS_RESULT_NO_AER_DRIVER.

(** The removal calls for the devices [l], last device first. *)
Definition removals (l : list pci_dev) : list event :=
  map Ev_stop_and_remove (rev (map pci_name l)).

(** The message logged for a non-bridge device that cannot vote. *)
Definition cant_recover_msg : string := "can't recover (no error_detected callback)".

(** The one channel-state set of a visit that asks for NORMAL: it fails
    on a device already marked PERM_FAILURE. *)
Definition set_normal_event (d : pci_dev) : list event :=
  [Ev_set_io_state (pci_name d) pci_channel_io_normal
     (if pci_channel_state_eq_dec (error_state d) pci_channel_io_perm_failure
      then false else true)].

(** The channel state [report_error_detected] and [report_resume] leave
    behind when asked for NORMAL. *)
Definition normal_unless_failed (s : pci_channel_state) : pci_channel_state :=
  match s with
  | pci_channel_io_perm_failure => pci_channel_io_perm_failure
  | _ => pci_channel_io_normal
  end.

End Recovery.

(** Events of the fatal teardown: marking, removal and the link reset. *)
Definition is_teardown (e : event) : bool :=
  match e with
  | Ev_set_disconnected _ | Ev_stop_and_remove _ | Ev_reset_link _ _ => true
  | _ => false
  end.

(** Events that change or remove a device: a channel-state set, a
    disconnect mark, a removal. *)
Definition is_mutation (e : event) : bool :=
  match e with
  | Ev_set_io_state _ _ _ | Ev_set_disconnected _ | Ev_stop_and_remove _ => true
  | _ => false
  end.

Definition is_uevent (e : event) : bool :=
  match e with
  | Ev_uevent_ers _ _ => true
  | _ => false
  end.

(** DISCONNECT notifications. *)
Definition is_disconnect_uevent (e : event) : bool :=
  match e with
  | Ev_uevent_ers _ PCI_ERS_RESULT_DISCONNECT => true
  | _ => false
  end.

Definition is_set_io_state (e : event) : bool :=
  match e with
  | Ev_set_io_state _ _ _ => true
  | _ => false
  end.

(** Driver callbacks. *)
Definition is_callback (e : event) : bool :=
  match e with
  | Ev_error_detected _ _ _ | Ev_mmio_enabled _ _ | Ev_slot_reset _ _ | Ev_resume _ => true
  | _ => false
  end.

(** Events that only a slot_reset or resume broadcast makes: its
    announcement and its callbacks. *)
Definition is_slot_reset_or_resume (e : event) : bool :=
  match e with
  | Ev_slot_reset _ _ | Ev_resume _ => true
  | Ev_pci_dbg _ msg =>
      String.eqb msg "broadcast slot_reset message" ||
      String.eqb msg "broadcast resume message"
  | _ => false
  end.

(** The channel state an event asks for or reports is NORMAL. *)
Definition state_is_normal (e : event) : Prop :=
  match e with
  | Ev_set_io_state _ new _ => new = pci_channel_io_normal
  | Ev_error_detected _ state _ => state = pci_channel_io_normal
  | _ => True
  end.


(** ** Further observations *)

Section Votes.
Variable D : Type.
Variable PCI_HEADER_TYPE_BRIDGE : Z.

(** The vote a device casts when [report_error_detected] visits it with
    [state]: its handler's answer if the device is not marked PERM_FAILURE
    and has [error_detected], the vote of a silent device otherwise. *)
Definition detect_vote (state : pci_channel_state) (dev : pci_dev D) : pci_ers_result :=
  match (if pci_channel_state_eq_dec (error_state dev) pci_channel_io_perm_failure
         then None else handler_op (@error_detected D) dev) with
  | None => silent_vote PCI_HEADER_TYPE_BRIDGE dev
  | Some cb => fst (cb (drvdata dev) state)
  end.

(** The answer of the device's [mmio_enabled], if it has one. *)
Definition mmio_vote (dev : pci_dev D) : option pci_ers_result :=
  option_map (fun cb => fst (cb (drvdata dev))) (handler_op (@mmio_enabled D) dev).

(** The answer of the device's [slot_reset], if it has one. *)
Definition slot_vote (dev : pci_dev D) : option pci_ers_result :=
  option_map (fun cb => fst (cb (drvdata dev))) (handler_op (@slot_reset D) dev).

(** The device has a [resume] that [report_resume] calls: it is not marked
    PERM_FAILURE and its driver has the operation. *)
Definition resume_called (dev : pci_dev D) : bool :=
  if pci_channel_state_eq_dec (error_state dev) pci_channel_io_perm_failure then false
  else match handler_op (@resume D) dev with
       | None => false
       | Some _ => true
       end.

(** The names of a subtree with its structure, and nothing else. *)
#[local] Unset Elimination Schemes.
Inductive bus_shape : Type :=
| Shape (name : string) (below : option (list bus_shape)).

#[local] Set Elimination Schemes.

Fixpoint node_shape (n : pci_node D) : bus_shape :=
  match n with
  | Node d sub =>
      Shape (pci_name d)
        match sub with
        | None => None
        | Some l =>
            Some ((fix shapes (l : list (pci_node D)) : list bus_shape :=
                     match l with
                     | [] => []
                     | x :: rest => node_shape x :: shapes rest
                     end) l)
        end
  end.

(** The device lock taken and released around one visit. *)
Definition locked_once (d : pci_dev D) : list event :=
  [Ev_device_lock (pci_name d); Ev_device_unlock (pci_name d)].

(** The four callbacks that [pcie_do_nonfatal_recovery] broadcasts. *)
Definition nonfatal_callbacks
    : list (pci_dev D -> pci_ers_result -> M (Z * pci_dev D * pci_ers_result)) :=
  [report_normal_detected PCI_HEADER_TYPE_BRIDGE;
   @report_mmio_enabled D;
   @report_slot_reset D;
   @report_resume D].

End Votes.

(** A vote given as a list: nothing for no vote. *)
Definition cast (v : option pci_ers_result) : list pci_ers_result :=
  match v with
  | None => []
  | Some x => [x]
  end.

(** CAN_RECOVER and RECOVERED, the two votes a later vote replaces. *)
Definition optimistic (v : pci_ers_result) : Prop :=
  v = PCI_ERS_RESULT_CAN_RECOVER \/ v = PCI_ERS_RESULT_RECOVERED.

Definition is_device_lock (e : event) : bool :=
  match e with
  | Ev_device_lock _ | Ev_device_unlock _ => true
  | _ => false
  end.

Definition is_reset_bus (e : event) : bool :=
  match e with
  | Ev_pci_reset_bus _ _ => true
  | _ => false
  end.

(** The global rescan/remove lock and the reference on the reporting
    device. *)
Definition is_rescan_bracket (e : event) : bool :=
  match e with
  | Ev_lock_rescan_remove | Ev_unlock_rescan_remove
  | Ev_pci_dev_get _ | Ev_pci_dev_put _ => true
  | _ => false
  end.

Definition is_status_clear (e : event) : bool :=
  match e with
  | Ev_aer_clear_fatal_status _ | Ev_aer_clear_nonfatal_status _
  | Ev_clear_device_status _ => true
  | _ => false
  end.

(** What the fatal recovery does once it has the result of the reset:
    waiting for the link, rescanning, notifying, logging. *)
Definition is_fatal_outcome (e : event) : bool :=
  match e with
  | Ev_wait_for_link _ _ | Ev_rescan_bus _ | Ev_uevent_ers _ _ | Ev_pci_info _ _ => true
  | _ => false
  end.

(** * Concrete topologies

    A root port [00:1c.0] over a switch port [01:00.0] with one endpoint
    [02:00.0] behind it, and a second endpoint [01:00.1] next to the switch
    port.  The driver data is a counter of callbacks received. *)
Module Examples.

Definition BRIDGE : Z := 1.
Definition ROOT_PORT : Z := 4.
Definition DOWNSTREAM : Z := 6.
Definition ENDPOINT : Z := 0.

Definition counting (v : pci_ers_result) (n : nat) : pci_ers_result * nat := (v, S n).

(** Votes CAN_RECOVER, then RECOVERED; has no [slot_reset]. *)
Definition recovering : pci_driver nat :=
  mk_pci_driver (Some (mk_pci_error_handlers
    (Some (fun n _ => counting PCI_ERS_RESULT_CAN_RECOVER n))
    (Some (counting PCI_ERS_RESULT_RECOVERED))
    None
    (Some S))).

(** Votes CAN_RECOVER, then asks for a reset, then RECOVERED. *)
Definition resetting : pci_driver nat :=
  mk_pci_driver (Some (mk_pci_error_handlers
    (Some (fun n _ => counting PCI_ERS_RESULT_CAN_RECOVER n))
    (Some (counting PCI_ERS_RESULT_NEED_RESET))
    (Some (counting PCI_ERS_RESULT_RECOVERED))
    (Some S))).

Definition root_port : pci_dev nat :=
  mk_pci_dev "00:1c.0" BRIDGE ROOT_PORT pci_channel_io_normal None 0%nat.

Definition switch_port (s : pci_channel_state) (drv : option (pci_driver nat)) : pci_dev nat :=
  mk_pci_dev "01:00.0" BRIDGE DOWNSTREAM s drv 0%nat.

Definition endpoint (name : string) (s : pci_channel_state) (drv : option (pci_driver nat))
    : pci_dev nat :=
  mk_pci_dev name 0 ENDPOINT s drv 0%nat.

(** Every device bound to [recovering], one endpoint frozen. *)
Definition healthy : pci_node nat :=
  Node root_port (Some
    [Node (switch_port pci_channel_io_normal (Some recovering)) (Some
       [Node (endpoint "02:00.0" pci_channel_io_frozen (Some recovering)) None]);
     Node (endpoint "01:00.1" pci_channel_io_normal (Some recovering)) None]).

(** As [healthy], but the endpoint [01:00.1] was marked PERM_FAILURE
    before the recovery starts. *)
Definition unplugged : pci_node nat :=
  Node root_port (Some
    [Node (switch_port pci_channel_io_normal (Some recovering)) (Some
       [Node (endpoint "02:00.0" pci_channel_io_frozen (Some recovering)) None]);
     Node (endpoint "01:00.1" pci_channel_io_perm_failure (Some recovering)) None]).

(** The endpoint [02:00.0] asks for a reset in [mmio_enabled]. *)
Definition wants_reset : pci_node nat :=
  Node root_port (Some
    [Node (switch_port pci_channel_io_normal (Some recovering)) (Some
       [Node (endpoint "02:00.0" pci_channel_io_normal (Some resetting)) None]);
     Node (endpoint "01:00.1" pci_channel_io_normal (Some recovering)) None]).

(** The endpoint [01:00.1] has no driver. *)
Definition driverless : pci_node nat :=
  Node root_port (Some
    [Node (switch_port pci_channel_io_normal None) (Some
       [Node (endpoint "02:00.0" pci_channel_io_normal (Some recovering)) None]);
     Node (endpoint "01:00.1" pci_channel_io_normal None) None]).

Definition reset_ok (dev : pci_dev nat) : Z := 0.
Definition reset_fails (dev : pci_dev nat) : Z := -25.
Definition native (dev : pci_dev nat) : bool := true.
Definition link_up (dev : pci_dev nat) : bool := true.
Definition link_recovered (dev : pci_dev nat) : pci_ers_result := PCI_ERS_RESULT_RECOVERED.

End Examples.

(** * Properties *)

Unset Implicit Arguments.

(** ** The writer monad *)

Lemma value_bind (A B : Type) (m : M A) (f : A -> M B) :
  value (bind m f) = value (f (value m)).
Proof. reflexivity. Qed.

Lemma trace_bind (A B : Type) (m : M A) (f : A -> M B) :
  trace (bind m f) = trace m ++ trace (f (value m)).
Proof. reflexivity. Qed.

Lemma M_eq (A : Type) (m n : M A) :
  value m = value n -> trace m = trace n -> m = n.
Proof. destruct m, n; simpl; intros; subst; reflexivity. Qed.

Lemma bind_assoc (A B C : Type) (m : M A) (f : A -> M B) (g : B -> M C) :
  bind (bind m f) g = bind m (fun a => bind (f a) g).
Proof. apply M_eq; simpl; [reflexivity | apply eq_sym, app_assoc]. Qed.

(** ** The vote merger *)

(** C4 (veto absorption): for every vote [v], merging an incoming
    NO_DRIVER vote into [v] gives NO_DRIVER. *)
Theorem merge_result_no_aer_driver :
  forall v, merge_result v PCI_ERS_RESULT_NO_AER_DRIVER = PCI_ERS_RESULT_NO_AER_DRIVER.
Proof. intros v; destruct v; reflexivity. Qed.

(** C9 (abstention): for every vote [v], merging an incoming NONE vote
    into [v] leaves [v] unchanged. *)
Theorem merge_result_none :
  forall v, merge_result v PCI_ERS_RESULT_NONE = v.
Proof. intros v; destruct v; reflexivity. Qed.

(** C5: for an incoming vote that is neither NONE nor NO_DRIVER, a current
    vote of CAN_RECOVER or RECOVERED is replaced by the incoming vote; a
    current DISCONNECT becomes NEED_RESET when the incoming vote is
    NEED_RESET and stays DISCONNECT otherwise (so DISCONNECT merged with
    CAN_RECOVER is DISCONNECT); any other current vote is returned
    unchanged. *)
Theorem merge_result_override :
  forall current incoming,
    incoming <> PCI_ERS_RESULT_NONE ->
    incoming <> PCI_ERS_RESULT_NO_AER_DRIVER ->
    (current = PCI_ERS_RESULT_CAN_RECOVER \/ current = PCI_ERS_RESULT_RECOVERED ->
     merge_result current incoming = incoming) /\
    (current = PCI_ERS_RESULT_DISCONNECT ->
     (incoming = PCI_ERS_RESULT_NEED_RESET ->
      merge_result current incoming = PCI_ERS_RESULT_NEED_RESET) /\
     (incoming <> PCI_ERS_RESULT_NEED_RESET ->
      merge_result current incoming = PCI_ERS_RESULT_DISCONNECT)) /\
    (current <> PCI_ERS_RESULT_CAN_RECOVER ->
     current <> PCI_ERS_RESULT_RECOVERED ->
     current <> PCI_ERS_RESULT_DISCONNECT ->
     merge_result current incoming = current) /\
    merge_result PCI_ERS_RESULT_DISCONNECT PCI_ERS_RESULT_CAN_RECOVER
      = PCI_ERS_RESULT_DISCONNECT.
Proof.
  intros current incoming Hnone Hnodrv.
  split; [|split; [|split]].
  - intros [-> | ->]; destruct incoming; try reflexivity; contradiction.
  - intros ->; split.
    + intros ->; reflexivity.
    + intros Hreset; destruct incoming; try reflexivity; contradiction.
  - intros H1 H2 H3; destruct current, incoming; try reflexivity; contradiction.
  - reflexivity.
Qed.

(** ** The walker *)

Section Walker.
Variable D : Type.
Variable A : Type.
Variable cb : pci_dev D -> A -> M (Z * pci_dev D * A).

Lemma pci_walk_dev_bus (d : pci_dev D) (l : list (pci_node D)) (a : A) :
  pci_walk_dev cb (Node d (Some l)) a =
  bind (cb d a) (fun r =>
  bind (pci_walk_bus cb l (snd r)) (fun r' =>
  ret (Node (snd (fst r)) (Some (fst r')), snd r'))).
Proof.
  simpl. unfold bind at 1 2. cbv beta.
  match goal with
  | |- context [?w l (snd (fst (cb d a)))] =>
      assert (Hw : forall l a, w l a = pci_walk_bus cb l a)
  end.
  { clear. intros l. induction l as [|x rest IH]; intros a; [reflexivity|].
    simpl. unfold bind. cbv beta. rewrite !IH. reflexivity. }
  rewrite !Hw. reflexivity.
Qed.

Lemma node_devs_bus (d : pci_dev D) (l : list (pci_node D)) :
  node_devs (Node d (Some l)) = d :: bus_devs l.
Proof. simpl. f_equal. Qed.

Lemma walk_devs_app (l1 l2 : list (pci_dev D)) (a : A) :
  walk_devs cb (l1 ++ l2) a =
  bind (walk_devs cb l1 a) (fun r1 =>
  bind (walk_devs cb l2 (snd r1)) (fun r2 =>
  ret (fst r1 ++ fst r2, snd r2))).
Proof.
  revert a. induction l1 as [|d l1 IH]; intros a.
  - apply M_eq; simpl; [destruct (walk_devs cb l2 a) as [[? ?] ?]; reflexivity|].
    rewrite app_nil_r. reflexivity.
  - simpl. unfold bind, ret. cbn [fst snd]. rewrite !IH.
    unfold bind, ret. cbn [fst snd].
    rewrite !app_nil_r, !app_assoc. reflexivity.
Qed.

Lemma pci_walk_dev_in_order (n : pci_node D) (a : A) :
  (node_devs (fst (fst (pci_walk_dev cb n a))),
   snd (fst (pci_walk_dev cb n a)),
   snd (pci_walk_dev cb n a)) = walk_devs cb (node_devs n) a.
Proof.
  revert a. induction n as [d | d l IH] using pci_node_ind; intros a.
  - simpl. unfold bind, ret. cbn [fst snd]. rewrite !app_nil_r. reflexivity.
  - rewrite pci_walk_dev_bus, node_devs_bus.
    assert (Hl : forall a, in_order (pci_walk_bus cb l a) = walk_devs cb (bus_devs l) a).
    { clear a. induction IH as [|x rest Hx _ IHrest]; intros a; [reflexivity|].
      cbn [pci_walk_bus bus_devs]. rewrite walk_devs_app, <- Hx.
      unfold in_order, bind, ret. cbn [fst snd].
      rewrite <- IHrest. unfold in_order. cbn [fst snd].
      rewrite !app_nil_r. reflexivity. }
    cbn [walk_devs]. unfold bind, ret. cbn [fst snd].
    rewrite <- Hl. unfold in_order. cbn [fst snd].
    rewrite !app_nil_r. reflexivity.
Qed.

(** A walk over a bus visits its devices in discovery order: it is the
    callback folded over [bus_devs]. *)
Lemma pci_walk_bus_in_order (l : list (pci_node D)) (a : A) :
  in_order (pci_walk_bus cb l a) = walk_devs cb (bus_devs l) a.
Proof.
  revert a. induction l as [|x rest IH]; intros a; [reflexivity|].
  cbn [pci_walk_bus bus_devs]. rewrite walk_devs_app, <- pci_walk_dev_in_order.
  unfold in_order, bind, ret. cbn [fst snd].
  rewrite <- IH. unfold in_order. cbn [fst snd].
  rewrite !app_nil_r. reflexivity.
Qed.

Lemma pci_walk_bus_devs (l : list (pci_node D)) (a : A) :
  bus_devs (fst (fst (pci_walk_bus cb l a))) = fst (fst (walk_devs cb (bus_devs l) a)).
Proof. rewrite <- pci_walk_bus_in_order. reflexivity. Qed.

Lemma pci_walk_bus_data (l : list (pci_node D)) (a : A) :
  snd (fst (pci_walk_bus cb l a)) = snd (fst (walk_devs cb (bus_devs l) a)).
Proof. rewrite <- pci_walk_bus_in_order. reflexivity. Qed.

Lemma pci_walk_bus_trace (l : list (pci_node D)) (a : A) :
  snd (pci_walk_bus cb l a) = snd (walk_devs cb (bus_devs l) a).
Proof. rewrite <- pci_walk_bus_in_order. reflexivity. Qed.

(** What every visit preserves, the walk preserves on every device. *)
Lemma walk_devs_map (X : Type) (proj : pci_dev D -> X) (g : X -> X) :
  (forall d a, proj (snd (fst (fst (cb d a)))) = g (proj d)) ->
  forall l a, map proj (fst (fst (walk_devs cb l a))) = map g (map proj l).
Proof.
  intros Hcb l. induction l as [|d rest IH]; intros a; [reflexivity|].
  simpl. f_equal; [apply Hcb | apply IH].
Qed.

Lemma walk_devs_trace_Forall (Q : event -> Prop) :
  (forall d a, Forall Q (snd (cb d a))) ->
  forall l a, Forall Q (snd (walk_devs cb l a)).
Proof.
  intros Hcb l. induction l as [|d rest IH]; intros a; [constructor|].
  simpl. rewrite app_nil_r. apply Forall_app. split; [apply Hcb | apply IH].
Qed.

Lemma walk_devs_trace_filter (p : event -> bool) (F : pci_dev D -> list event) :
  (forall d a, filter p (snd (cb d a)) = F d) ->
  forall l a, filter p (snd (walk_devs cb l a)) = flat_map F l.
Proof.
  intros Hcb l. induction l as [|d rest IH]; intros a; [reflexivity|].
  simpl. rewrite app_nil_r, filter_app. f_equal; [apply Hcb | apply IH].
Qed.

(** A running value that no visit of the list changes is the result. *)
Lemma walk_devs_data_fixed (l : list (pci_dev D)) (a : A) :
  Forall (fun d => snd (fst (cb d a)) = a) l ->
  snd (fst (walk_devs cb l a)) = a.
Proof.
  induction 1 as [|d rest Hd _ IH]; [reflexivity|].
  simpl. unfold value in Hd. rewrite Hd. exact IH.
Qed.

Lemma pci_walk_bus_map (X : Type) (proj : pci_dev D -> X) (g : X -> X) :
  (forall d a, proj (snd (fst (fst (cb d a)))) = g (proj d)) ->
  forall l a,
    map proj (bus_devs (fst (fst (pci_walk_bus cb l a)))) = map g (map proj (bus_devs l)).
Proof. intros Hcb l a. rewrite pci_walk_bus_devs. apply walk_devs_map, Hcb. Qed.

Lemma pci_walk_bus_trace_Forall (Q : event -> Prop) :
  (forall d a, Forall Q (snd (cb d a))) ->
  forall l a, Forall Q (snd (pci_walk_bus cb l a)).
Proof. intros Hcb l a. rewrite pci_walk_bus_trace. apply walk_devs_trace_Forall, Hcb. Qed.

Lemma pci_walk_bus_trace_filter (p : event -> bool) (F : pci_dev D -> list event) :
  (forall d a, filter p (snd (cb d a)) = F d) ->
  forall l a, filter p (snd (pci_walk_bus cb l a)) = flat_map F (bus_devs l).
Proof. intros Hcb l a. rewrite pci_walk_bus_trace. apply walk_devs_trace_filter, Hcb. Qed.

Lemma pci_walk_bus_trace_filter_nil (p : event -> bool) :
  (forall d a, filter p (snd (cb d a)) = []) ->
  forall l a, filter p (snd (pci_walk_bus cb l a)) = [].
Proof.
  intros Hcb l a. rewrite (pci_walk_bus_trace_filter p (fun _ => []) Hcb).
  induction (bus_devs l); [reflexivity | assumption].
Qed.

Lemma pci_walk_bus_data_fixed (l : list (pci_node D)) (a : A) :
  Forall (fun d => snd (fst (cb d a)) = a) (bus_devs l) ->
  snd (fst (pci_walk_bus cb l a)) = a.
Proof. intros H. rewrite pci_walk_bus_data. apply walk_devs_data_fixed, H. Qed.

End Walker.

(** ** The per-device callbacks *)

(** Case analysis of one visit: the channel state, the driver chain and
    the header type decide everything. *)
Ltac visit_cases dev :=
  let n := fresh "n" in
  let h := fresh "h" in
  let t := fresh "t" in
  let e := fresh "e" in
  let drv := fresh "drv" in
  let x := fresh "x" in
  destruct dev as [n h t e drv x];
  unfold report_normal_detected, report_error_detected, report_mmio_enabled,
    report_slot_reset, report_resume, pci_dev_set_io_state, handler_op, bind, value, trace;
  cbn [fst snd pci_name hdr_type pcie_type error_state driver drvdata
       set_error_state set_drvdata];
  destruct e; cbn;
  try (destruct drv as [[[[ed mm sl rs]|]]|]; cbn;
       try destruct ed; try destruct mm; try destruct sl; try destruct rs; cbn);
  try match goal with
      | |- context [h =? ?b] => destruct (h =? b)
      end; cbn.

Section Callbacks.
Variable D : Type.
Variable PCI_HEADER_TYPE_BRIDGE : Z.

Lemma no_error_detected_handler_op (dev : pci_dev D) :
  no_error_detected dev -> handler_op (@error_detected D) dev = None.
Proof.
  unfold handler_op.
  intros [H | [(drv & H1 & H2) | (drv & eh & H1 & H2 & H3)]].
  - rewrite H. reflexivity.
  - rewrite H1, H2. reflexivity.
  - rewrite H1, H2. exact H3.
Qed.

Lemma set_io_state_changed (dev : pci_dev D) (state : pci_channel_state) :
  error_state dev <> pci_channel_io_perm_failure ->
  pci_dev_set_io_state dev state =
  ((true, set_error_state dev state), [Ev_set_io_state (pci_name dev) state true]).
Proof.
  intros H. unfold pci_dev_set_io_state.
  destruct (pci_channel_state_eq_dec (error_state dev) pci_channel_io_perm_failure);
    [contradiction | reflexivity].
Qed.

Lemma set_io_state_failed (dev : pci_dev D) (state : pci_channel_state) :
  error_state dev = pci_channel_io_perm_failure ->
  pci_dev_set_io_state dev state =
  ((false, dev), [Ev_set_io_state (pci_name dev) state false]).
Proof.
  intros H. unfold pci_dev_set_io_state.
  destruct (pci_channel_state_eq_dec (error_state dev) pci_channel_io_perm_failure);
    [reflexivity | contradiction].
Qed.

(** The visit of a device whose [error_detected] is not called. *)
Lemma report_error_detected_silent (dev : pci_dev D) (state : pci_channel_state)
    (result : pci_ers_result) :
  (if fst (fst (pci_dev_set_io_state dev state))
   then handler_op (@error_detected D) dev else None) = None ->
  report_error_detected PCI_HEADER_TYPE_BRIDGE dev state result =
  ((0, snd (fst (pci_dev_set_io_state dev state)),
    merge_result result (silent_vote PCI_HEADER_TYPE_BRIDGE dev)),
   [Ev_device_lock (pci_name dev);
    Ev_set_io_state (pci_name dev) state (fst (fst (pci_dev_set_io_state dev state)))] ++
   (if hdr_type dev =? PCI_HEADER_TYPE_BRIDGE then []
    else [Ev_pci_info (pci_name dev) cant_recover_msg]) ++
   [Ev_uevent_ers (pci_name dev) (silent_vote PCI_HEADER_TYPE_BRIDGE dev);
    Ev_device_unlock (pci_name dev)]).
Proof.
  intros H. unfold report_error_detected, silent_vote.
  destruct dev as [n h t e drv x]. unfold pci_dev_set_io_state, bind in *. simpl in *.
  destruct (pci_channel_state_eq_dec e pci_channel_io_perm_failure); simpl in *.
  - destruct (h =? PCI_HEADER_TYPE_BRIDGE); reflexivity.
  - change (handler_op (@error_detected D) (set_error_state (mk_pci_dev n h t e drv x) state))
      with (handler_op (@error_detected D) (mk_pci_dev n h t e drv x)).
    rewrite H. destruct (h =? PCI_HEADER_TYPE_BRIDGE); reflexivity.
Qed.

(** The visit of a device whose [error_detected] is called. *)
Lemma report_error_detected_called (dev : pci_dev D) (state : pci_channel_state)
    (result : pci_ers_result) cb :
  error_state dev <> pci_channel_io_perm_failure ->
  handler_op (@error_detected D) dev = Some cb ->
  report_error_detected PCI_HEADER_TYPE_BRIDGE dev state result =
  ((0, set_drvdata (set_error_state dev state) (snd (cb (drvdata dev) state)),
    merge_result result (fst (cb (drvdata dev) state))),
   [Ev_device_lock (pci_name dev);
    Ev_set_io_state (pci_name dev) state true;
    Ev_error_detected (pci_name dev) state (fst (cb (drvdata dev) state));
    Ev_uevent_ers (pci_name dev) (fst (cb (drvdata dev) state));
    Ev_device_unlock (pci_name dev)]).
Proof.
  intros He H. unfold report_error_detected.
  rewrite (set_io_state_changed dev state He).
  destruct dev as [n h t e drv x]. unfold bind. simpl in *.
  change (handler_op (@error_detected D) (set_error_state (mk_pci_dev n h t e drv x) state))
    with (handler_op (@error_detected D) (mk_pci_dev n h t e drv x)).
  rewrite H. reflexivity.
Qed.

Lemma report_normal_detected_name (d : pci_dev D) (a : pci_ers_result) :
  pci_name (snd (fst (fst (report_normal_detected PCI_HEADER_TYPE_BRIDGE d a)))) = pci_name d.
Proof. visit_cases d; reflexivity. Qed.

Lemma report_normal_detected_driver (d : pci_dev D) (a : pci_ers_result) :
  driver (snd (fst (fst (report_normal_detected PCI_HEADER_TYPE_BRIDGE d a)))) = driver d.
Proof. visit_cases d; reflexivity. Qed.

Lemma report_normal_detected_state (d : pci_dev D) (a : pci_ers_result) :
  error_state (snd (fst (fst (report_normal_detected PCI_HEADER_TYPE_BRIDGE d a))))
  = normal_unless_failed (error_state d).
Proof. visit_cases d; reflexivity. Qed.

Lemma report_mmio_enabled_name (d : pci_dev D) (a : pci_ers_result) :
  pci_name (snd (fst (fst (report_mmio_enabled d a)))) = pci_name d.
Proof. visit_cases d; reflexivity. Qed.

Lemma report_mmio_enabled_driver (d : pci_dev D) (a : pci_ers_result) :
  driver (snd (fst (fst (report_mmio_enabled d a)))) = driver d.
Proof. visit_cases d; reflexivity. Qed.

Lemma report_mmio_enabled_state (d : pci_dev D) (a : pci_ers_result) :
  error_state (snd (fst (fst (report_mmio_enabled d a)))) = error_state d.
Proof. visit_cases d; reflexivity. Qed.

Lemma report_slot_reset_name (d : pci_dev D) (a : pci_ers_result) :
  pci_name (snd (fst (fst (report_slot_reset d a)))) = pci_name d.
Proof. visit_cases d; reflexivity. Qed.

Lemma report_slot_reset_state (d : pci_dev D) (a : pci_ers_result) :
  error_state (snd (fst (fst (report_slot_reset d a)))) = error_state d.
Proof. visit_cases d; reflexivity. Qed.

Lemma report_resume_name (d : pci_dev D) (a : pci_ers_result) :
  pci_name (snd (fst (fst (report_resume d a)))) = pci_name d.
Proof. visit_cases d; reflexivity. Qed.

Lemma report_resume_state (d : pci_dev D) (a : pci_ers_result) :
  error_state (snd (fst (fst (report_resume d a)))) = normal_unless_failed (error_state d).
Proof. visit_cases d; reflexivity. Qed.

Lemma report_resume_data (d : pci_dev D) (a : pci_ers_result) :
  snd (fst (report_resume d a)) = a.
Proof. visit_cases d; reflexivity. Qed.

Lemma report_normal_detected_mutation (d : pci_dev D) (a : pci_ers_result) :
  filter is_mutation (snd (report_normal_detected PCI_HEADER_TYPE_BRIDGE d a))
  = set_normal_event d.
Proof. visit_cases d; reflexivity. Qed.

Lemma report_normal_detected_set_io (d : pci_dev D) (a : pci_ers_result) :
  filter is_set_io_state (snd (report_normal_detected PCI_HEADER_TYPE_BRIDGE d a))
  = set_normal_event d.
Proof. visit_cases d; reflexivity. Qed.

Lemma report_mmio_enabled_mutation (d : pci_dev D) (a : pci_ers_result) :
  filter is_mutation (snd (report_mmio_enabled d a)) = [].
Proof. visit_cases d; reflexivity. Qed.

Lemma report_slot_reset_mutation (d : pci_dev D) (a : pci_ers_result) :
  filter is_mutation (snd (report_slot_reset d a)) = [].
Proof. visit_cases d; reflexivity. Qed.

Lemma report_mmio_enabled_uevent (d : pci_dev D) (a : pci_ers_result) :
  filter is_uevent (snd (report_mmio_enabled d a)) = [].
Proof. visit_cases d; reflexivity. Qed.

Lemma report_slot_reset_uevent (d : pci_dev D) (a : pci_ers_result) :
  filter is_uevent (snd (report_slot_reset d a)) = [].
Proof. visit_cases d; reflexivity. Qed.

Lemma report_normal_detected_normal (d : pci_dev D) (a : pci_ers_result) :
  Forall state_is_normal (snd (report_normal_detected PCI_HEADER_TYPE_BRIDGE d a)).
Proof. visit_cases d; repeat constructor. Qed.

Lemma report_mmio_enabled_normal (d : pci_dev D) (a : pci_ers_result) :
  Forall state_is_normal (snd (report_mmio_enabled d a)).
Proof. visit_cases d; repeat constructor. Qed.

Lemma report_slot_reset_normal (d : pci_dev D) (a : pci_ers_result) :
  Forall state_is_normal (snd (report_slot_reset d a)).
Proof. visit_cases d; repeat constructor. Qed.

Lemma report_resume_normal (d : pci_dev D) (a : pci_ers_result) :
  Forall state_is_normal (snd (report_resume d a)).
Proof. visit_cases d; repeat constructor. Qed.

Lemma report_normal_detected_early (d : pci_dev D) (a : pci_ers_result) :
  Forall (fun e => is_slot_reset_or_resume e = false)
    (snd (report_normal_detected PCI_HEADER_TYPE_BRIDGE d a)).
Proof. visit_cases d; repeat constructor. Qed.

Lemma report_mmio_enabled_early (d : pci_dev D) (a : pci_ers_result) :
  Forall (fun e => is_slot_reset_or_resume e = false) (snd (report_mmio_enabled d a)).
Proof. visit_cases d; repeat constructor. Qed.

(** C3: in the error_detected phase a device with no bound driver, no
    handler table or no [error_detected] operation contributes NO_DRIVER
    when it is not a bridge, and the message is logged; a bridge
    contributes NONE.  The contributed vote is the one notified and
    merged into the running vote. *)
Theorem report_error_detected_no_handler :
  forall (dev : pci_dev D) (state : pci_channel_state) (result : pci_ers_result),
    no_error_detected dev ->
    let set := pci_dev_set_io_state dev state in
    let name := pci_name dev in
    (hdr_type dev <> PCI_HEADER_TYPE_BRIDGE ->
     report_error_detected PCI_HEADER_TYPE_BRIDGE dev state result =
     ((0, snd (value set), merge_result result PCI_ERS_RESULT_NO_AER_DRIVER),
      [Ev_device_lock name;
       Ev_set_io_state name state (fst (value set));
       Ev_pci_info name "can't recover (no error_detected callback)";
       Ev_uevent_ers name PCI_ERS_RESULT_NO_AER_DRIVER;
       Ev_device_unlock name])) /\
    (hdr_type dev = PCI_HEADER_TYPE_BRIDGE ->
     report_error_detected PCI_HEADER_TYPE_BRIDGE dev state result =
     ((0, snd (value set), merge_result result PCI_ERS_RESULT_NONE),
      [Ev_device_lock name;
       Ev_set_io_state name state (fst (value set));
       Ev_uevent_ers name PCI_ERS_RESULT_NONE;
       Ev_device_unlock name])).
Proof.
  intros dev state result Hno set name.
  assert (Hsilent : (if fst (value set) then handler_op (@error_detected D) dev else None) = None).
  { rewrite (no_error_detected_handler_op dev Hno). destruct (fst (value set)); reflexivity. }
  pose proof (report_error_detected_silent dev state result Hsilent) as Hvisit.
  unfold silent_vote in Hvisit. fold set name in Hvisit.
  split; intros Hh.
  - apply Z.eqb_neq in Hh. rewrite Hh in Hvisit. exact Hvisit.
  - apply Z.eqb_eq in Hh. rewrite Hh in Hvisit. exact Hvisit.
Qed.

(** C2, as the code has it: when the channel-state set of the
    error_detected phase fails because the device is already marked
    PERM_FAILURE, the device's [error_detected] is not called and the
    device votes like one without handler: a bridge contributes NONE, which
    leaves the running vote unchanged, and any other device contributes
    NO_DRIVER, which makes the running vote NO_DRIVER.  The broadcast then
    goes on to the devices below it and to the remaining devices of the
    bus. *)
Theorem report_error_detected_perm_failure :
  forall (dev : pci_dev D) (sub : option (list (pci_node D))) (rest : list (pci_node D))
         (result : pci_ers_result),
    error_state dev = pci_channel_io_perm_failure ->
    let name := pci_name dev in
    let vote := if hdr_type dev =? PCI_HEADER_TYPE_BRIDGE
                then PCI_ERS_RESULT_NONE else PCI_ERS_RESULT_NO_AER_DRIVER in
    let visit :=
      [Ev_device_lock name; Ev_set_io_state name pci_channel_io_normal false] ++
      (if hdr_type dev =? PCI_HEADER_TYPE_BRIDGE then []
       else [Ev_pci_info name "can't recover (no error_detected callback)"]) ++
      [Ev_uevent_ers name vote; Ev_device_unlock name] in
    let walk := pci_walk_bus (report_normal_detected PCI_HEADER_TYPE_BRIDGE) in
    let below := walk (children (Node dev sub)) (merge_result result vote) in
    let after := walk rest (snd (value below)) in
    report_normal_detected PCI_HEADER_TYPE_BRIDGE dev result
      = ((0, dev, merge_result result vote), visit) /\
    (hdr_type dev = PCI_HEADER_TYPE_BRIDGE -> merge_result result vote = result) /\
    (hdr_type dev <> PCI_HEADER_TYPE_BRIDGE ->
     merge_result result vote = PCI_ERS_RESULT_NO_AER_DRIVER) /\
    value (walk (Node dev sub :: rest) result)
      = (Node dev (option_map (fun _ => fst (value below)) sub) :: fst (value after),
         snd (value after)) /\
    trace (walk (Node dev sub :: rest) result) = visit ++ trace below ++ trace after.
Proof.
  intros dev sub rest result Hperm name vote visit walk below after.
  assert (Hvisit : report_normal_detected PCI_HEADER_TYPE_BRIDGE dev result
                   = ((0, dev, merge_result result vote), visit)).
  { unfold report_normal_detected.
    rewrite report_error_detected_silent;
      rewrite (set_io_state_failed dev pci_channel_io_normal Hperm); reflexivity. }
  split; [exact Hvisit|].
  split; [|split].
  - intros Hh. apply Z.eqb_eq in Hh. subst vote. rewrite Hh.
    destruct result; reflexivity.
  - intros Hh. apply Z.eqb_neq in Hh. subst vote. rewrite Hh.
    destruct result; reflexivity.
  - assert (Hdev : pci_walk_dev (report_normal_detected PCI_HEADER_TYPE_BRIDGE)
                     (Node dev sub) result
                   = ((Node dev (option_map (fun _ => fst (value below)) sub),
                       snd (value below)), visit ++ trace below)).
    { subst below walk. destruct sub as [l|].
      - rewrite pci_walk_dev_bus. unfold bind. rewrite Hvisit. cbn [fst snd children subordinate ret option_map value trace].
        rewrite app_nil_r. reflexivity.
      - cbn [pci_walk_dev]. unfold bind. rewrite Hvisit.
        cbn [fst snd children subordinate ret option_map value trace pci_walk_bus].
        rewrite !app_nil_r. reflexivity. }
    subst walk. cbn [pci_walk_bus]. unfold bind, value, trace. rewrite Hdev.
    cbn [fst snd ret]. fold after.
    split; [reflexivity|].
    rewrite app_nil_r, app_assoc. reflexivity.
Qed.

End Callbacks.

(** ** The non-fatal orchestrator *)

Section Nonfatal.
Variable D : Type.
Variable PCI_HEADER_TYPE_BRIDGE : Z.
Variable PCI_EXP_TYPE_ROOT_PORT : Z.
Variable PCI_EXP_TYPE_DOWNSTREAM : Z.
Variable pci_reset_bus_result : pci_dev D -> Z.
Variable pcie_aer_is_native : pci_dev D -> bool.

Lemma pcie_do_nonfatal_recovery_run (dev : pci_node D) (dev_bus_self : option (pci_node D))
    (port : pci_node D) (bus : list (pci_node D)) :
  nonfatal_port PCI_EXP_TYPE_ROOT_PORT PCI_EXP_TYPE_DOWNSTREAM dev dev_bus_self = Some port ->
  subordinate port = Some bus ->
  pcie_do_nonfatal_recovery PCI_HEADER_TYPE_BRIDGE PCI_EXP_TYPE_ROOT_PORT
    PCI_EXP_TYPE_DOWNSTREAM pci_reset_bus_result pcie_aer_is_native dev dev_bus_self
  = Some (nonfatal_run PCI_HEADER_TYPE_BRIDGE pci_reset_bus_result pcie_aer_is_native
            (node_dev port) bus).
Proof.
  intros Hport Hbus. unfold pcie_do_nonfatal_recovery.
  rewrite Hport. cbn [obind]. rewrite Hbus. reflexivity.
Qed.

Lemma votes_recoverable_detect (d : pci_dev D) :
  votes_recoverable d ->
  error_state d <> pci_channel_io_perm_failure ->
  snd (fst (report_normal_detected PCI_HEADER_TYPE_BRIDGE d PCI_ERS_RESULT_CAN_RECOVER))
  = PCI_ERS_RESULT_CAN_RECOVER.
Proof.
  intros (drv & eh & cb1 & cb2 & Hd & He & H1 & Hv1 & _) Hs.
  unfold report_normal_detected.
  rewrite (report_error_detected_called D PCI_HEADER_TYPE_BRIDGE d _ _ cb1 Hs).
  - cbn [value fst snd]. rewrite Hv1. reflexivity.
  - unfold handler_op. rewrite Hd, He. exact H1.
Qed.

Lemma votes_recoverable_mmio (d : pci_dev D) :
  votes_recoverable d ->
  snd (fst (report_mmio_enabled d PCI_ERS_RESULT_RECOVERED)) = PCI_ERS_RESULT_RECOVERED.
Proof.
  intros (drv & eh & cb1 & cb2 & Hd & He & _ & _ & H2 & Hv2).
  unfold report_mmio_enabled, handler_op. rewrite Hd, He, H2.
  unfold bind. cbn [value fst snd ret emit]. rewrite Hv2. reflexivity.
Qed.

Lemma votes_recoverable_same_drivers (l l' : list (pci_dev D)) :
  map (@driver D) l' = map (@driver D) l ->
  Forall (@votes_recoverable D) l -> Forall (@votes_recoverable D) l'.
Proof.
  intros Hmap Hl.
  change (@votes_recoverable D) with (fun d => driver_votes_recoverable (@driver D d)) in *.
  apply Forall_map. rewrite Hmap. apply Forall_map. exact Hl.
Qed.

Lemma all_normal_after (l l' : list (pci_dev D)) :
  map (@error_state D) l' = map normal_unless_failed (map (@error_state D) l) ->
  Forall (fun d => error_state d <> pci_channel_io_perm_failure) l ->
  Forall (fun d => error_state d = pci_channel_io_normal) l'.
Proof.
  intros Hmap Hl.
  apply (Forall_map (@error_state D) (fun s => s = pci_channel_io_normal)).
  rewrite Hmap. apply Forall_map, Forall_map.
  eapply Forall_impl; [|exact Hl].
  intros d Hd. cbn beta in *.
  destruct (error_state d); [reflexivity | reflexivity | exfalso; apply Hd; reflexivity].
Qed.

Lemma if_vote_same (X : Type) (a : pci_ers_result) (x y : X) :
  (if pci_ers_result_eq_dec a a then x else y) = x.
Proof. destruct (pci_ers_result_eq_dec a a); [reflexivity | contradiction]. Qed.

Lemma if_vote_other (X : Type) (a b : pci_ers_result) (x y : X) :
  a <> b -> (if pci_ers_result_eq_dec a b then x else y) = y.
Proof. intros H. destruct (pci_ers_result_eq_dec a b); [contradiction | reflexivity]. Qed.

Lemma flat_map_singleton (X Y : Type) (F : X -> list Y) (G : X -> Y) (l : list X) :
  Forall (fun x => F x = [G x]) l -> flat_map F l = map G l.
Proof.
  induction 1 as [|x rest Hx _ IH]; [reflexivity|].
  cbn [flat_map map]. rewrite Hx, IH. reflexivity.
Qed.

Lemma report_normal_detected_trace_any (d : pci_dev D) (a a' : pci_ers_result) :
  snd (report_normal_detected PCI_HEADER_TYPE_BRIDGE d a)
  = snd (report_normal_detected PCI_HEADER_TYPE_BRIDGE d a').
Proof. visit_cases d; reflexivity. Qed.

Lemma report_mmio_enabled_trace_any (d : pci_dev D) (a a' : pci_ers_result) :
  snd (report_mmio_enabled d a) = snd (report_mmio_enabled d a').
Proof. visit_cases d; reflexivity. Qed.

Lemma votes_recoverable_detect_call (d : pci_dev D) :
  votes_recoverable d ->
  error_state d <> pci_channel_io_perm_failure ->
  filter is_callback
    (snd (report_normal_detected PCI_HEADER_TYPE_BRIDGE d PCI_ERS_RESULT_NONE))
  = [Ev_error_detected (pci_name d) pci_channel_io_normal PCI_ERS_RESULT_CAN_RECOVER].
Proof.
  intros (drv & eh & cb1 & cb2 & Hd & He & H1 & Hv1 & _) Hs.
  unfold report_normal_detected.
  rewrite (report_error_detected_called D PCI_HEADER_TYPE_BRIDGE d _ _ cb1 Hs).
  - cbn. rewrite Hv1. reflexivity.
  - unfold handler_op. rewrite Hd, He. exact H1.
Qed.

Lemma votes_recoverable_mmio_call (d : pci_dev D) :
  votes_recoverable d ->
  filter is_callback (snd (report_mmio_enabled d PCI_ERS_RESULT_NONE))
  = [Ev_mmio_enabled (pci_name d) PCI_ERS_RESULT_RECOVERED].
Proof.
  intros (drv & eh & cb1 & cb2 & Hd & He & _ & _ & H2 & Hv2).
  unfold report_mmio_enabled, handler_op. rewrite Hd, He, H2.
  cbn. rewrite Hv2. reflexivity.
Qed.

(** C1, as the code has it: on a subtree in which no device is already
    marked PERM_FAILURE and every device is bound to a handler whose
    [error_detected] votes CAN_RECOVER and whose [mmio_enabled] votes
    RECOVERED, the non-fatal recovery runs the error_detected broadcast
    from CAN_RECOVER, the mmio_enabled broadcast from RECOVERED and the
    resume broadcast, in this order and with no reset in between; each
    device's two callbacks are called once, in discovery order; the
    returned vote is RECOVERED and every device ends in channel state
    NORMAL. *)
Theorem nonfatal_recovery_success :
  forall (dev : pci_node D) (dev_bus_self : option (pci_node D))
         (port : pci_node D) (bus : list (pci_node D)),
    nonfatal_port PCI_EXP_TYPE_ROOT_PORT PCI_EXP_TYPE_DOWNSTREAM dev dev_bus_self = Some port ->
    subordinate port = Some bus ->
    Forall (@votes_recoverable D) (bus_devs bus) ->
    Forall (fun d => error_state d <> pci_channel_io_perm_failure) (bus_devs bus) ->
    let name := pci_name (node_dev port) in
    let detect := pci_walk_bus (report_normal_detected PCI_HEADER_TYPE_BRIDGE) bus
                    PCI_ERS_RESULT_CAN_RECOVER in
    let mmio := pci_walk_bus (@report_mmio_enabled D) (fst (value detect))
                  PCI_ERS_RESULT_RECOVERED in
    let resumed := pci_walk_bus (@report_resume D) (fst (value mmio))
                     PCI_ERS_RESULT_RECOVERED in
    exists m,
      pcie_do_nonfatal_recovery PCI_HEADER_TYPE_BRIDGE PCI_EXP_TYPE_ROOT_PORT
        PCI_EXP_TYPE_DOWNSTREAM pci_reset_bus_result pcie_aer_is_native dev dev_bus_self
      = Some m /\
      value m = (PCI_ERS_RESULT_RECOVERED, fst (value resumed)) /\
      trace m =
        Ev_pci_dbg name "broadcast error_detected message" :: trace detect ++
        Ev_pci_dbg name "broadcast mmio_enabled message" :: trace mmio ++
        Ev_pci_dbg name "broadcast resume message" :: trace resumed ++
        (if pcie_aer_is_native (node_dev port) then [Ev_clear_device_status name] else []) ++
        [Ev_aer_clear_nonfatal_status name; Ev_pci_info name "device recovery successful"] /\
      snd (value detect) = PCI_ERS_RESULT_CAN_RECOVER /\
      snd (value mmio) = PCI_ERS_RESULT_RECOVERED /\
      filter is_callback (trace detect) =
        map (fun d => Ev_error_detected (pci_name d) pci_channel_io_normal
                        PCI_ERS_RESULT_CAN_RECOVER) (bus_devs bus) /\
      filter is_callback (trace mmio) =
        map (fun d => Ev_mmio_enabled (pci_name d) PCI_ERS_RESULT_RECOVERED) (bus_devs bus) /\
      map (@pci_name D) (bus_devs (fst (value resumed))) = map (@pci_name D) (bus_devs bus) /\
      Forall (fun d => error_state d = pci_channel_io_normal) (bus_devs (fst (value resumed))).
Proof.
  intros dev dev_bus_self port bus Hport Hbus Hvotes Hlive name detect mmio resumed.
  unfold value in mmio, resumed.
  assert (Hboth : Forall (fun d => votes_recoverable d /\
                                   error_state d <> pci_channel_io_perm_failure) (bus_devs bus)).
  { apply Forall_forall. intros d Hd. split.
    - exact (proj1 (Forall_forall _ _) Hvotes d Hd).
    - exact (proj1 (Forall_forall _ _) Hlive d Hd). }
  assert (Hdetect : snd (fst detect) = PCI_ERS_RESULT_CAN_RECOVER).
  { apply pci_walk_bus_data_fixed. eapply Forall_impl; [|exact Hboth].
    intros d [Hv Hs]. apply votes_recoverable_detect; assumption. }
  assert (Hdrv1 : map (@driver D) (bus_devs (fst (fst detect)))
                  = map (@driver D) (bus_devs bus)).
  { subst detect. rewrite (pci_walk_bus_map _ _ _ _ (@driver D) (fun x => x)).
    - apply map_id.
    - intros d a. apply report_normal_detected_driver. }
  assert (Hvotes1 : Forall (@votes_recoverable D) (bus_devs (fst (fst detect)))).
  { exact (votes_recoverable_same_drivers _ _ Hdrv1 Hvotes). }
  assert (Hmmio : snd (fst mmio) = PCI_ERS_RESULT_RECOVERED).
  { apply pci_walk_bus_data_fixed. eapply Forall_impl; [|exact Hvotes1].
    intros d Hv. apply votes_recoverable_mmio. exact Hv. }
  assert (Hname1 : map (@pci_name D) (bus_devs (fst (fst detect)))
                   = map (@pci_name D) (bus_devs bus)).
  { subst detect. rewrite (pci_walk_bus_map _ _ _ _ (@pci_name D) (fun x => x)).
    - apply map_id.
    - intros d a. apply report_normal_detected_name. }
  assert (Hname2 : map (@pci_name D) (bus_devs (fst (fst mmio)))
                   = map (@pci_name D) (bus_devs (fst (fst detect)))).
  { subst mmio. rewrite (pci_walk_bus_map _ _ _ _ (@pci_name D) (fun x => x)).
    - apply map_id.
    - intros d a. apply report_mmio_enabled_name. }
  assert (Hname3 : map (@pci_name D) (bus_devs (fst (fst resumed)))
                   = map (@pci_name D) (bus_devs (fst (fst mmio)))).
  { subst resumed. rewrite (pci_walk_bus_map _ _ _ _ (@pci_name D) (fun x => x)).
    - apply map_id.
    - intros d a. apply report_resume_name. }
  assert (Hresumed : snd (fst resumed) = PCI_ERS_RESULT_RECOVERED).
  { apply pci_walk_bus_data_fixed. apply Forall_forall. intros d _.
    apply report_resume_data. }
  eexists. split; [exact (pcie_do_nonfatal_recovery_run _ _ _ _ Hport Hbus)|].
  assert (Hrun : nonfatal_run PCI_HEADER_TYPE_BRIDGE pci_reset_bus_result pcie_aer_is_native
                   (node_dev port) bus
                 = ((PCI_ERS_RESULT_RECOVERED, fst (fst resumed)),
                    Ev_pci_dbg name "broadcast error_detected message" :: snd detect ++
                    Ev_pci_dbg name "broadcast mmio_enabled message" :: snd mmio ++
                    Ev_pci_dbg name "broadcast resume message" :: snd resumed ++
                    (if pcie_aer_is_native (node_dev port)
                     then [Ev_clear_device_status name] else []) ++
                    [Ev_aer_clear_nonfatal_status name;
                     Ev_pci_info name "device recovery successful"])).
  { unfold nonfatal_run, nonfatal_vote, nonfatal_reset, nonfatal_finish, bind.
    cbn [fst snd pci_dbg emit ret]. fold detect.
    rewrite Hdetect, if_vote_same. cbn [fst snd ret]. fold mmio.
    rewrite Hmmio, if_vote_other by discriminate. cbn [fst snd ret].
    rewrite if_vote_same. cbn [fst snd ret]. fold resumed. rewrite Hresumed.
    destruct (pcie_aer_is_native (node_dev port)); cbn;
      rewrite ?app_nil_r, <- ?app_assoc; cbn; reflexivity. }
  rewrite Hrun. unfold value, trace. cbn [fst snd].
  repeat (split; [first [reflexivity | assumption] |]).
  split; [|split; [|split]].
  - subst detect.
    rewrite (pci_walk_bus_trace_filter _ _ _ is_callback
               (fun d => filter is_callback
                  (snd (report_normal_detected PCI_HEADER_TYPE_BRIDGE d PCI_ERS_RESULT_NONE)))).
    + apply flat_map_singleton. eapply Forall_impl; [|exact Hboth].
      intros d [Hv Hs]. apply votes_recoverable_detect_call; assumption.
    + intros d a.
      rewrite (report_normal_detected_trace_any d a PCI_ERS_RESULT_NONE). reflexivity.
  - subst mmio.
    rewrite (pci_walk_bus_trace_filter _ _ _ is_callback
               (fun d => filter is_callback (snd (report_mmio_enabled d PCI_ERS_RESULT_NONE)))).
    + rewrite (flat_map_singleton _ _ _
                 (fun d => Ev_mmio_enabled (pci_name d) PCI_ERS_RESULT_RECOVERED)).
      * rewrite <- (map_map (@pci_name D)
                      (fun n => Ev_mmio_enabled n PCI_ERS_RESULT_RECOVERED)).
        rewrite Hname1. apply map_map.
      * eapply Forall_impl; [|exact Hvotes1].
        intros d Hv. apply votes_recoverable_mmio_call. exact Hv.
    + intros d a.
      rewrite (report_mmio_enabled_trace_any d a PCI_ERS_RESULT_NONE). reflexivity.
  - rewrite Hname3, Hname2. exact Hname1.
  - apply (all_normal_after (bus_devs bus)); [|exact Hlive].
    subst resumed mmio detect.
    rewrite (pci_walk_bus_map _ _ _ _ (@error_state D) normal_unless_failed)
      by (intros; apply report_resume_state).
    rewrite (pci_walk_bus_map _ _ _ _ (@error_state D) (fun x => x))
      by (intros; apply report_mmio_enabled_state).
    rewrite (pci_walk_bus_map _ _ _ _ (@error_state D) normal_unless_failed)
      by (intros; apply report_normal_detected_state).
    rewrite map_id, map_map. apply map_ext.
    intros s; destruct s; reflexivity.
Qed.

(** *** The three steps, one at a time *)

Lemma nonfatal_vote_trace (p : pci_dev D) (bus : list (pci_node D)) :
  exists later,
    snd (nonfatal_vote PCI_HEADER_TYPE_BRIDGE p bus) =
      Ev_pci_dbg (pci_name p) "broadcast error_detected message" ::
      snd (pci_walk_bus (report_normal_detected PCI_HEADER_TYPE_BRIDGE) bus
               PCI_ERS_RESULT_CAN_RECOVER) ++ later /\
    filter is_mutation later = [] /\
    filter is_uevent later = [] /\
    Forall state_is_normal later /\
    Forall (fun e => is_slot_reset_or_resume e = false) later.
Proof.
  unfold nonfatal_vote, bind. cbn [fst snd pci_dbg emit app].
  match goal with |- context [pci_ers_result_eq_dec ?a ?b] =>
    destruct (pci_ers_result_eq_dec a b) end.
  - eexists. split; [reflexivity|]. cbn [fst snd app filter is_mutation is_uevent].
    split; [|split; [|split]].
    + apply pci_walk_bus_trace_filter_nil. intros d a. apply report_mmio_enabled_mutation.
    + apply pci_walk_bus_trace_filter_nil. intros d a. apply report_mmio_enabled_uevent.
    + constructor; [exact I|].
      apply pci_walk_bus_trace_Forall. intros d a. apply report_mmio_enabled_normal.
    + constructor; [reflexivity|].
      apply pci_walk_bus_trace_Forall. intros d a. apply report_mmio_enabled_early.
  - exists []. cbn. repeat split; constructor.
Qed.

Lemma nonfatal_vote_states (p : pci_dev D) (bus : list (pci_node D)) :
  map (@error_state D) (bus_devs (fst (fst (nonfatal_vote PCI_HEADER_TYPE_BRIDGE p bus))))
  = map (@error_state D)
      (bus_devs (fst (fst (pci_walk_bus (report_normal_detected PCI_HEADER_TYPE_BRIDGE) bus
                               PCI_ERS_RESULT_CAN_RECOVER)))).
Proof.
  unfold nonfatal_vote, bind. cbn [fst snd pci_dbg emit].
  match goal with |- context [pci_ers_result_eq_dec ?a ?b] =>
    destruct (pci_ers_result_eq_dec a b) end; [|reflexivity].
  cbn [fst snd].
  rewrite (pci_walk_bus_map _ _ _ _ (@error_state D) (fun x => x))
    by (intros; apply report_mmio_enabled_state).
  apply map_id.
Qed.

Lemma nonfatal_vote_names (p : pci_dev D) (bus : list (pci_node D)) :
  map (@pci_name D) (bus_devs (fst (fst (nonfatal_vote PCI_HEADER_TYPE_BRIDGE p bus))))
  = map (@pci_name D) (bus_devs bus).
Proof.
  unfold nonfatal_vote, bind. cbn [fst snd pci_dbg emit].
  match goal with |- context [pci_ers_result_eq_dec ?a ?b] =>
    destruct (pci_ers_result_eq_dec a b) end; cbn [fst snd ret].
  - rewrite (pci_walk_bus_map _ _ _ _ (@pci_name D) (fun x => x))
      by (intros; apply report_mmio_enabled_name).
    rewrite map_id.
    rewrite (pci_walk_bus_map _ _ _ _ (@pci_name D) (fun x => x))
      by (intros; apply report_normal_detected_name).
    apply map_id.
  - rewrite (pci_walk_bus_map _ _ _ _ (@pci_name D) (fun x => x))
      by (intros; apply report_normal_detected_name).
    apply map_id.
Qed.

Lemma nonfatal_reset_trace (p : pci_dev D) (r : list (pci_node D) * pci_ers_result) :
  filter is_mutation (snd (nonfatal_reset pci_reset_bus_result p r)) = [] /\
  filter is_uevent (snd (nonfatal_reset pci_reset_bus_result p r)) = [] /\
  Forall state_is_normal (snd (nonfatal_reset pci_reset_bus_result p r)).
Proof.
  unfold nonfatal_reset, pci_reset_bus, bind.
  cbn [fst snd emit ret pci_err pci_dbg app].
  match goal with |- context [pci_ers_result_eq_dec ?a ?b] =>
    destruct (pci_ers_result_eq_dec a b) end; [|repeat split; constructor].
  destruct (pci_reset_bus_result p <? 0); cbn [fst snd app filter is_mutation is_uevent].
  - repeat split; repeat constructor.
  - rewrite !app_nil_r. split; [|split].
    + apply pci_walk_bus_trace_filter_nil. intros d a. apply report_slot_reset_mutation.
    + apply pci_walk_bus_trace_filter_nil. intros d a. apply report_slot_reset_uevent.
    + do 2 (constructor; [exact I|]).
      apply pci_walk_bus_trace_Forall. intros d a. apply report_slot_reset_normal.
Qed.

Lemma nonfatal_reset_states (p : pci_dev D) (r : list (pci_node D) * pci_ers_result) :
  map (@error_state D) (bus_devs (fst (fst (nonfatal_reset pci_reset_bus_result p r))))
  = map (@error_state D) (bus_devs (fst r)).
Proof.
  unfold nonfatal_reset, pci_reset_bus, bind.
  cbn [fst snd emit ret pci_err pci_dbg].
  match goal with |- context [pci_ers_result_eq_dec ?a ?b] =>
    destruct (pci_ers_result_eq_dec a b) end; [|reflexivity].
  destruct (pci_reset_bus_result p <? 0); cbn [fst snd]; [reflexivity|].
  rewrite (pci_walk_bus_map _ _ _ _ (@error_state D) (fun x => x))
    by (intros; apply report_slot_reset_state).
  apply map_id.
Qed.

Lemma nonfatal_reset_names (p : pci_dev D) (r : list (pci_node D) * pci_ers_result) :
  map (@pci_name D) (bus_devs (fst (fst (nonfatal_reset pci_reset_bus_result p r))))
  = map (@pci_name D) (bus_devs (fst r)).
Proof.
  unfold nonfatal_reset, pci_reset_bus, bind.
  cbn [fst snd emit ret pci_err pci_dbg].
  match goal with |- context [pci_ers_result_eq_dec ?a ?b] =>
    destruct (pci_ers_result_eq_dec a b) end; [|reflexivity].
  destruct (pci_reset_bus_result p <? 0); cbn [fst snd]; [reflexivity|].
  rewrite (pci_walk_bus_map _ _ _ _ (@pci_name D) (fun x => x))
    by (intros; apply report_slot_reset_name).
  apply map_id.
Qed.

(** The code at [failed:] is reached exactly when the returned vote is
    not RECOVERED; it then adds its two calls and changes no device. *)
Lemma nonfatal_finish_failed (p : pci_dev D)
    (r : list (pci_node D) * (pci_ers_result + pci_ers_result)) :
  fst (fst (nonfatal_finish pcie_aer_is_native p r)) <> PCI_ERS_RESULT_RECOVERED ->
  nonfatal_finish pcie_aer_is_native p r =
  ((fst (fst (nonfatal_finish pcie_aer_is_native p r)), fst r),
   [Ev_uevent_ers (pci_name p) PCI_ERS_RESULT_DISCONNECT;
    Ev_pci_info (pci_name p) "device recovery failed"]).
Proof.
  unfold nonfatal_finish. destruct (snd r) as [status | status].
  - intros _. reflexivity.
  - destruct (pci_ers_result_eq_dec status PCI_ERS_RESULT_RECOVERED) as [-> | Hne].
    + intros H. exfalso. apply H.
      unfold bind. cbn [fst snd ret].
      apply pci_walk_bus_data_fixed. apply Forall_forall. intros d _.
      apply report_resume_data.
    + intros _. reflexivity.
Qed.

Lemma nonfatal_finish_trace (p : pci_dev D)
    (r : list (pci_node D) * (pci_ers_result + pci_ers_result)) :
  Forall state_is_normal (snd (nonfatal_finish pcie_aer_is_native p r)).
Proof.
  unfold nonfatal_finish. destruct (snd r) as [status | status].
  - repeat constructor.
  - destruct (pci_ers_result_eq_dec status PCI_ERS_RESULT_RECOVERED) as [-> | Hne];
      [|repeat constructor].
    unfold bind. cbn [fst snd pci_dbg emit app].
    constructor; [exact I|]. apply Forall_app. split.
    + apply pci_walk_bus_trace_Forall. intros d a. apply report_resume_normal.
    + destruct (pcie_aer_is_native p); repeat constructor.
Qed.

Lemma nonfatal_finish_states (p : pci_dev D)
    (r : list (pci_node D) * (pci_ers_result + pci_ers_result)) :
  Forall (fun s => s <> pci_channel_io_frozen) (map (@error_state D) (bus_devs (fst r))) ->
  Forall (fun s => s <> pci_channel_io_frozen)
    (map (@error_state D) (bus_devs (snd (fst (nonfatal_finish pcie_aer_is_native p r))))).
Proof.
  intros H. unfold nonfatal_finish. destruct (snd r) as [status | status]; [exact H|].
  destruct (pci_ers_result_eq_dec status PCI_ERS_RESULT_RECOVERED) as [-> | Hne]; [|exact H].
  unfold bind. cbn [fst snd ret].
  rewrite (pci_walk_bus_map _ _ _ _ (@error_state D) normal_unless_failed)
    by (intros; apply report_resume_state).
  apply Forall_map. apply Forall_forall. intros s _. destruct s; discriminate.
Qed.

Lemma nonfatal_vote_early (p : pci_dev D) (bus : list (pci_node D)) :
  Forall (fun e => is_slot_reset_or_resume e = false)
    (snd (nonfatal_vote PCI_HEADER_TYPE_BRIDGE p bus)).
Proof.
  destruct (nonfatal_vote_trace p bus) as (later & Htrace & _ & _ & _ & Hlater).
  rewrite Htrace. constructor; [reflexivity|].
  apply Forall_app. split; [|exact Hlater].
  apply pci_walk_bus_trace_Forall. intros d a. apply report_normal_detected_early.
Qed.

(** C6: when the running vote after the error_detected and mmio_enabled
    broadcasts is NEED_RESET, [pci_reset_bus] is called on the port.  If it
    fails (a negative result) the run logs the failure, goes to [failed:]
    and returns DISCONNECT, and nothing of a slot_reset or resume
    broadcast happens.  If it succeeds the slot_reset broadcast follows,
    started from RECOVERED, and then the rest of the function. *)
Theorem nonfatal_need_reset :
  forall (dev : pci_node D) (dev_bus_self : option (pci_node D))
         (port : pci_node D) (bus : list (pci_node D)),
    nonfatal_port PCI_EXP_TYPE_ROOT_PORT PCI_EXP_TYPE_DOWNSTREAM dev dev_bus_self = Some port ->
    subordinate port = Some bus ->
    let p := node_dev port in
    let name := pci_name p in
    let vote := nonfatal_vote PCI_HEADER_TYPE_BRIDGE p bus in
    let rc := pci_reset_bus_result p in
    snd (value vote) = PCI_ERS_RESULT_NEED_RESET ->
    exists m,
      pcie_do_nonfatal_recovery PCI_HEADER_TYPE_BRIDGE PCI_EXP_TYPE_ROOT_PORT
        PCI_EXP_TYPE_DOWNSTREAM pci_reset_bus_result pcie_aer_is_native dev dev_bus_self
      = Some m /\
      (rc < 0 ->
       value m = (PCI_ERS_RESULT_DISCONNECT, fst (value vote)) /\
       trace m = trace vote ++
                 [Ev_pci_reset_bus name rc;
                  Ev_pci_err name "Failed to reset %d" rc;
                  Ev_uevent_ers name PCI_ERS_RESULT_DISCONNECT;
                  Ev_pci_info name "device recovery failed"] /\
       Forall (fun e => is_slot_reset_or_resume e = false) (trace m)) /\
      (0 <= rc ->
       let slot := pci_walk_bus (@report_slot_reset D) (fst (value vote))
                     PCI_ERS_RESULT_RECOVERED in
       let rest := nonfatal_finish pcie_aer_is_native p
                     (fst (value slot), inr (snd (value slot))) in
       value m = value rest /\
       trace m = trace vote ++
                 [Ev_pci_reset_bus name rc; Ev_pci_dbg name "broadcast slot_reset message"] ++
                 trace slot ++ trace rest).
Proof.
  intros dev dev_bus_self port bus Hport Hbus p name vote rc Hvote.
  eexists. split; [exact (pcie_do_nonfatal_recovery_run _ _ _ _ Hport Hbus)|].
  unfold value, trace in *.
  unfold nonfatal_run, bind. fold p vote.
  split.
  - intros Hrc. apply Z.ltb_lt in Hrc.
    assert (Hreset : nonfatal_reset pci_reset_bus_result p (fst vote)
                     = ((fst (fst vote), inl PCI_ERS_RESULT_DISCONNECT),
                        [Ev_pci_reset_bus name rc;
                         Ev_pci_err name "Failed to reset %d" rc])).
    { unfold nonfatal_reset. rewrite Hvote, if_vote_same.
      unfold pci_reset_bus, bind. cbn [fst snd emit ret]. fold rc. rewrite Hrc.
      reflexivity. }
    rewrite Hreset. cbn [fst snd]. unfold nonfatal_finish. cbn [fst snd].
    unfold nonfatal_failed, bind. cbn [fst snd pci_uevent_ers pci_info emit ret app].
    fold name.
    split; [reflexivity|]. split; [reflexivity|].
    apply Forall_app. split; [apply nonfatal_vote_early | repeat constructor].
  - intros Hrc. apply Z.ltb_ge in Hrc.
    set (slot := pci_walk_bus (@report_slot_reset D) (fst (fst vote))
                   PCI_ERS_RESULT_RECOVERED).
    assert (Hreset : nonfatal_reset pci_reset_bus_result p (fst vote)
                     = ((fst (fst slot), inr (snd (fst slot))),
                        [Ev_pci_reset_bus name rc;
                         Ev_pci_dbg name "broadcast slot_reset message"] ++ snd slot)).
    { unfold nonfatal_reset. rewrite Hvote, if_vote_same.
      unfold pci_reset_bus, bind. cbn [fst snd emit ret]. fold rc. rewrite Hrc.
      cbn [fst snd pci_dbg emit ret app]. rewrite !app_nil_r. reflexivity. }
    rewrite Hreset. cbn [fst snd].
    split; [reflexivity|].
    rewrite <- !app_assoc. reflexivity.
Qed.

Lemma filter_nil_weaken (p q : event -> bool) (l : list event) :
  (forall e, q e = true -> p e = true) ->
  filter p l = [] -> filter q l = [].
Proof.
  intros Hqp. induction l as [|e rest IH]; [reflexivity|].
  cbn [filter]. destruct (p e) eqn:Hp; [discriminate|].
  destruct (q e) eqn:Hq; [rewrite (Hqp e Hq) in Hp; discriminate | exact IH].
Qed.

Lemma disconnect_is_uevent (e : event) :
  is_disconnect_uevent e = true -> is_uevent e = true.
Proof. destruct e; try discriminate. reflexivity. Qed.

Lemma nonfatal_run_phases (p : pci_dev D) (bus : list (pci_node D)) :
  nonfatal_run PCI_HEADER_TYPE_BRIDGE pci_reset_bus_result pcie_aer_is_native p bus
  = bind (bind (nonfatal_vote PCI_HEADER_TYPE_BRIDGE p bus)
               (nonfatal_reset pci_reset_bus_result p))
         (nonfatal_finish pcie_aer_is_native p).
Proof. unfold nonfatal_run. rewrite bind_assoc. reflexivity. Qed.

Lemma detect_states (bus : list (pci_node D)) :
  map (@error_state D)
    (bus_devs (fst (fst (pci_walk_bus (report_normal_detected PCI_HEADER_TYPE_BRIDGE) bus
                           PCI_ERS_RESULT_CAN_RECOVER))))
  = map normal_unless_failed (map (@error_state D) (bus_devs bus)).
Proof.
  apply pci_walk_bus_map. intros d a. apply report_normal_detected_state.
Qed.

(** C8: when the non-fatal recovery fails (the returned vote is not
    RECOVERED), the run is the broadcast phases followed by exactly two
    calls: one DISCONNECT notification for the port and the log line.  The
    phases after error_detected notify nothing, so the DISCONNECT
    notifications of the whole run are the votes the devices reported in
    the error_detected broadcast and then that one.  The only
    channel-state changes of the whole run are the sets to NORMAL of the
    error_detected broadcast, no device is marked disconnected or removed,
    and every device keeps the channel state that broadcast gave it. *)
Theorem nonfatal_failure_path :
  forall (dev : pci_node D) (dev_bus_self : option (pci_node D))
         (port : pci_node D) (bus : list (pci_node D))
         (m : M (pci_ers_result * list (pci_node D))),
    nonfatal_port PCI_EXP_TYPE_ROOT_PORT PCI_EXP_TYPE_DOWNSTREAM dev dev_bus_self = Some port ->
    subordinate port = Some bus ->
    pcie_do_nonfatal_recovery PCI_HEADER_TYPE_BRIDGE PCI_EXP_TYPE_ROOT_PORT
      PCI_EXP_TYPE_DOWNSTREAM pci_reset_bus_result pcie_aer_is_native dev dev_bus_self
    = Some m ->
    fst (value m) <> PCI_ERS_RESULT_RECOVERED ->
    let p := node_dev port in
    let name := pci_name p in
    let detect := pci_walk_bus (report_normal_detected PCI_HEADER_TYPE_BRIDGE) bus
                    PCI_ERS_RESULT_CAN_RECOVER in
    let phases := bind (nonfatal_vote PCI_HEADER_TYPE_BRIDGE p bus)
                       (nonfatal_reset pci_reset_bus_result p) in
    trace m = trace phases ++
              [Ev_uevent_ers name PCI_ERS_RESULT_DISCONNECT;
               Ev_pci_info name "device recovery failed"] /\
    snd (value m) = fst (value phases) /\
    filter is_uevent (trace phases) = filter is_uevent (trace detect) /\
    filter is_disconnect_uevent (trace m) =
      filter is_disconnect_uevent (trace detect) ++
      [Ev_uevent_ers name PCI_ERS_RESULT_DISCONNECT] /\
    filter is_mutation (trace m) = flat_map (@set_normal_event D) (bus_devs bus) /\
    map (@error_state D) (bus_devs (snd (value m)))
      = map (@error_state D) (bus_devs (fst (value detect))) /\
    map (@pci_name D) (bus_devs (snd (value m))) = map (@pci_name D) (bus_devs bus).
Proof.
  intros dev dev_bus_self port bus m Hport Hbus Hrun Hfailed p name detect phases.
  rewrite (pcie_do_nonfatal_recovery_run _ _ _ _ Hport Hbus) in Hrun.
  injection Hrun as <-. fold p in Hfailed |- *.
  rewrite nonfatal_run_phases in Hfailed |- *. fold phases in Hfailed |- *.
  unfold value, trace in *.
  assert (Hfinish := nonfatal_finish_failed p (fst phases) Hfailed).
  unfold bind. rewrite Hfinish. cbn [fst snd]. fold name.
  destruct (nonfatal_vote_trace p bus) as (later & Hvote & Hmut & Huev & _ & _).
  destruct (nonfatal_reset_trace p (fst (nonfatal_vote PCI_HEADER_TYPE_BRIDGE p bus)))
    as (Hrmut & Hruev & _).
  assert (Hphases : snd phases =
            Ev_pci_dbg name "broadcast error_detected message" :: snd detect ++ later ++
            snd (nonfatal_reset pci_reset_bus_result p
                   (fst (nonfatal_vote PCI_HEADER_TYPE_BRIDGE p bus)))).
  { subst phases. unfold bind at 1. cbn [snd]. rewrite Hvote.
    cbn [app]. rewrite <- app_assoc. reflexivity. }
  split; [reflexivity|]. split; [reflexivity|].
  split; [|split; [|split; [|split]]].
  - rewrite Hphases. cbn [filter is_uevent]. rewrite !filter_app, Huev, Hruev, !app_nil_r.
    reflexivity.
  - rewrite Hphases. cbn [app filter is_disconnect_uevent]. rewrite !filter_app.
    rewrite (filter_nil_weaken is_uevent is_disconnect_uevent later disconnect_is_uevent Huev).
    rewrite (filter_nil_weaken is_uevent is_disconnect_uevent _ disconnect_is_uevent Hruev).
    cbn [app filter is_disconnect_uevent]. rewrite app_nil_r. reflexivity.
  - rewrite Hphases. cbn [app filter is_mutation].
    rewrite !filter_app, Hmut, Hrmut. cbn [filter is_mutation]. rewrite !app_nil_r.
    apply pci_walk_bus_trace_filter. intros d a. apply report_normal_detected_mutation.
  - subst phases. unfold bind. cbn [fst].
    rewrite nonfatal_reset_states. apply nonfatal_vote_states.
  - subst phases. unfold bind. cbn [fst].
    rewrite nonfatal_reset_names. apply nonfatal_vote_names.
Qed.

Lemma nonfatal_finish_names (p : pci_dev D)
    (r : list (pci_node D) * (pci_ers_result + pci_ers_result)) :
  map (@pci_name D) (bus_devs (snd (fst (nonfatal_finish pcie_aer_is_native p r))))
  = map (@pci_name D) (bus_devs (fst r)).
Proof.
  unfold nonfatal_finish. destruct (snd r) as [status | status]; [reflexivity|].
  destruct (pci_ers_result_eq_dec status PCI_ERS_RESULT_RECOVERED) as [-> | Hne];
    [|reflexivity].
  unfold bind. cbn [fst snd ret].
  rewrite (pci_walk_bus_map _ _ _ _ (@pci_name D) (fun x => x))
    by (intros; apply report_resume_name).
  apply map_id.
Qed.

(** C10: the run of the non-fatal recovery starts with the error_detected
    broadcast, which asks every device of the subtree, in discovery order,
    for channel state NORMAL; every channel-state set and every
    [error_detected] call of the whole run carries NORMAL; the run returns
    the devices of the subtree, and none of them is left FROZEN. *)
Theorem nonfatal_never_frozen :
  forall (dev : pci_node D) (dev_bus_self : option (pci_node D))
         (port : pci_node D) (bus : list (pci_node D)),
    nonfatal_port PCI_EXP_TYPE_ROOT_PORT PCI_EXP_TYPE_DOWNSTREAM dev dev_bus_self = Some port ->
    subordinate port = Some bus ->
    let detect := pci_walk_bus (report_normal_detected PCI_HEADER_TYPE_BRIDGE) bus
                    PCI_ERS_RESULT_CAN_RECOVER in
    exists m later,
      pcie_do_nonfatal_recovery PCI_HEADER_TYPE_BRIDGE PCI_EXP_TYPE_ROOT_PORT
        PCI_EXP_TYPE_DOWNSTREAM pci_reset_bus_result pcie_aer_is_native dev dev_bus_self
      = Some m /\
      trace m = Ev_pci_dbg (pci_name (node_dev port)) "broadcast error_detected message" ::
                trace detect ++ later /\
      filter is_set_io_state (trace detect) = flat_map (@set_normal_event D) (bus_devs bus) /\
      Forall state_is_normal (trace m) /\
      map (@pci_name D) (bus_devs (snd (value m))) = map (@pci_name D) (bus_devs bus) /\
      Forall (fun d => error_state d <> pci_channel_io_frozen) (bus_devs (snd (value m))).
Proof.
  intros dev dev_bus_self port bus Hport Hbus detect.
  set (p := node_dev port).
  destruct (nonfatal_vote_trace p bus) as (later & Hvote & _ & _ & Hnormal & _).
  eexists. eexists. split; [exact (pcie_do_nonfatal_recovery_run _ _ _ _ Hport Hbus)|].
  unfold value, trace. fold p.
  split; [|split; [|split; [|split]]].
  - unfold nonfatal_run, bind. cbn [snd]. rewrite Hvote.
    cbn [app]. rewrite <- app_assoc. reflexivity.
  - apply pci_walk_bus_trace_filter. intros d a. apply report_normal_detected_set_io.
  - unfold nonfatal_run, bind. cbn [snd].
    apply Forall_app. split; [|apply Forall_app; split].
    + rewrite Hvote. constructor; [exact I|]. apply Forall_app. split; [|exact Hnormal].
      apply pci_walk_bus_trace_Forall. intros d a. apply report_normal_detected_normal.
    + apply nonfatal_reset_trace.
    + apply nonfatal_finish_trace.
  - unfold nonfatal_run, bind. cbn [fst].
    rewrite nonfatal_finish_names, nonfatal_reset_names. apply nonfatal_vote_names.
  - apply (Forall_map (@error_state D) (fun s => s <> pci_channel_io_frozen)).
    unfold nonfatal_run, bind. cbn [fst].
    apply nonfatal_finish_states.
    rewrite nonfatal_reset_states, nonfatal_vote_states, detect_states.
    apply Forall_map. apply Forall_forall. intros s _. destruct s; discriminate.
Qed.

End Nonfatal.

(** ** The fatal orchestrator *)

Section Fatal.
Variable D : Type.
Variable PCI_HEADER_TYPE_BRIDGE : Z.
Variable pcie_aer_is_native : pci_dev D -> bool.
Variable pcie_wait_for_link_result : pci_dev D -> bool.

Lemma node_devs_children (n : pci_node D) :
  node_devs n = node_dev n :: bus_devs (children n).
Proof.
  destruct n as [d [l|]]; [apply node_devs_bus | reflexivity].
Qed.

Lemma removals_app (l1 l2 : list (pci_dev D)) :
  removals (l1 ++ l2) = removals l2 ++ removals l1.
Proof. unfold removals. rewrite map_app, rev_app_distr, map_app. reflexivity. Qed.

Lemma pci_stop_and_remove_bus_device_trace (n : pci_node D) :
  snd (pci_stop_and_remove_bus_device n) = removals (node_devs n).
Proof.
  induction n as [d | d l IH] using pci_node_ind; [reflexivity|].
  rewrite node_devs_bus. change (d :: bus_devs l) with ([d] ++ bus_devs l).
  rewrite removals_app. cbn [pci_stop_and_remove_bus_device]. unfold bind at 1.
  cbn [fst snd emit]. f_equal.
  induction IH as [|x rest Hx _ IHrest]; [reflexivity|].
  cbn [bus_devs]. rewrite removals_app. unfold bind at 1. cbn [snd].
  f_equal; [exact IHrest | exact Hx].
Qed.

Lemma remove_devices_reverse_trace (l : list (pci_node D)) :
  snd (remove_devices_reverse l) = removals (bus_devs l).
Proof.
  induction l as [|x rest IH]; [reflexivity|].
  cbn [remove_devices_reverse bus_devs]. rewrite removals_app. unfold bind.
  cbn [fst snd ret]. rewrite IH, pci_stop_and_remove_bus_device_trace, app_nil_r.
  reflexivity.
Qed.

Lemma remove_devices_reverse_value (l : list (pci_node D)) :
  fst (remove_devices_reverse l) = [].
Proof.
  induction l as [|x rest IH]; [reflexivity|].
  cbn [remove_devices_reverse]. unfold bind. cbn [fst snd ret]. exact IH.
Qed.

Lemma set_disconnected_trace (l : list (pci_node D)) :
  snd (pci_walk_bus (@pci_dev_set_disconnected D) l tt)
  = map Ev_set_disconnected (map (@pci_name D) (bus_devs l)).
Proof.
  rewrite pci_walk_bus_trace. induction (bus_devs l) as [|d rest IH]; [reflexivity|].
  cbn [walk_devs map]. unfold bind, pci_dev_set_disconnected, bind.
  cbn [fst snd emit ret app]. rewrite app_nil_r. f_equal. exact IH.
Qed.

Lemma in_bus_segment (n : pci_node D) (l : list (pci_node D)) :
  in_bus n l ->
  exists before after,
    bus_devs l = before ++ node_dev n :: bus_devs (children n) ++ after.
Proof.
  assert (Hin : forall (m : pci_node D) l, In m l ->
            exists before after, bus_devs l = before ++ node_devs m ++ after).
  { intros m l0. induction l0 as [|x rest IH]; intros H; [contradiction|].
    destruct H as [-> | H].
    - exists [], (bus_devs rest). reflexivity.
    - destruct (IH H) as (b & a & E). exists (node_devs x ++ b), a.
      cbn [bus_devs]. rewrite E, app_assoc. reflexivity. }
  induction 1 as [l H | m l H _ IH].
  - destruct (Hin n l H) as (b & a & E). exists b, a.
    rewrite E, node_devs_children. reflexivity.
  - destruct (Hin m l H) as (b & a & E). destruct IH as (b' & a' & E').
    exists (b ++ node_dev m :: b'), (a' ++ a).
    rewrite E, node_devs_children, E'. cbn [app].
    rewrite <- !app_assoc. cbn [app]. rewrite <- !app_assoc. reflexivity.
Qed.

Lemma filter_teardown_marks (names : list string) :
  filter is_teardown (map Ev_set_disconnected names) = map Ev_set_disconnected names.
Proof. induction names as [|x rest IH]; [reflexivity|]. cbn. rewrite IH. reflexivity. Qed.

Lemma filter_teardown_removals (names : list string) :
  filter is_teardown (map Ev_stop_and_remove names) = map Ev_stop_and_remove names.
Proof. induction names as [|x rest IH]; [reflexivity|]. cbn. rewrite IH. reflexivity. Qed.

(** C7: the fatal recovery first marks every device below the acting
    bridge PERM_FAILURE, in discovery order; then removes every one of
    them, in reverse discovery order, so that the devices below a device
    are all removed just before the device itself; and only then calls
    [reset_link] on the acting bridge.  All devices handed to removal are
    marked, and none is left on the bus. *)
Theorem fatal_teardown_order :
  forall (dev : pci_node D) (dev_bus_self : option (pci_node D))
         (udev : pci_node D) (parent : list (pci_node D))
         (reset_link : pci_dev D -> pci_ers_result),
    fatal_udev PCI_HEADER_TYPE_BRIDGE dev dev_bus_self = Some udev ->
    subordinate udev = Some parent ->
    let marked := pci_walk_bus (@pci_dev_set_disconnected D) parent tt in
    exists m,
      pcie_do_fatal_recovery PCI_HEADER_TYPE_BRIDGE pcie_aer_is_native
        pcie_wait_for_link_result dev dev_bus_self reset_link = Some m /\
      filter is_teardown (trace m) =
        map Ev_set_disconnected (map (@pci_name D) (bus_devs parent)) ++
        removals (bus_devs parent) ++
        [Ev_reset_link (pci_name (node_dev udev)) (reset_link (node_dev udev))] /\
      Forall (fun d => error_state d = pci_channel_io_perm_failure)
        (bus_devs (fst (value marked))) /\
      value m = (reset_link (node_dev udev), []) /\
      (forall n, in_bus n parent ->
         exists earlier later,
           removals (bus_devs parent) =
             earlier ++ removals (bus_devs (children n)) ++
             Ev_stop_and_remove (pci_name (node_dev n)) :: later).
Proof.
  intros dev dev_bus_self udev parent reset_link Hudev Hparent marked.
  unfold pcie_do_fatal_recovery. rewrite Hudev. cbn [obind]. rewrite Hparent.
  eexists. split; [reflexivity|].
  unfold value, trace in *.
  assert (Hnames : map (@pci_name D) (bus_devs (fst (fst marked)))
                   = map (@pci_name D) (bus_devs parent)).
  { subst marked. rewrite (pci_walk_bus_map _ _ _ _ (@pci_name D) (fun x => x)).
    - apply map_id.
    - intros d a. reflexivity. }
  split; [|split; [|split]].
  - unfold bind. cbn [fst snd emit]. fold marked.
    rewrite !filter_app. subst marked. rewrite set_disconnected_trace, filter_teardown_marks.
    rewrite remove_devices_reverse_trace. unfold removals at 1.
    rewrite filter_teardown_removals.
    fold (removals (bus_devs (fst (fst (pci_walk_bus (@pci_dev_set_disconnected D) parent tt))))).
    unfold removals. rewrite Hnames.
    cbn [filter is_teardown app]. f_equal. f_equal.
    destruct (hdr_type (node_dev dev) =? PCI_HEADER_TYPE_BRIDGE);
      destruct (pcie_aer_is_native (node_dev dev));
      destruct (pci_ers_result_eq_dec (reset_link (node_dev udev)) PCI_ERS_RESULT_RECOVERED);
      unfold pcie_wait_for_link, bind;
      try destruct (pcie_wait_for_link_result (node_dev udev)); reflexivity.
  - apply (Forall_map (@error_state D) (fun s => s = pci_channel_io_perm_failure)).
    subst marked.
    rewrite (pci_walk_bus_map _ _ _ _ (@error_state D) (fun _ => pci_channel_io_perm_failure)).
    + apply Forall_map, Forall_map. apply Forall_forall. intros d _. reflexivity.
    + intros d a. reflexivity.
  - unfold bind. cbn [fst snd ret]. rewrite remove_devices_reverse_value. reflexivity.
  - intros n Hn. destruct (in_bus_segment n parent Hn) as (before & after & E).
    exists (removals after), (removals before).
    rewrite E. change (node_dev n :: bus_devs (children n) ++ after)
      with ([node_dev n] ++ bus_devs (children n) ++ after).
    rewrite !removals_app, <- !app_assoc. reflexivity.
Qed.

End Fatal.

(** * The properties on the concrete topologies *)

Import Examples.

(** The complete run of the non-fatal recovery on [healthy]. *)
Example nonfatal_healthy_trace :
  option_map (@trace _)
    (pcie_do_nonfatal_recovery BRIDGE ROOT_PORT DOWNSTREAM reset_ok native healthy None)
  = Some
      [Ev_pci_dbg "00:1c.0" "broadcast error_detected message";
       Ev_device_lock "01:00.0";
       Ev_set_io_state "01:00.0" pci_channel_io_normal true;
       Ev_error_detected "01:00.0" pci_channel_io_normal PCI_ERS_RESULT_CAN_RECOVER;
       Ev_uevent_ers "01:00.0" PCI_ERS_RESULT_CAN_RECOVER;
       Ev_device_unlock "01:00.0";
       Ev_device_lock "02:00.0";
       Ev_set_io_state "02:00.0" pci_channel_io_normal true;
       Ev_error_detected "02:00.0" pci_channel_io_normal PCI_ERS_RESULT_CAN_RECOVER;
       Ev_uevent_ers "02:00.0" PCI_ERS_RESULT_CAN_RECOVER;
       Ev_device_unlock "02:00.0";
       Ev_device_lock "01:00.1";
       Ev_set_io_state "01:00.1" pci_channel_io_normal true;
       Ev_error_detected "01:00.1" pci_channel_io_normal PCI_ERS_RESULT_CAN_RECOVER;
       Ev_uevent_ers "01:00.1" PCI_ERS_RESULT_CAN_RECOVER;
       Ev_device_unlock "01:00.1";
       Ev_pci_dbg "00:1c.0" "broadcast mmio_enabled message";
       Ev_device_lock "01:00.0";
       Ev_mmio_enabled "01:00.0" PCI_ERS_RESULT_RECOVERED;
       Ev_device_unlock "01:00.0";
       Ev_device_lock "02:00.0";
       Ev_mmio_enabled "02:00.0" PCI_ERS_RESULT_RECOVERED;
       Ev_device_unlock "02:00.0";
       Ev_device_lock "01:00.1";
       Ev_mmio_enabled "01:00.1" PCI_ERS_RESULT_RECOVERED;
       Ev_device_unlock "01:00.1";
       Ev_pci_dbg "00:1c.0" "broadcast resume message";
       Ev_device_lock "01:00.0";
       Ev_set_io_state "01:00.0" pci_channel_io_normal true;
       Ev_resume "01:00.0";
       Ev_uevent_ers "01:00.0" PCI_ERS_RESULT_RECOVERED;
       Ev_device_unlock "01:00.0";
       Ev_device_lock "02:00.0";
       Ev_set_io_state "02:00.0" pci_channel_io_normal true;
       Ev_resume "02:00.0";
       Ev_uevent_ers "02:00.0" PCI_ERS_RESULT_RECOVERED;
       Ev_device_unlock "02:00.0";
       Ev_device_lock "01:00.1";
       Ev_set_io_state "01:00.1" pci_channel_io_normal true;
       Ev_resume "01:00.1";
       Ev_uevent_ers "01:00.1" PCI_ERS_RESULT_RECOVERED;
       Ev_device_unlock "01:00.1";
       Ev_clear_device_status "00:1c.0";
       Ev_aer_clear_nonfatal_status "00:1c.0";
       Ev_pci_info "00:1c.0" "device recovery successful"].
Proof. reflexivity. Qed.

(** The reset path: 02:00.0 asks for a reset, the bus reset succeeds, its
    [slot_reset] votes RECOVERED and the run ends RECOVERED. *)
Example nonfatal_reset_path :
  option_map (fun m => (fst (value m), filter is_callback (trace m)))
    (pcie_do_nonfatal_recovery BRIDGE ROOT_PORT DOWNSTREAM reset_ok native wants_reset None)
  = Some
      (PCI_ERS_RESULT_RECOVERED,
       [Ev_error_detected "01:00.0" pci_channel_io_normal PCI_ERS_RESULT_CAN_RECOVER;
        Ev_error_detected "02:00.0" pci_channel_io_normal PCI_ERS_RESULT_CAN_RECOVER;
        Ev_error_detected "01:00.1" pci_channel_io_normal PCI_ERS_RESULT_CAN_RECOVER;
        Ev_mmio_enabled "01:00.0" PCI_ERS_RESULT_RECOVERED;
        Ev_mmio_enabled "02:00.0" PCI_ERS_RESULT_NEED_RESET;
        Ev_mmio_enabled "01:00.1" PCI_ERS_RESULT_RECOVERED;
        Ev_slot_reset "02:00.0" PCI_ERS_RESULT_RECOVERED;
        Ev_resume "01:00.0"; Ev_resume "02:00.0"; Ev_resume "01:00.1"]).
Proof. reflexivity. Qed.

(** The no-driver veto: the driverless endpoint 01:00.1 makes the run
    fail with NO_DRIVER; the bridge 01:00.0, driverless too, abstains. *)
Example nonfatal_no_driver_veto :
  option_map (fun m => (fst (value m), filter is_uevent (trace m)))
    (pcie_do_nonfatal_recovery BRIDGE ROOT_PORT DOWNSTREAM reset_ok native driverless None)
  = Some
      (PCI_ERS_RESULT_NO_AER_DRIVER,
       [Ev_uevent_ers "01:00.0" PCI_ERS_RESULT_NONE;
        Ev_uevent_ers "02:00.0" PCI_ERS_RESULT_CAN_RECOVER;
        Ev_uevent_ers "01:00.1" PCI_ERS_RESULT_NO_AER_DRIVER;
        Ev_uevent_ers "00:1c.0" PCI_ERS_RESULT_DISCONNECT]).
Proof. reflexivity. Qed.

(** The complete run of the fatal recovery on [healthy]. *)
Example fatal_healthy_trace :
  option_map (@trace _)
    (pcie_do_fatal_recovery BRIDGE native link_up healthy None link_recovered)
  = Some
      [Ev_set_disconnected "01:00.0"; Ev_set_disconnected "02:00.0";
       Ev_set_disconnected "01:00.1";
       Ev_lock_rescan_remove; Ev_pci_dev_get "00:1c.0";
       Ev_stop_and_remove "01:00.1"; Ev_stop_and_remove "02:00.0";
       Ev_stop_and_remove "01:00.0";
       Ev_reset_link "00:1c.0" PCI_ERS_RESULT_RECOVERED;
       Ev_aer_clear_fatal_status "00:1c.0"; Ev_clear_device_status "00:1c.0";
       Ev_wait_for_link "00:1c.0" true; Ev_rescan_bus "00:1c.0";
       Ev_pci_info "00:1c.0" "Device recovery from fatal error successful";
       Ev_pci_dev_put "00:1c.0"; Ev_unlock_rescan_remove].
Proof. reflexivity. Qed.

(** An endpoint that reports the error delegates to the port above it. *)
Example nonfatal_endpoint_delegates :
  nonfatal_port ROOT_PORT DOWNSTREAM
    (Node (endpoint "01:00.1" pci_channel_io_normal (Some recovering)) None) (Some healthy)
  = Some healthy.
Proof. reflexivity. Qed.

(** merge_result_override at current DISCONNECT, incoming NEED_RESET. *)
Lemma merge_result_override_witness :
  PCI_ERS_RESULT_NEED_RESET <> PCI_ERS_RESULT_NONE /\
  PCI_ERS_RESULT_NEED_RESET <> PCI_ERS_RESULT_NO_AER_DRIVER /\
  merge_result PCI_ERS_RESULT_DISCONNECT PCI_ERS_RESULT_NEED_RESET = PCI_ERS_RESULT_NEED_RESET.
Proof.
  split; [discriminate|]. split; [discriminate|].
  destruct (merge_result_override PCI_ERS_RESULT_DISCONNECT PCI_ERS_RESULT_NEED_RESET)
    as (_ & H & _); [discriminate | discriminate |].
  apply H; reflexivity.
Defined.

(** report_error_detected_no_handler at the driverless endpoint 01:00.1. *)
Lemma report_error_detected_no_handler_witness :
  no_error_detected (endpoint "01:00.1" pci_channel_io_normal None) /\
  report_error_detected BRIDGE (endpoint "01:00.1" pci_channel_io_normal None)
    pci_channel_io_normal PCI_ERS_RESULT_CAN_RECOVER =
  ((0, endpoint "01:00.1" pci_channel_io_normal None, PCI_ERS_RESULT_NO_AER_DRIVER),
   [Ev_device_lock "01:00.1";
    Ev_set_io_state "01:00.1" pci_channel_io_normal true;
    Ev_pci_info "01:00.1" "can't recover (no error_detected callback)";
    Ev_uevent_ers "01:00.1" PCI_ERS_RESULT_NO_AER_DRIVER;
    Ev_device_unlock "01:00.1"]).
Proof.
  assert (H : no_error_detected (endpoint "01:00.1" pci_channel_io_normal None))
    by (left; reflexivity).
  split; [exact H|].
  apply (report_error_detected_no_handler nat BRIDGE
           (endpoint "01:00.1" pci_channel_io_normal None)
           pci_channel_io_normal PCI_ERS_RESULT_CAN_RECOVER H).
  discriminate.
Defined.

(** C2 as stated fails: the endpoint 01:00.1, already marked PERM_FAILURE
    and bound to a driver with [error_detected], is visited with running
    vote CAN_RECOVER; the channel-state set fails and the running vote
    becomes NO_DRIVER. *)
Lemma report_error_detected_perm_failure_vetoes :
  fst (value (pci_dev_set_io_state
                (endpoint "01:00.1" pci_channel_io_perm_failure (Some recovering))
                pci_channel_io_normal)) = false /\
  snd (value (report_normal_detected BRIDGE
                (endpoint "01:00.1" pci_channel_io_perm_failure (Some recovering))
                PCI_ERS_RESULT_CAN_RECOVER)) = PCI_ERS_RESULT_NO_AER_DRIVER /\
  PCI_ERS_RESULT_NO_AER_DRIVER <> PCI_ERS_RESULT_CAN_RECOVER.
Proof. split; [reflexivity|]. split; [reflexivity | discriminate]. Qed.

(** report_error_detected_perm_failure at the same endpoint, last on its
    bus. *)
Lemma report_error_detected_perm_failure_witness :
  error_state (endpoint "01:00.1" pci_channel_io_perm_failure (Some recovering))
    = pci_channel_io_perm_failure /\
  report_normal_detected BRIDGE
    (endpoint "01:00.1" pci_channel_io_perm_failure (Some recovering))
    PCI_ERS_RESULT_CAN_RECOVER =
  ((0, endpoint "01:00.1" pci_channel_io_perm_failure (Some recovering),
    PCI_ERS_RESULT_NO_AER_DRIVER),
   [Ev_device_lock "01:00.1";
    Ev_set_io_state "01:00.1" pci_channel_io_normal false;
    Ev_pci_info "01:00.1" "can't recover (no error_detected callback)";
    Ev_uevent_ers "01:00.1" PCI_ERS_RESULT_NO_AER_DRIVER;
    Ev_device_unlock "01:00.1"]).
Proof.
  split; [reflexivity|].
  exact (proj1 (report_error_detected_perm_failure nat BRIDGE
                  (endpoint "01:00.1" pci_channel_io_perm_failure (Some recovering))
                  None [] PCI_ERS_RESULT_CAN_RECOVER eq_refl)).
Defined.

Lemma recovering_votes_recoverable : driver_votes_recoverable (Some recovering).
Proof.
  unfold driver_votes_recoverable, recovering.
  eexists. eexists. eexists. eexists.
  split; [reflexivity|]. split; [reflexivity|]. split; [reflexivity|].
  split; [intros; reflexivity|]. split; [reflexivity | intros; reflexivity].
Defined.

(** C1 as stated fails: on [unplugged] every device is bound to a handler
    that votes CAN_RECOVER and then RECOVERED, but the endpoint 01:00.1
    was already marked PERM_FAILURE; the returned vote is NO_DRIVER and
    that endpoint stays PERM_FAILURE. *)
Lemma nonfatal_recovery_unplugged :
  Forall (@votes_recoverable nat) (bus_devs (children unplugged)) /\
  exists m,
    pcie_do_nonfatal_recovery BRIDGE ROOT_PORT DOWNSTREAM reset_ok native unplugged None
    = Some m /\
    fst (value m) = PCI_ERS_RESULT_NO_AER_DRIVER /\
    map (@error_state nat) (bus_devs (snd (value m)))
    = [pci_channel_io_normal; pci_channel_io_normal; pci_channel_io_perm_failure].
Proof.
  split.
  - repeat constructor; exact recovering_votes_recoverable.
  - eexists. split; [reflexivity|]. split; reflexivity.
Qed.

(** nonfatal_recovery_success on [healthy]. *)
Lemma nonfatal_recovery_success_witness :
  nonfatal_port ROOT_PORT DOWNSTREAM healthy None = Some healthy /\
  subordinate healthy = Some (children healthy) /\
  Forall (@votes_recoverable nat) (bus_devs (children healthy)) /\
  Forall (fun d => error_state d <> pci_channel_io_perm_failure) (bus_devs (children healthy)) /\
  exists m,
    pcie_do_nonfatal_recovery BRIDGE ROOT_PORT DOWNSTREAM reset_ok native healthy None
    = Some m /\
    fst (value m) = PCI_ERS_RESULT_RECOVERED /\
    Forall (fun d => error_state d = pci_channel_io_normal) (bus_devs (snd (value m))).
Proof.
  assert (Hv : Forall (@votes_recoverable nat) (bus_devs (children healthy)))
    by (repeat constructor; exact recovering_votes_recoverable).
  assert (Hl : Forall (fun d : pci_dev nat => error_state d <> pci_channel_io_perm_failure)
                 (bus_devs (children healthy)))
    by (repeat constructor; discriminate).
  split; [reflexivity|]. split; [reflexivity|]. split; [exact Hv|]. split; [exact Hl|].
  destruct (nonfatal_recovery_success nat BRIDGE ROOT_PORT DOWNSTREAM reset_ok native
              healthy None healthy (children healthy) eq_refl eq_refl Hv Hl)
    as (m & Hm & Hval & _ & _ & _ & _ & _ & _ & Hnormal).
  exists m. split; [exact Hm|]. rewrite Hval. split; [reflexivity | exact Hnormal].
Defined.

(** nonfatal_need_reset on [wants_reset] with a failing bus reset. *)
Lemma nonfatal_need_reset_witness :
  nonfatal_port ROOT_PORT DOWNSTREAM wants_reset None = Some wants_reset /\
  subordinate wants_reset = Some (children wants_reset) /\
  snd (value (nonfatal_vote BRIDGE root_port (children wants_reset)))
    = PCI_ERS_RESULT_NEED_RESET /\
  exists m,
    pcie_do_nonfatal_recovery BRIDGE ROOT_PORT DOWNSTREAM reset_fails native wants_reset None
    = Some m /\
    fst (value m) = PCI_ERS_RESULT_DISCONNECT /\
    Forall (fun e => is_slot_reset_or_resume e = false) (trace m).
Proof.
  split; [reflexivity|]. split; [reflexivity|]. split; [reflexivity|].
  destruct (nonfatal_need_reset nat BRIDGE ROOT_PORT DOWNSTREAM reset_fails native
              wants_reset None wants_reset (children wants_reset) eq_refl eq_refl eq_refl)
    as (m & Hm & Hfail & _).
  destruct Hfail as (Hval & _ & Hearly); [reflexivity|].
  exists m. split; [exact Hm|]. rewrite Hval. split; [reflexivity | exact Hearly].
Defined.

(** nonfatal_failure_path on [driverless]. *)
Lemma nonfatal_failure_path_witness :
  nonfatal_port ROOT_PORT DOWNSTREAM driverless None = Some driverless /\
  subordinate driverless = Some (children driverless) /\
  exists m,
    pcie_do_nonfatal_recovery BRIDGE ROOT_PORT DOWNSTREAM reset_ok native driverless None
    = Some m /\
    fst (value m) <> PCI_ERS_RESULT_RECOVERED /\
    filter is_mutation (trace m) =
      [Ev_set_io_state "01:00.0" pci_channel_io_normal true;
       Ev_set_io_state "02:00.0" pci_channel_io_normal true;
       Ev_set_io_state "01:00.1" pci_channel_io_normal true].
Proof.
  split; [reflexivity|]. split; [reflexivity|].
  eexists. split; [reflexivity|].
  assert (Hfailed : fst (value (nonfatal_run BRIDGE reset_ok native (node_dev driverless)
                                  (children driverless))) <> PCI_ERS_RESULT_RECOVERED)
    by discriminate.
  split; [exact Hfailed|].
  destruct (nonfatal_failure_path nat BRIDGE ROOT_PORT DOWNSTREAM reset_ok native
              driverless None driverless (children driverless) _ eq_refl eq_refl eq_refl
              Hfailed)
    as (_ & _ & _ & _ & Hmut & _).
  exact Hmut.
Defined.

(** nonfatal_never_frozen on [healthy], whose endpoint 02:00.0 starts
    FROZEN. *)
Lemma nonfatal_never_frozen_witness :
  nonfatal_port ROOT_PORT DOWNSTREAM healthy None = Some healthy /\
  subordinate healthy = Some (children healthy) /\
  exists m,
    pcie_do_nonfatal_recovery BRIDGE ROOT_PORT DOWNSTREAM reset_ok native healthy None
    = Some m /\
    filter is_set_io_state (firstn 16 (trace m)) =
      [Ev_set_io_state "01:00.0" pci_channel_io_normal true;
       Ev_set_io_state "02:00.0" pci_channel_io_normal true;
       Ev_set_io_state "01:00.1" pci_channel_io_normal true] /\
    Forall state_is_normal (trace m) /\
    Forall (fun d => error_state d <> pci_channel_io_frozen) (bus_devs (snd (value m))).
Proof.
  split; [reflexivity|]. split; [reflexivity|].
  destruct (nonfatal_never_frozen nat BRIDGE ROOT_PORT DOWNSTREAM reset_ok native
              healthy None healthy (children healthy) eq_refl eq_refl)
    as (m & later & Hm & Htrace & _ & Hnormal & _ & Hstates).
  exists m. split; [exact Hm|]. split; [|split; [exact Hnormal | exact Hstates]].
  rewrite Htrace. reflexivity.
Defined.

(** fatal_teardown_order on [healthy]: 02:00.0 is behind 01:00.0. *)
Lemma fatal_teardown_order_witness :
  fatal_udev BRIDGE healthy None = Some healthy /\
  subordinate healthy = Some (children healthy) /\
  exists m,
    pcie_do_fatal_recovery BRIDGE native link_up healthy None link_recovered = Some m /\
    filter is_teardown (trace m) =
      [Ev_set_disconnected "01:00.0"; Ev_set_disconnected "02:00.0";
       Ev_set_disconnected "01:00.1";
       Ev_stop_and_remove "01:00.1"; Ev_stop_and_remove "02:00.0";
       Ev_stop_and_remove "01:00.0";
       Ev_reset_link "00:1c.0" PCI_ERS_RESULT_RECOVERED].
Proof.
  split; [reflexivity|]. split; [reflexivity|].
  destruct (fatal_teardown_order nat BRIDGE native link_up healthy None healthy
              (children healthy) link_recovered eq_refl eq_refl)
    as (m & Hm & Horder & _).
  exists m. split; [exact Hm | exact Horder].
Defined.

(** * Further properties of the vote merger *)

Lemma merge_result_from_veto (v : pci_ers_result) :
  merge_result PCI_ERS_RESULT_NO_AER_DRIVER v = PCI_ERS_RESULT_NO_AER_DRIVER.
Proof. destruct v; reflexivity. Qed.

Lemma fold_merge_from_veto (votes : list pci_ers_result) :
  fold_left merge_result votes PCI_ERS_RESULT_NO_AER_DRIVER = PCI_ERS_RESULT_NO_AER_DRIVER.
Proof.
  induction votes as [|v rest IH]; [reflexivity|].
  cbn [fold_left]. rewrite merge_result_from_veto. exact IH.
Qed.

Lemma fold_merge_veto (votes : list pci_ers_result) (init : pci_ers_result) :
  In PCI_ERS_RESULT_NO_AER_DRIVER votes ->
  fold_left merge_result votes init = PCI_ERS_RESULT_NO_AER_DRIVER.
Proof.
  revert init. induction votes as [|v rest IH]; intros init H; [contradiction|].
  cbn [fold_left]. destruct H as [-> | H].
  - replace (merge_result init PCI_ERS_RESULT_NO_AER_DRIVER)
      with PCI_ERS_RESULT_NO_AER_DRIVER by (destruct init; reflexivity).
    apply fold_merge_from_veto.
  - apply IH. exact H.
Qed.

Lemma merge_result_stays_pessimistic (orig new : pci_ers_result) :
  ~ optimistic orig -> ~ optimistic (merge_result orig new).
Proof.
  unfold optimistic. intros H [E | E]; destruct orig, new; cbn in E;
    try discriminate; apply H; auto.
Qed.

Lemma fold_merge_stays_pessimistic (votes : list pci_ers_result) (init : pci_ers_result) :
  ~ optimistic init -> ~ optimistic (fold_left merge_result votes init).
Proof.
  revert init. induction votes as [|v rest IH]; intros init H; [exact H|].
  cbn [fold_left]. apply IH, merge_result_stays_pessimistic, H.
Qed.

Lemma fold_merge_not_none (votes : list pci_ers_result) (init : pci_ers_result) :
  init <> PCI_ERS_RESULT_NONE ->
  fold_left merge_result votes init <> PCI_ERS_RESULT_NONE.
Proof.
  revert init. induction votes as [|v rest IH]; intros init H; [exact H|].
  cbn [fold_left]. apply IH. destruct init, v; cbn; try discriminate; contradiction.
Qed.

(** X1: the merger never invents a vote: the merged vote is always the
    current vote or the incoming vote. *)
Theorem merge_result_selects :
  forall current incoming,
    merge_result current incoming = current \/ merge_result current incoming = incoming.
Proof. intros current incoming; destruct current, incoming; cbn; auto. Qed.

(** X2: a NO_DRIVER vote anywhere among the votes of a phase decides the
    phase, whatever the initial vote and whatever is voted before or after
    it. *)
Theorem fold_merge_result_veto :
  forall (votes : list pci_ers_result) (init : pci_ers_result),
    In PCI_ERS_RESULT_NO_AER_DRIVER votes ->
    fold_left merge_result votes init = PCI_ERS_RESULT_NO_AER_DRIVER.
Proof. exact fold_merge_veto. Qed.

(** X3: a phase whose merged vote is RECOVERED saw no NEED_RESET,
    DISCONNECT or NO_DRIVER vote: every vote was NONE, CAN_RECOVER or
    RECOVERED.  A later optimistic vote cannot overrule such a vote. *)
Theorem fold_merge_result_recovered :
  forall (votes : list pci_ers_result) (init : pci_ers_result),
    fold_left merge_result votes init = PCI_ERS_RESULT_RECOVERED ->
    Forall (fun v => v = PCI_ERS_RESULT_NONE \/ optimistic v) votes.
Proof.
  intros votes. induction votes as [|v rest IH]; intros init H; [constructor|].
  cbn [fold_left] in H. constructor; [|exact (IH _ H)].
  destruct (pci_ers_result_eq_dec v PCI_ERS_RESULT_NONE) as [-> | Hn]; [left; reflexivity|].
  right. unfold optimistic.
  destruct v; auto; try contradiction; exfalso;
    match type of H with
    | fold_left _ _ ?x = _ =>
        apply (fold_merge_stays_pessimistic rest x);
        [ unfold optimistic; destruct init; cbn; intros [E | E]; discriminate
        | right; exact H ]
    end.
Qed.

(** X4: merging is associative as long as the middle vote is not NONE,
    and it is not associative in general, nor commutative: with
    CAN_RECOVER and RECOVERED the later vote wins.  The order of the votes
    matters. *)
Theorem merge_result_order :
  (forall a b c,
     b <> PCI_ERS_RESULT_NONE ->
     merge_result (merge_result a b) c = merge_result a (merge_result b c)) /\
  merge_result (merge_result PCI_ERS_RESULT_CAN_RECOVER PCI_ERS_RESULT_NONE)
               PCI_ERS_RESULT_RECOVERED
    <> merge_result PCI_ERS_RESULT_CAN_RECOVER
         (merge_result PCI_ERS_RESULT_NONE PCI_ERS_RESULT_RECOVERED) /\
  merge_result PCI_ERS_RESULT_CAN_RECOVER PCI_ERS_RESULT_RECOVERED
    <> merge_result PCI_ERS_RESULT_RECOVERED PCI_ERS_RESULT_CAN_RECOVER.
Proof.
  split; [|split; discriminate].
  intros a b c H. destruct a, b, c; try reflexivity; contradiction.
Qed.

(** * Further properties of the walk *)

Section WalkerMore.
Variable D : Type.
Variable A : Type.
Variable cb : pci_dev D -> A -> M (Z * pci_dev D * A).

Lemma node_shape_bus (d : pci_dev D) (l : list (pci_node D)) :
  node_shape (Node d (Some l)) = Shape (pci_name d) (Some (map (@node_shape D) l)).
Proof.
  cbn [node_shape]. f_equal.
Qed.

(** A walk whose callback keeps the name of the device keeps the names
    and the structure of the subtree. *)
Lemma pci_walk_bus_shape :
  (forall d a, pci_name (snd (fst (fst (cb d a)))) = pci_name d) ->
  forall l a, map (@node_shape D) (fst (fst (pci_walk_bus cb l a))) = map (@node_shape D) l.
Proof.
  intros Hcb.
  assert (Hnode : forall n a, node_shape (fst (fst (pci_walk_dev cb n a))) = node_shape n).
  { intros n. induction n as [d | d l IH] using pci_node_ind; intros a.
    - cbn [pci_walk_dev]. unfold bind. cbn [fst snd ret node_shape]. rewrite Hcb. reflexivity.
    - rewrite pci_walk_dev_bus. unfold bind. cbn [fst snd ret].
      rewrite !node_shape_bus, Hcb. f_equal. f_equal.
      generalize (snd (fst (cb d a))). clear a.
      induction IH as [|x rest Hx _ IHrest]; intros a; [reflexivity|].
      cbn [pci_walk_bus]. unfold bind. cbn [fst snd ret map]. rewrite Hx, IHrest.
      reflexivity. }
  intros l. induction l as [|x rest IH]; intros a; [reflexivity|].
  cbn [pci_walk_bus]. unfold bind. cbn [fst snd ret map]. rewrite Hnode, IH. reflexivity.
Qed.

(** The value a walk returns is the callback's effect on it, folded over
    the devices in discovery order. *)
Lemma pci_walk_bus_data_fold (f : A -> pci_dev D -> A) :
  (forall d a, snd (fst (cb d a)) = f a d) ->
  forall l a, snd (fst (pci_walk_bus cb l a)) = fold_left f (bus_devs l) a.
Proof.
  intros Hcb l a. rewrite pci_walk_bus_data. revert a.
  induction (bus_devs l) as [|d rest IH]; intros a; [reflexivity|].
  cbn [walk_devs fold_left]. unfold bind. cbn [fst snd ret]. rewrite IH, Hcb. reflexivity.
Qed.

End WalkerMore.

Lemma fold_left_map_votes (X : Type) (vote : X -> pci_ers_result) (l : list X)
    (init : pci_ers_result) :
  fold_left (fun a x => merge_result a (vote x)) l init
  = fold_left merge_result (map vote l) init.
Proof.
  revert init. induction l as [|x rest IH]; intros init; [reflexivity|].
  cbn [fold_left map]. apply IH.
Qed.

Lemma fold_left_flat_map_votes (X : Type) (votes : X -> list pci_ers_result) (l : list X)
    (init : pci_ers_result) :
  fold_left (fun a x => fold_left merge_result (votes x) a) l init
  = fold_left merge_result (flat_map votes l) init.
Proof.
  revert init. induction l as [|x rest IH]; intros init; [reflexivity|].
  cbn [fold_left flat_map]. rewrite fold_left_app. apply IH.
Qed.

(** * Further properties of the per-device callbacks *)

Section CallbacksMore.
Variable D : Type.
Variable PCI_HEADER_TYPE_BRIDGE : Z.

Ltac visit_votes d :=
  unfold detect_vote, silent_vote, mmio_vote, slot_vote, resume_called, cast, option_map;
  visit_cases d.

Lemma report_normal_detected_vote (d : pci_dev D) (a : pci_ers_result) :
  snd (fst (report_normal_detected PCI_HEADER_TYPE_BRIDGE d a))
  = merge_result a (detect_vote PCI_HEADER_TYPE_BRIDGE pci_channel_io_normal d).
Proof. visit_votes d; reflexivity. Qed.

Lemma report_normal_detected_uevent (d : pci_dev D) (a : pci_ers_result) :
  filter is_uevent (snd (report_normal_detected PCI_HEADER_TYPE_BRIDGE d a))
  = [Ev_uevent_ers (pci_name d)
       (detect_vote PCI_HEADER_TYPE_BRIDGE pci_channel_io_normal d)].
Proof. visit_votes d; reflexivity. Qed.

Lemma report_mmio_enabled_vote (d : pci_dev D) (a : pci_ers_result) :
  snd (fst (report_mmio_enabled d a)) = fold_left merge_result (cast (mmio_vote d)) a.
Proof. visit_votes d; reflexivity. Qed.

Lemma report_mmio_enabled_call (d : pci_dev D) (a : pci_ers_result) :
  filter is_callback (snd (report_mmio_enabled d a))
  = map (Ev_mmio_enabled (pci_name d)) (cast (mmio_vote d)).
Proof. visit_votes d; reflexivity. Qed.

Lemma report_slot_reset_vote (d : pci_dev D) (a : pci_ers_result) :
  snd (fst (report_slot_reset d a)) = fold_left merge_result (cast (slot_vote d)) a.
Proof. visit_votes d; reflexivity. Qed.

Lemma report_slot_reset_call (d : pci_dev D) (a : pci_ers_result) :
  filter is_callback (snd (report_slot_reset d a))
  = map (Ev_slot_reset (pci_name d)) (cast (slot_vote d)).
Proof. visit_votes d; reflexivity. Qed.

Lemma report_resume_uevent (d : pci_dev D) (a : pci_ers_result) :
  filter is_uevent (snd (report_resume d a))
  = [Ev_uevent_ers (pci_name d) PCI_ERS_RESULT_RECOVERED].
Proof. visit_votes d; reflexivity. Qed.

Lemma report_resume_call (d : pci_dev D) (a : pci_ers_result) :
  filter is_callback (snd (report_resume d a))
  = if resume_called d then [Ev_resume (pci_name d)] else [].
Proof. visit_votes d; reflexivity. Qed.

Lemma report_resume_driver (d : pci_dev D) (a : pci_ers_result) :
  driver (snd (fst (fst (report_resume d a)))) = driver d.
Proof. visit_votes d; reflexivity. Qed.

Lemma report_slot_reset_driver (d : pci_dev D) (a : pci_ers_result) :
  driver (snd (fst (fst (report_slot_reset d a)))) = driver d.
Proof. visit_votes d; reflexivity. Qed.

(** X5: each of the four callbacks returns 0, so a walk never has a reason
    to stop early, and leaves the name, the header type, the port type
    and the driver binding of the device as they were. *)
Theorem nonfatal_callbacks_frame :
  Forall (fun cb =>
            forall (d : pci_dev D) (a : pci_ers_result),
              fst (fst (value (cb d a))) = 0 /\
              pci_name (snd (fst (value (cb d a)))) = pci_name d /\
              hdr_type (snd (fst (value (cb d a)))) = hdr_type d /\
              pcie_type (snd (fst (value (cb d a)))) = pcie_type d /\
              driver (snd (fst (value (cb d a)))) = driver d)
    (nonfatal_callbacks D PCI_HEADER_TYPE_BRIDGE).
Proof.
  unfold nonfatal_callbacks.
  repeat (apply Forall_cons; [intros d a; visit_cases d; repeat split; reflexivity|]).
  apply Forall_nil.
Qed.

(** X6: [report_resume] never changes the running vote and sends exactly
    one RECOVERED notification for the device, whatever happens before
    it: a device that is not marked PERM_FAILURE ends NORMAL and its
    [resume] is called if it has one; a device marked PERM_FAILURE stays
    PERM_FAILURE and its [resume] is not called, yet it is notified as
    recovered. *)
Theorem report_resume_effect :
  forall (dev : pci_dev D) (data : pci_ers_result),
    snd (value (report_resume dev data)) = data /\
    error_state (snd (fst (value (report_resume dev data))))
      = normal_unless_failed (error_state dev) /\
    filter is_uevent (trace (report_resume dev data))
      = [Ev_uevent_ers (pci_name dev) PCI_ERS_RESULT_RECOVERED] /\
    filter is_callback (trace (report_resume dev data))
      = (if resume_called dev then [Ev_resume (pci_name dev)] else []) /\
    (error_state dev = pci_channel_io_perm_failure -> resume_called dev = false).
Proof.
  intros dev data. repeat split; try (visit_votes dev; reflexivity).
  intros H. unfold resume_called. rewrite H. reflexivity.
Qed.

End CallbacksMore.

(** * Further properties of the broadcast phases *)

Section PhasesMore.
Variable D : Type.
Variable PCI_HEADER_TYPE_BRIDGE : Z.

(** X7: every phase takes the device lock of every device of the subtree
    exactly once, in discovery order, and releases it before it takes the
    next: no two device locks are held together, and no device is skipped
    whatever the votes are. *)
Theorem phase_locks_each_device_once :
  Forall (fun cb =>
            forall (bus : list (pci_node D)) (init : pci_ers_result),
              filter is_device_lock (trace (pci_walk_bus cb bus init))
              = flat_map (@locked_once D) (bus_devs bus))
    (nonfatal_callbacks D PCI_HEADER_TYPE_BRIDGE).
Proof.
  unfold nonfatal_callbacks, trace.
  repeat (apply Forall_cons;
          [intros bus init; apply pci_walk_bus_trace_filter;
           intros d a; unfold locked_once; visit_cases d; reflexivity|]).
  apply Forall_nil.
Qed.

(** X8: the outcome of the error_detected broadcast is the left fold of
    [merge_result] over the votes of the devices in discovery order, and
    one notification per device carries that device's vote.  The vote of
    a device depends on that device alone. *)
Theorem error_detected_phase_fold :
  forall (bus : list (pci_node D)) (init : pci_ers_result),
    snd (value (pci_walk_bus (report_normal_detected PCI_HEADER_TYPE_BRIDGE) bus init))
    = fold_left merge_result
        (map (detect_vote PCI_HEADER_TYPE_BRIDGE pci_channel_io_normal) (bus_devs bus)) init /\
    filter is_uevent
      (trace (pci_walk_bus (report_normal_detected PCI_HEADER_TYPE_BRIDGE) bus init))
    = map (fun d => Ev_uevent_ers (pci_name d)
                      (detect_vote PCI_HEADER_TYPE_BRIDGE pci_channel_io_normal d))
        (bus_devs bus).
Proof.
  intros bus init. unfold value, trace. split.
  - rewrite <- fold_left_map_votes. apply pci_walk_bus_data_fold.
    intros d a. apply report_normal_detected_vote.
  - rewrite (pci_walk_bus_trace_filter _ _ _ is_uevent
               (fun d => [Ev_uevent_ers (pci_name d)
                            (detect_vote PCI_HEADER_TYPE_BRIDGE pci_channel_io_normal d)])).
    + apply flat_map_singleton. apply Forall_forall. intros; reflexivity.
    + intros d a. apply report_normal_detected_uevent.
Qed.

(** X9: the mmio_enabled broadcast calls [mmio_enabled] on every device
    that has it, in discovery order and whatever the device's channel
    state; devices without it are skipped in silence.  Its outcome is the
    left fold of [merge_result] over the answers; it changes no channel
    state and sends no notification. *)
Theorem mmio_enabled_phase_fold :
  forall (bus : list (pci_node D)) (init : pci_ers_result),
    snd (value (pci_walk_bus (@report_mmio_enabled D) bus init))
    = fold_left merge_result (flat_map (fun d => cast (mmio_vote d)) (bus_devs bus)) init /\
    filter is_callback (trace (pci_walk_bus (@report_mmio_enabled D) bus init))
    = flat_map (fun d => map (Ev_mmio_enabled (pci_name d)) (cast (mmio_vote d)))
        (bus_devs bus) /\
    map (@error_state D) (bus_devs (fst (value (pci_walk_bus (@report_mmio_enabled D) bus init))))
    = map (@error_state D) (bus_devs bus) /\
    filter is_uevent (trace (pci_walk_bus (@report_mmio_enabled D) bus init)) = [] /\
    filter is_mutation (trace (pci_walk_bus (@report_mmio_enabled D) bus init)) = [].
Proof.
  intros bus init. unfold value, trace. split; [|split; [|split; [|split]]].
  - rewrite <- fold_left_flat_map_votes. apply pci_walk_bus_data_fold.
    intros d a. apply report_mmio_enabled_vote.
  - apply pci_walk_bus_trace_filter. intros d a. apply report_mmio_enabled_call.
  - rewrite (pci_walk_bus_map _ _ _ _ (@error_state D) (fun x => x))
      by (intros; apply report_mmio_enabled_state).
    apply map_id.
  - apply pci_walk_bus_trace_filter_nil. intros d a. apply report_mmio_enabled_uevent.
  - apply pci_walk_bus_trace_filter_nil. intros d a. apply report_mmio_enabled_mutation.
Qed.

(** X10: the slot_reset broadcast calls [slot_reset] on every device that
    has it, in discovery order; devices without it are skipped in
    silence.  Its outcome is the left fold of [merge_result] over the
    answers; it changes no channel state and sends no notification. *)
Theorem slot_reset_phase_fold :
  forall (bus : list (pci_node D)) (init : pci_ers_result),
    snd (value (pci_walk_bus (@report_slot_reset D) bus init))
    = fold_left merge_result (flat_map (fun d => cast (slot_vote d)) (bus_devs bus)) init /\
    filter is_callback (trace (pci_walk_bus (@report_slot_reset D) bus init))
    = flat_map (fun d => map (Ev_slot_reset (pci_name d)) (cast (slot_vote d)))
        (bus_devs bus) /\
    map (@error_state D) (bus_devs (fst (value (pci_walk_bus (@report_slot_reset D) bus init))))
    = map (@error_state D) (bus_devs bus) /\
    filter is_uevent (trace (pci_walk_bus (@report_slot_reset D) bus init)) = [] /\
    filter is_mutation (trace (pci_walk_bus (@report_slot_reset D) bus init)) = [].
Proof.
  intros bus init. unfold value, trace. split; [|split; [|split; [|split]]].
  - rewrite <- fold_left_flat_map_votes. apply pci_walk_bus_data_fold.
    intros d a. apply report_slot_reset_vote.
  - apply pci_walk_bus_trace_filter. intros d a. apply report_slot_reset_call.
  - rewrite (pci_walk_bus_map _ _ _ _ (@error_state D) (fun x => x))
      by (intros; apply report_slot_reset_state).
    apply map_id.
  - apply pci_walk_bus_trace_filter_nil. intros d a. apply report_slot_reset_uevent.
  - apply pci_walk_bus_trace_filter_nil. intros d a. apply report_slot_reset_mutation.
Qed.

(** X11: the resume broadcast leaves the running vote as it was, notifies
    every device of the subtree as RECOVERED, in discovery order, calls
    [resume] on the devices that have it and are not marked PERM_FAILURE,
    and leaves every device NORMAL except those marked PERM_FAILURE. *)
Theorem resume_phase_effect :
  forall (bus : list (pci_node D)) (init : pci_ers_result),
    snd (value (pci_walk_bus (@report_resume D) bus init)) = init /\
    filter is_uevent (trace (pci_walk_bus (@report_resume D) bus init))
    = map (fun d => Ev_uevent_ers (pci_name d) PCI_ERS_RESULT_RECOVERED) (bus_devs bus) /\
    filter is_callback (trace (pci_walk_bus (@report_resume D) bus init))
    = map (fun d => Ev_resume (pci_name d)) (filter (@resume_called D) (bus_devs bus)) /\
    map (@error_state D) (bus_devs (fst (value (pci_walk_bus (@report_resume D) bus init))))
    = map normal_unless_failed (map (@error_state D) (bus_devs bus)).
Proof.
  intros bus init. unfold value, trace. split; [|split; [|split]].
  - apply pci_walk_bus_data_fixed. apply Forall_forall. intros d _.
    apply report_resume_data.
  - rewrite (pci_walk_bus_trace_filter _ _ _ is_uevent
               (fun d => [Ev_uevent_ers (pci_name d) PCI_ERS_RESULT_RECOVERED])).
    + apply flat_map_singleton. apply Forall_forall. intros; reflexivity.
    + intros d a. apply report_resume_uevent.
  - rewrite (pci_walk_bus_trace_filter _ _ _ is_callback
               (fun d => if resume_called d then [Ev_resume (pci_name d)] else [])).
    + induction (bus_devs bus) as [|d rest IH]; [reflexivity|].
      cbn [flat_map filter]. destruct (resume_called d); cbn [map app]; rewrite IH; reflexivity.
    + intros d a. apply report_resume_call.
  - apply pci_walk_bus_map. intros d a. apply report_resume_state.
Qed.

(** X12: no phase changes the topology: after any of the four broadcasts
    the subtree has the same devices, by name, in the same structure. *)
Theorem phase_keeps_topology :
  Forall (fun cb =>
            forall (bus : list (pci_node D)) (init : pci_ers_result),
              map (@node_shape D) (fst (value (pci_walk_bus cb bus init)))
              = map (@node_shape D) bus)
    (nonfatal_callbacks D PCI_HEADER_TYPE_BRIDGE).
Proof.
  unfold nonfatal_callbacks, value.
  repeat (apply Forall_cons;
          [intros bus init; apply pci_walk_bus_shape;
           intros d a; visit_cases d; reflexivity|]).
  apply Forall_nil.
Qed.

End PhasesMore.

(** * Further properties of the non-fatal orchestrator *)

Section NonfatalMore.
Variable D : Type.
Variable PCI_HEADER_TYPE_BRIDGE : Z.
Variable PCI_EXP_TYPE_ROOT_PORT : Z.
Variable PCI_EXP_TYPE_DOWNSTREAM : Z.
Variable pci_reset_bus_result : pci_dev D -> Z.
Variable pcie_aer_is_native : pci_dev D -> bool.

(** The whole run, flattened: which broadcasts run on which devices, the
    vote after each step and the calls in order. *)
Lemma nonfatal_run_flat (p : pci_dev D) (bus : list (pci_node D)) :
  let name := pci_name p in
  let rc := pci_reset_bus_result p in
  let detect := pci_walk_bus (report_normal_detected PCI_HEADER_TYPE_BRIDGE) bus
                  PCI_ERS_RESULT_CAN_RECOVER in
  let mmio := pci_walk_bus (@report_mmio_enabled D) (fst (fst detect))
                PCI_ERS_RESULT_RECOVERED in
  let checked := if pci_ers_result_eq_dec (snd (fst detect)) PCI_ERS_RESULT_CAN_RECOVER
                 then true else false in
  let v2 := if checked then snd (fst mmio) else snd (fst detect) in
  let b2 := if checked then fst (fst mmio) else fst (fst detect) in
  let slot := pci_walk_bus (@report_slot_reset D) b2 PCI_ERS_RESULT_RECOVERED in
  let reset := if pci_ers_result_eq_dec v2 PCI_ERS_RESULT_NEED_RESET then true else false in
  let v3 := if reset then (if rc <? 0 then PCI_ERS_RESULT_DISCONNECT else snd (fst slot))
            else v2 in
  let b3 := if reset then (if rc <? 0 then b2 else fst (fst slot)) else b2 in
  let resumed := pci_walk_bus (@report_resume D) b3 PCI_ERS_RESULT_RECOVERED in
  let ok := if pci_ers_result_eq_dec v3 PCI_ERS_RESULT_RECOVERED then true else false in
  nonfatal_run PCI_HEADER_TYPE_BRIDGE pci_reset_bus_result pcie_aer_is_native p bus =
  ((v3, if ok then fst (fst resumed) else b3),
   Ev_pci_dbg name "broadcast error_detected message" :: snd detect ++
   (if checked then Ev_pci_dbg name "broadcast mmio_enabled message" :: snd mmio else []) ++
   (if reset
    then Ev_pci_reset_bus name rc ::
         (if rc <? 0 then [Ev_pci_err name "Failed to reset %d" rc]
          else Ev_pci_dbg name "broadcast slot_reset message" :: snd slot)
    else []) ++
   (if ok
    then Ev_pci_dbg name "broadcast resume message" :: snd resumed ++
         (if pcie_aer_is_native p then [Ev_clear_device_status name] else []) ++
         [Ev_aer_clear_nonfatal_status name; Ev_pci_info name "device recovery successful"]
    else [Ev_uevent_ers name PCI_ERS_RESULT_DISCONNECT;
          Ev_pci_info name "device recovery failed"])).
Proof.
  intros name rc detect mmio checked v2 b2 slot reset v3 b3 resumed ok.
  assert (Hresumed : forall b, snd (fst (pci_walk_bus (@report_resume D) b
                                           PCI_ERS_RESULT_RECOVERED))
                               = PCI_ERS_RESULT_RECOVERED).
  { intros b. apply pci_walk_bus_data_fixed. apply Forall_forall. intros d _.
    apply report_resume_data. }
  subst ok resumed b3 v3 reset slot b2 v2 checked mmio detect rc name.
  unfold nonfatal_run, nonfatal_vote, nonfatal_reset, nonfatal_finish, nonfatal_failed,
    pci_reset_bus, bind.
  cbn [fst snd pci_dbg pci_err pci_info pci_uevent_ers pcie_clear_device_status
       pci_aer_clear_nonfatal_status emit ret].
  repeat (cbn [fst snd ret];
          match goal with
          | |- context [pci_ers_result_eq_dec ?a ?b] => destruct (pci_ers_result_eq_dec a b)
          | |- context [?x <? 0] => destruct (x <? 0)
          end);
  cbn [fst snd ret] in *;
  try congruence;
  repeat match goal with
         | H : ?x = PCI_ERS_RESULT_RECOVERED |- _ => try rewrite !H; clear H
         end;
  rewrite ?Hresumed;
  destruct (pcie_aer_is_native p);
  cbn [fst snd ret emit app];
  rewrite ?app_nil_r; cbn [app]; rewrite <- ?app_assoc; cbn [app];
  rewrite <- ?app_assoc; reflexivity.
Qed.

Lemma detect_walk_fold (bus : list (pci_node D)) (init : pci_ers_result) :
  snd (fst (pci_walk_bus (report_normal_detected PCI_HEADER_TYPE_BRIDGE) bus init))
  = fold_left merge_result
      (map (detect_vote PCI_HEADER_TYPE_BRIDGE pci_channel_io_normal) (bus_devs bus)) init.
Proof.
  rewrite <- fold_left_map_votes. apply pci_walk_bus_data_fold.
  intros d a. apply report_normal_detected_vote.
Qed.

Lemma mmio_walk_fold (bus : list (pci_node D)) (init : pci_ers_result) :
  snd (fst (pci_walk_bus (@report_mmio_enabled D) bus init))
  = fold_left merge_result (flat_map (fun d => cast (mmio_vote d)) (bus_devs bus)) init.
Proof.
  rewrite <- fold_left_flat_map_votes. apply pci_walk_bus_data_fold.
  intros d a. apply report_mmio_enabled_vote.
Qed.

Lemma slot_walk_fold (bus : list (pci_node D)) (init : pci_ers_result) :
  snd (fst (pci_walk_bus (@report_slot_reset D) bus init))
  = fold_left merge_result (flat_map (fun d => cast (slot_vote d)) (bus_devs bus)) init.
Proof.
  rewrite <- fold_left_flat_map_votes. apply pci_walk_bus_data_fold.
  intros d a. apply report_slot_reset_vote.
Qed.

(** X13: the vote [pcie_do_nonfatal_recovery] returns: the vote after the
    error_detected and mmio_enabled broadcasts, unless that vote is
    NEED_RESET; then DISCONNECT if the bus reset fails and the outcome of
    the slot_reset broadcast if it succeeds.  The resume broadcast never
    changes it, and it is never NONE. *)
Theorem nonfatal_returned_vote :
  forall (dev : pci_node D) (dev_bus_self : option (pci_node D))
         (port : pci_node D) (bus : list (pci_node D)),
    nonfatal_port PCI_EXP_TYPE_ROOT_PORT PCI_EXP_TYPE_DOWNSTREAM dev dev_bus_self = Some port ->
    subordinate port = Some bus ->
    let rc := pci_reset_bus_result (node_dev port) in
    let detect := pci_walk_bus (report_normal_detected PCI_HEADER_TYPE_BRIDGE) bus
                    PCI_ERS_RESULT_CAN_RECOVER in
    let mmio := pci_walk_bus (@report_mmio_enabled D) (fst (value detect))
                  PCI_ERS_RESULT_RECOVERED in
    let voted := if pci_ers_result_eq_dec (snd (value detect)) PCI_ERS_RESULT_CAN_RECOVER
                 then value mmio else value detect in
    let slot := pci_walk_bus (@report_slot_reset D) (fst voted) PCI_ERS_RESULT_RECOVERED in
    exists m,
      pcie_do_nonfatal_recovery PCI_HEADER_TYPE_BRIDGE PCI_EXP_TYPE_ROOT_PORT
        PCI_EXP_TYPE_DOWNSTREAM pci_reset_bus_result pcie_aer_is_native dev dev_bus_self
      = Some m /\
      fst (value m) =
        (if pci_ers_result_eq_dec (snd voted) PCI_ERS_RESULT_NEED_RESET
         then if rc <? 0 then PCI_ERS_RESULT_DISCONNECT else snd (value slot)
         else snd voted) /\
      fst (value m) <> PCI_ERS_RESULT_NONE.
Proof.
  intros dev dev_bus_self port bus Hport Hbus rc detect mmio voted slot.
  eexists. split; [exact (pcie_do_nonfatal_recovery_run _ _ _ _ _ _ _ _ _ _ Hport Hbus)|].
  pose proof (nonfatal_run_flat (node_dev port) bus) as Hflat. cbv zeta in Hflat.
  rewrite Hflat. clear Hflat.
  unfold value in *. cbn [fst snd]. fold rc detect. fold mmio.
  assert (Hd : snd (fst detect) <> PCI_ERS_RESULT_NONE).
  { subst detect. rewrite detect_walk_fold. apply fold_merge_not_none. discriminate. }
  assert (Hm : snd (fst mmio) <> PCI_ERS_RESULT_NONE).
  { subst mmio. rewrite mmio_walk_fold. apply fold_merge_not_none. discriminate. }
  assert (Hs : snd (fst slot) <> PCI_ERS_RESULT_NONE).
  { subst slot. rewrite slot_walk_fold. apply fold_merge_not_none. discriminate. }
  subst slot voted.
  destruct (pci_ers_result_eq_dec (snd (fst detect)) PCI_ERS_RESULT_CAN_RECOVER);
    cbn [fst snd] in *;
    match goal with |- context [pci_ers_result_eq_dec ?a PCI_ERS_RESULT_NEED_RESET] =>
      destruct (pci_ers_result_eq_dec a PCI_ERS_RESULT_NEED_RESET) end;
    try destruct (rc <? 0); split; try reflexivity; try assumption; discriminate.
Qed.

Lemma Forall_filter_intro (P : event -> Prop) (f : event -> bool) (l : list event) :
  Forall (fun e => f e = true -> P e) l -> Forall P (filter f l).
Proof.
  induction 1 as [|e rest He _ IH]; [constructor|].
  cbn [filter]. destruct (f e) eqn:E; [constructor; auto | exact IH].
Qed.

Lemma nonfatal_reset_goto_failed (p : pci_dev D) (r : list (pci_node D) * pci_ers_result)
    (status : pci_ers_result) :
  snd (fst (nonfatal_reset pci_reset_bus_result p r)) = inl status ->
  status = PCI_ERS_RESULT_DISCONNECT.
Proof.
  unfold nonfatal_reset, pci_reset_bus, bind. cbn [fst snd emit ret].
  destruct (pci_ers_result_eq_dec (snd r) PCI_ERS_RESULT_NEED_RESET); [|discriminate].
  destruct (pci_reset_bus_result p <? 0); cbn [fst snd]; [|discriminate].
  intros H. injection H as <-. reflexivity.
Qed.

(** X14: when the non-fatal recovery returns RECOVERED, the broadcast
    phases are followed by the resume broadcast over the whole subtree,
    which notifies every device as RECOVERED in discovery order, then by
    the clearing of the port's status and the success message; the code
    at [failed:] is not run. *)
Theorem nonfatal_success_path :
  forall (dev : pci_node D) (dev_bus_self : option (pci_node D))
         (port : pci_node D) (bus : list (pci_node D))
         (m : M (pci_ers_result * list (pci_node D))),
    nonfatal_port PCI_EXP_TYPE_ROOT_PORT PCI_EXP_TYPE_DOWNSTREAM dev dev_bus_self = Some port ->
    subordinate port = Some bus ->
    pcie_do_nonfatal_recovery PCI_HEADER_TYPE_BRIDGE PCI_EXP_TYPE_ROOT_PORT
      PCI_EXP_TYPE_DOWNSTREAM pci_reset_bus_result pcie_aer_is_native dev dev_bus_self
    = Some m ->
    fst (value m) = PCI_ERS_RESULT_RECOVERED ->
    let p := node_dev port in
    let name := pci_name p in
    let phases := bind (nonfatal_vote PCI_HEADER_TYPE_BRIDGE p bus)
                       (nonfatal_reset pci_reset_bus_result p) in
    let resumed := pci_walk_bus (@report_resume D) (fst (value phases))
                     PCI_ERS_RESULT_RECOVERED in
    snd (value m) = fst (value resumed) /\
    trace m = trace phases ++
              Ev_pci_dbg name "broadcast resume message" :: trace resumed ++
              (if pcie_aer_is_native p then [Ev_clear_device_status name] else []) ++
              [Ev_aer_clear_nonfatal_status name;
               Ev_pci_info name "device recovery successful"] /\
    filter is_uevent (trace resumed)
      = map (fun n => Ev_uevent_ers n PCI_ERS_RESULT_RECOVERED)
          (map (@pci_name D) (bus_devs bus)).
Proof.
  intros dev dev_bus_self port bus m Hport Hbus Hrun Hok p name phases resumed.
  rewrite (pcie_do_nonfatal_recovery_run _ _ _ _ _ _ _ _ _ _ Hport Hbus) in Hrun.
  injection Hrun as <-. fold p in Hok |- *.
  rewrite nonfatal_run_phases in Hok |- *. fold phases in Hok |- *.
  unfold value, trace in *. unfold bind at 1 in Hok. unfold bind at 1 2.
  cbn [fst snd] in Hok |- *.
  assert (Hstatus : snd (fst phases) = inr PCI_ERS_RESULT_RECOVERED).
  { revert Hok. unfold nonfatal_finish.
    destruct (snd (fst phases)) as [status | status] eqn:E.
    - subst phases. unfold bind at 1 in E. cbn [fst snd] in E.
      apply nonfatal_reset_goto_failed in E. subst status.
      unfold nonfatal_failed, bind. cbn [fst snd ret]. intros H. discriminate H.
    - destruct (pci_ers_result_eq_dec status PCI_ERS_RESULT_RECOVERED) as [-> | Hne];
        [reflexivity|].
      unfold nonfatal_failed, bind. cbn [fst snd ret]. intros H. contradiction. }
  unfold nonfatal_finish. rewrite Hstatus, if_vote_same.
  unfold bind. cbn [fst snd pci_dbg emit ret pci_aer_clear_nonfatal_status pci_info].
  fold resumed name.
  split; [reflexivity|]. split.
  - destruct (pcie_aer_is_native p); cbn [snd pcie_clear_device_status emit ret app];
      rewrite ?app_nil_r; reflexivity.
  - subst resumed.
    rewrite (pci_walk_bus_trace_filter _ _ _ is_uevent
               (fun d => [Ev_uevent_ers (pci_name d) PCI_ERS_RESULT_RECOVERED]))
      by (intros d a; apply report_resume_uevent).
    rewrite (flat_map_singleton _ _ _
               (fun d => Ev_uevent_ers (pci_name d) PCI_ERS_RESULT_RECOVERED))
      by (apply Forall_forall; intros; reflexivity).
    rewrite <- (map_map (@pci_name D) (fun n => Ev_uevent_ers n PCI_ERS_RESULT_RECOVERED)).
    f_equal. subst phases. unfold bind. cbn [fst].
    rewrite nonfatal_reset_names. apply nonfatal_vote_names.
Qed.

(** X15: when some device of the subtree that is not a bridge cannot take
    part in error_detected (no driver, no handler table, no
    [error_detected], or already marked PERM_FAILURE), the recovery
    returns NO_DRIVER after the error_detected broadcast alone: no
    [mmio_enabled], [slot_reset] or [resume] of any device is called, the
    bus is not reset, and the port is notified DISCONNECT. *)
Theorem nonfatal_no_driver_veto_all :
  forall (dev : pci_node D) (dev_bus_self : option (pci_node D))
         (port : pci_node D) (bus : list (pci_node D)) (d : pci_dev D),
    nonfatal_port PCI_EXP_TYPE_ROOT_PORT PCI_EXP_TYPE_DOWNSTREAM dev dev_bus_self = Some port ->
    subordinate port = Some bus ->
    In d (bus_devs bus) ->
    hdr_type d <> PCI_HEADER_TYPE_BRIDGE ->
    error_state d = pci_channel_io_perm_failure \/ no_error_detected d ->
    let name := pci_name (node_dev port) in
    let detect := pci_walk_bus (report_normal_detected PCI_HEADER_TYPE_BRIDGE) bus
                    PCI_ERS_RESULT_CAN_RECOVER in
    exists m,
      pcie_do_nonfatal_recovery PCI_HEADER_TYPE_BRIDGE PCI_EXP_TYPE_ROOT_PORT
        PCI_EXP_TYPE_DOWNSTREAM pci_reset_bus_result pcie_aer_is_native dev dev_bus_self
      = Some m /\
      value m = (PCI_ERS_RESULT_NO_AER_DRIVER, fst (value detect)) /\
      trace m = Ev_pci_dbg name "broadcast error_detected message" :: trace detect ++
                [Ev_uevent_ers name PCI_ERS_RESULT_DISCONNECT;
                 Ev_pci_info name "device recovery failed"] /\
      Forall (fun e => exists n s v, e = Ev_error_detected n s v)
        (filter is_callback (trace m)) /\
      filter is_reset_bus (trace m) = [].
Proof.
  intros dev dev_bus_self port bus d Hport Hbus Hin Hhdr Hsilent name detect.
  assert (Hvote : detect_vote PCI_HEADER_TYPE_BRIDGE pci_channel_io_normal d
                  = PCI_ERS_RESULT_NO_AER_DRIVER).
  { unfold detect_vote, silent_vote. apply Z.eqb_neq in Hhdr. rewrite Hhdr.
    destruct (pci_channel_state_eq_dec (error_state d) pci_channel_io_perm_failure) as [E | E];
      [reflexivity|].
    destruct Hsilent as [Hperm | Hno]; [contradiction|].
    rewrite (no_error_detected_handler_op _ d Hno). reflexivity. }
  assert (Hdetect : snd (fst detect) = PCI_ERS_RESULT_NO_AER_DRIVER).
  { subst detect. rewrite detect_walk_fold. apply fold_merge_veto.
    rewrite <- Hvote. apply in_map. exact Hin. }
  eexists. split; [exact (pcie_do_nonfatal_recovery_run _ _ _ _ _ _ _ _ _ _ Hport Hbus)|].
  assert (Hrun : nonfatal_run PCI_HEADER_TYPE_BRIDGE pci_reset_bus_result pcie_aer_is_native
                   (node_dev port) bus
                 = ((PCI_ERS_RESULT_NO_AER_DRIVER, fst (fst detect)),
                    Ev_pci_dbg name "broadcast error_detected message" :: snd detect ++
                    [Ev_uevent_ers name PCI_ERS_RESULT_DISCONNECT;
                     Ev_pci_info name "device recovery failed"])).
  { unfold nonfatal_run, nonfatal_vote, nonfatal_reset, nonfatal_finish, nonfatal_failed, bind.
    cbn [fst snd pci_dbg emit ret]. fold detect. rewrite !Hdetect.
    rewrite (if_vote_other _ PCI_ERS_RESULT_NO_AER_DRIVER PCI_ERS_RESULT_CAN_RECOVER)
      by discriminate.
    cbn [fst snd ret]. rewrite !Hdetect.
    rewrite (if_vote_other _ PCI_ERS_RESULT_NO_AER_DRIVER PCI_ERS_RESULT_NEED_RESET)
      by discriminate.
    cbn [fst snd ret].
    rewrite (if_vote_other _ PCI_ERS_RESULT_NO_AER_DRIVER PCI_ERS_RESULT_RECOVERED)
      by discriminate.
    cbn [fst snd ret pci_uevent_ers pci_info emit app]. fold name.
    rewrite !app_nil_r. reflexivity. }
  rewrite Hrun. unfold value, trace. cbn [fst snd].
  split; [reflexivity|]. split; [reflexivity|]. split.
  - cbn [filter is_callback]. rewrite filter_app. cbn [filter is_callback].
    rewrite app_nil_r. subst detect.
    apply Forall_filter_intro.
    apply pci_walk_bus_trace_Forall. intros x a.
    visit_cases x;
      repeat (apply Forall_cons;
              [intros H; first [discriminate H | eexists; eexists; eexists; reflexivity]|]);
      apply Forall_nil.
  - cbn [filter is_reset_bus]. rewrite filter_app. cbn [filter is_reset_bus].
    rewrite app_nil_r. subst detect.
    apply pci_walk_bus_trace_filter_nil. intros x a. visit_cases x; reflexivity.
Qed.

Ltac split_ifs :=
  repeat match goal with
         | |- context [if ?c then _ else _] => destruct c
         end.

Ltac visit_solves := let x := fresh "x" in let a := fresh "a" in
  intros x a; visit_cases x; reflexivity.

(** X16: whatever its outcome, the non-fatal recovery leaves the subtree
    with the same devices, by name, in the same structure and bound to
    the same drivers; every device that was not marked PERM_FAILURE ends
    NORMAL and every device that was stays PERM_FAILURE.  It never marks
    a device disconnected, never removes one, never calls a link reset
    callback and never takes the rescan/remove lock. *)
Theorem nonfatal_keeps_topology :
  forall (dev : pci_node D) (dev_bus_self : option (pci_node D))
         (port : pci_node D) (bus : list (pci_node D)),
    nonfatal_port PCI_EXP_TYPE_ROOT_PORT PCI_EXP_TYPE_DOWNSTREAM dev dev_bus_self = Some port ->
    subordinate port = Some bus ->
    exists m,
      pcie_do_nonfatal_recovery PCI_HEADER_TYPE_BRIDGE PCI_EXP_TYPE_ROOT_PORT
        PCI_EXP_TYPE_DOWNSTREAM pci_reset_bus_result pcie_aer_is_native dev dev_bus_self
      = Some m /\
      map (@node_shape D) (snd (value m)) = map (@node_shape D) bus /\
      map (@driver D) (bus_devs (snd (value m))) = map (@driver D) (bus_devs bus) /\
      map (@error_state D) (bus_devs (snd (value m)))
        = map normal_unless_failed (map (@error_state D) (bus_devs bus)) /\
      Forall (fun e => is_teardown e = false /\ is_rescan_bracket e = false) (trace m).
Proof.
  intros dev dev_bus_self port bus Hport Hbus.
  eexists. split; [exact (pcie_do_nonfatal_recovery_run _ _ _ _ _ _ _ _ _ _ Hport Hbus)|].
  pose proof (nonfatal_run_flat (node_dev port) bus) as Hflat. cbv zeta in Hflat.
  rewrite Hflat. clear Hflat. unfold value, trace. cbn [fst snd].
  split; [|split; [|split]].
  - split_ifs; repeat (rewrite pci_walk_bus_shape by visit_solves); reflexivity.
  - split_ifs;
      repeat (rewrite (pci_walk_bus_map _ _ _ _ (@driver D) (fun x => x)) by visit_solves;
              rewrite map_id);
      reflexivity.
  - split_ifs;
      repeat first
        [ rewrite (pci_walk_bus_map _ _ _ _ (@error_state D) normal_unless_failed)
            by visit_solves
        | rewrite (pci_walk_bus_map _ _ _ _ (@error_state D) (fun x => x)) by visit_solves;
          rewrite map_id ];
      rewrite ?map_map; apply map_ext; intros x; destruct (error_state x); reflexivity.
  - split_ifs;
      repeat first
        [ apply Forall_nil
        | apply Forall_cons; [split; reflexivity|]
        | apply Forall_app; split
        | apply pci_walk_bus_trace_Forall;
          let x := fresh "x" in let a := fresh "a" in
          intros x a; visit_cases x;
          repeat (apply Forall_cons; [split; reflexivity|]); apply Forall_nil ].
Qed.

(** X17: the bus is reset at most once per recovery, and exactly when the
    vote after the error_detected and mmio_enabled broadcasts is
    NEED_RESET; a NEED_RESET answer to slot_reset does not lead to a
    second reset. *)
Theorem nonfatal_resets_once :
  forall (dev : pci_node D) (dev_bus_self : option (pci_node D))
         (port : pci_node D) (bus : list (pci_node D)),
    nonfatal_port PCI_EXP_TYPE_ROOT_PORT PCI_EXP_TYPE_DOWNSTREAM dev dev_bus_self = Some port ->
    subordinate port = Some bus ->
    let p := node_dev port in
    exists m,
      pcie_do_nonfatal_recovery PCI_HEADER_TYPE_BRIDGE PCI_EXP_TYPE_ROOT_PORT
        PCI_EXP_TYPE_DOWNSTREAM pci_reset_bus_result pcie_aer_is_native dev dev_bus_self
      = Some m /\
      filter is_reset_bus (trace m) =
        (if pci_ers_result_eq_dec (snd (value (nonfatal_vote PCI_HEADER_TYPE_BRIDGE p bus)))
              PCI_ERS_RESULT_NEED_RESET
         then [Ev_pci_reset_bus (pci_name p) (pci_reset_bus_result p)]
         else []).
Proof.
  intros dev dev_bus_self port bus Hport Hbus p.
  eexists. split; [exact (pcie_do_nonfatal_recovery_run _ _ _ _ _ _ _ _ _ _ Hport Hbus)|].
  fold p.
  assert (Hvote : filter is_reset_bus (snd (nonfatal_vote PCI_HEADER_TYPE_BRIDGE p bus)) = []).
  { unfold nonfatal_vote, bind. cbn [fst snd pci_dbg emit ret app].
    split_ifs;
      repeat first [ progress cbn [fst snd ret filter is_reset_bus app]
                   | rewrite filter_app
                   | rewrite pci_walk_bus_trace_filter_nil by visit_solves ];
      reflexivity. }
  unfold value, trace, nonfatal_run. unfold bind at 1. cbn [snd].
  rewrite filter_app, Hvote. cbn [app].
  unfold nonfatal_reset, nonfatal_finish, nonfatal_failed, pci_reset_bus, bind.
  cbn [fst snd pci_dbg pci_err pci_info pci_uevent_ers pcie_clear_device_status
       pci_aer_clear_nonfatal_status emit ret].
  repeat (cbn [fst snd ret];
          match goal with
          | |- context [pci_ers_result_eq_dec ?a ?b] => destruct (pci_ers_result_eq_dec a b)
          | |- context [?x <? 0] => destruct (x <? 0)
          | |- context [pcie_aer_is_native ?x] => destruct (pcie_aer_is_native x)
          end);
    repeat first [ progress cbn [fst snd ret emit app filter is_reset_bus]
                 | rewrite filter_app
                 | rewrite pci_walk_bus_trace_filter_nil by visit_solves ];
    try reflexivity; try contradiction.
Qed.

Lemma resume_calls_same (l1 l2 : list (pci_dev D)) :
  map (fun d => (pci_name d, resume_called d)) l1
  = map (fun d => (pci_name d, resume_called d)) l2 ->
  map (fun d => Ev_resume (pci_name d)) (filter (@resume_called D) l1)
  = map (fun d => Ev_resume (pci_name d)) (filter (@resume_called D) l2).
Proof.
  revert l2. induction l1 as [|x rest IH]; intros [|y rest2] H; try discriminate H;
    [reflexivity|].
  cbn [map] in H. injection H as Hn Hc Hrest.
  cbn [filter]. rewrite Hc. destruct (resume_called y); cbn [map];
    rewrite ?Hn, (IH rest2 Hrest); reflexivity.
Qed.

Ltac resume_key_solves := let x := fresh "x" in let a := fresh "a" in
  intros x a; unfold resume_called; visit_cases x; reflexivity.

(** X18: the driver callbacks of a recovery, in order: first every
    [error_detected]; then every [mmio_enabled], if the vote is
    CAN_RECOVER; then every [slot_reset], if the vote asked for a reset
    and the reset succeeded; last, if the recovery returns RECOVERED,
    [resume] on exactly the devices that have it and were not marked
    PERM_FAILURE when the recovery started. *)
Theorem nonfatal_callbacks_order :
  forall (dev : pci_node D) (dev_bus_self : option (pci_node D))
         (port : pci_node D) (bus : list (pci_node D)),
    nonfatal_port PCI_EXP_TYPE_ROOT_PORT PCI_EXP_TYPE_DOWNSTREAM dev dev_bus_self = Some port ->
    subordinate port = Some bus ->
    let rc := pci_reset_bus_result (node_dev port) in
    let detect := pci_walk_bus (report_normal_detected PCI_HEADER_TYPE_BRIDGE) bus
                    PCI_ERS_RESULT_CAN_RECOVER in
    let mmio := pci_walk_bus (@report_mmio_enabled D) (fst (value detect))
                  PCI_ERS_RESULT_RECOVERED in
    let voted := if pci_ers_result_eq_dec (snd (value detect)) PCI_ERS_RESULT_CAN_RECOVER
                 then value mmio else value detect in
    let slot := pci_walk_bus (@report_slot_reset D) (fst voted) PCI_ERS_RESULT_RECOVERED in
    exists m,
      pcie_do_nonfatal_recovery PCI_HEADER_TYPE_BRIDGE PCI_EXP_TYPE_ROOT_PORT
        PCI_EXP_TYPE_DOWNSTREAM pci_reset_bus_result pcie_aer_is_native dev dev_bus_self
      = Some m /\
      filter is_callback (trace m) =
        filter is_callback (trace detect) ++
        (if pci_ers_result_eq_dec (snd (value detect)) PCI_ERS_RESULT_CAN_RECOVER
         then filter is_callback (trace mmio) else []) ++
        (if pci_ers_result_eq_dec (snd voted) PCI_ERS_RESULT_NEED_RESET
         then if rc <? 0 then [] else filter is_callback (trace slot)
         else []) ++
        (if pci_ers_result_eq_dec (fst (value m)) PCI_ERS_RESULT_RECOVERED
         then map (fun d => Ev_resume (pci_name d)) (filter (@resume_called D) (bus_devs bus))
         else []).
Proof.
  intros dev dev_bus_self port bus Hport Hbus rc detect mmio voted slot.
  eexists. split; [exact (pcie_do_nonfatal_recovery_run _ _ _ _ _ _ _ _ _ _ Hport Hbus)|].
  pose proof (nonfatal_run_flat (node_dev port) bus) as Hflat. cbv zeta in Hflat.
  rewrite Hflat. clear Hflat.
  subst slot voted mmio detect rc. unfold value, trace. cbn [fst snd].
  repeat (cbn [fst snd];
          match goal with
          | |- context [pci_ers_result_eq_dec ?a ?b] => destruct (pci_ers_result_eq_dec a b)
          | |- context [?x <? 0] => destruct (x <? 0)
          | |- context [pcie_aer_is_native ?x] => destruct (pcie_aer_is_native x)
          end);
    cbn [fst snd] in *; try congruence;
    repeat first [ progress cbn [filter is_callback app] | rewrite filter_app ];
    rewrite ?app_nil_r; try reflexivity;
    repeat f_equal;
    (rewrite (pci_walk_bus_trace_filter _ _ _ is_callback
                (fun d => if resume_called d then [Ev_resume (pci_name d)] else []))
       by (intros x a; apply report_resume_call));
    match goal with
    | |- flat_map _ ?l = _ =>
        transitivity (map (fun d : pci_dev D => Ev_resume (pci_name d))
                        (filter (@resume_called D) l));
        [ induction l as [|x rest IH]; [reflexivity|];
          cbn [flat_map filter]; destruct (resume_called x); cbn [map app];
          rewrite IH; reflexivity
        | apply resume_calls_same;
          repeat (rewrite (pci_walk_bus_map _ _ _ _
                             (fun d : pci_dev D => (pci_name d, resume_called d))
                             (fun k => k)) by resume_key_solves;
                  rewrite map_id);
          reflexivity ]
    end.
Qed.

(** X19: a port with no device below it recovers: the three broadcasts
    visit nothing, no callback is called, the bus is not reset, the port's
    status is cleared and the returned vote is RECOVERED. *)
Theorem nonfatal_empty_bus :
  forall (dev : pci_node D) (dev_bus_self : option (pci_node D)) (port : pci_node D),
    nonfatal_port PCI_EXP_TYPE_ROOT_PORT PCI_EXP_TYPE_DOWNSTREAM dev dev_bus_self = Some port ->
    subordinate port = Some [] ->
    let name := pci_name (node_dev port) in
    pcie_do_nonfatal_recovery PCI_HEADER_TYPE_BRIDGE PCI_EXP_TYPE_ROOT_PORT
      PCI_EXP_TYPE_DOWNSTREAM pci_reset_bus_result pcie_aer_is_native dev dev_bus_self
    = Some ((PCI_ERS_RESULT_RECOVERED, []),
            [Ev_pci_dbg name "broadcast error_detected message";
             Ev_pci_dbg name "broadcast mmio_enabled message";
             Ev_pci_dbg name "broadcast resume message"] ++
            (if pcie_aer_is_native (node_dev port) then [Ev_clear_device_status name] else []) ++
            [Ev_aer_clear_nonfatal_status name;
             Ev_pci_info name "device recovery successful"]).
Proof.
  intros dev dev_bus_self port Hport Hbus name.
  rewrite (pcie_do_nonfatal_recovery_run _ _ _ _ _ _ _ _ _ _ Hport Hbus). f_equal.
  unfold nonfatal_run, nonfatal_vote, nonfatal_reset, nonfatal_finish, bind.
  cbn. fold name. destruct (pcie_aer_is_native (node_dev port)); reflexivity.
Qed.

End NonfatalMore.

(** * Further properties of the fatal orchestrator *)

Section FatalMore.
Variable D : Type.
Variable PCI_HEADER_TYPE_BRIDGE : Z.
Variable pcie_aer_is_native : pci_dev D -> bool.
Variable pcie_wait_for_link_result : pci_dev D -> bool.

(** The whole run of the fatal recovery, call by call. *)
Lemma fatal_run_flat (dev : pci_node D) (dev_bus_self : option (pci_node D))
    (udev : pci_node D) (parent : list (pci_node D))
    (reset_link : pci_dev D -> pci_ers_result) :
  fatal_udev PCI_HEADER_TYPE_BRIDGE dev dev_bus_self = Some udev ->
  subordinate udev = Some parent ->
  let d := node_dev dev in
  let u := node_dev udev in
  let result := reset_link u in
  pcie_do_fatal_recovery PCI_HEADER_TYPE_BRIDGE pcie_aer_is_native
    pcie_wait_for_link_result dev dev_bus_self reset_link =
  Some ((result, []),
        map Ev_set_disconnected (map (@pci_name D) (bus_devs parent)) ++
        Ev_lock_rescan_remove :: Ev_pci_dev_get (pci_name d) ::
        (removals (bus_devs parent) ++
         Ev_reset_link (pci_name u) result ::
         (if hdr_type d =? PCI_HEADER_TYPE_BRIDGE
          then Ev_aer_clear_fatal_status (pci_name d) ::
               (if pcie_aer_is_native d then [Ev_clear_device_status (pci_name d)] else [])
          else []) ++
         (if pci_ers_result_eq_dec result PCI_ERS_RESULT_RECOVERED
          then Ev_wait_for_link (pci_name u) (pcie_wait_for_link_result u) ::
               (if pcie_wait_for_link_result u then [Ev_rescan_bus (pci_name u)] else []) ++
               [Ev_pci_info (pci_name d) "Device recovery from fatal error successful"]
          else [Ev_uevent_ers (pci_name d) PCI_ERS_RESULT_DISCONNECT;
                Ev_pci_info (pci_name d) "Device recovery from fatal error failed"])) ++
        [Ev_pci_dev_put (pci_name d); Ev_unlock_rescan_remove]).
Proof.
  intros Hudev Hparent d u result.
  unfold pcie_do_fatal_recovery. rewrite Hudev. cbn [obind]. rewrite Hparent.
  cbn [obind]. f_equal. fold d u.
  assert (Hnames : map (@pci_name D)
                     (bus_devs (fst (fst (pci_walk_bus (@pci_dev_set_disconnected D) parent tt))))
                   = map (@pci_name D) (bus_devs parent)).
  { rewrite (pci_walk_bus_map _ _ _ _ (@pci_name D) (fun x => x)).
    - apply map_id.
    - intros x a. reflexivity. }
  unfold bind. cbn [fst snd emit ret].
  rewrite remove_devices_reverse_value, remove_devices_reverse_trace, set_disconnected_trace.
  unfold removals. rewrite Hnames. fold result.
  f_equal. f_equal. cbn [app]. f_equal. f_equal. rewrite <- !app_assoc. f_equal.
  cbn [app]. f_equal.
  unfold pcie_wait_for_link, pci_aer_clear_fatal_status, pcie_clear_device_status,
    pci_uevent_ers, pci_info, bind.
  destruct (hdr_type d =? PCI_HEADER_TYPE_BRIDGE);
    destruct (pcie_aer_is_native d);
    destruct (pci_ers_result_eq_dec result PCI_ERS_RESULT_RECOVERED);
    try destruct (pcie_wait_for_link_result u); reflexivity.
Qed.

Lemma filter_map_false (X : Type) (f : event -> bool) (g : X -> event) (l : list X) :
  (forall x, f (g x) = false) -> filter f (map g l) = [].
Proof.
  intros H. induction l as [|x rest IH]; [reflexivity|].
  cbn [map filter]. rewrite H. exact IH.
Qed.

Lemma filter_map_true (X : Type) (f : event -> bool) (g : X -> event) (l : list X) :
  (forall x, f (g x) = true) -> filter f (map g l) = map g l.
Proof.
  intros H. induction l as [|x rest IH]; [reflexivity|].
  cbn [map filter]. rewrite H, IH. reflexivity.
Qed.

Ltac fatal_filter :=
  unfold removals;
  repeat first
    [ rewrite filter_app
    | rewrite filter_map_false by reflexivity
    | rewrite filter_map_true by reflexivity
    | progress cbn [filter app is_fatal_outcome is_status_clear is_rescan_bracket
                    is_callback is_uevent is_teardown] ];
  repeat match goal with
         | |- context [if ?c then _ else _] => destruct c
         end;
  cbn [filter app is_fatal_outcome is_status_clear is_rescan_bracket
       is_callback is_uevent is_teardown];
  rewrite ?app_nil_r; try reflexivity.

(** X20: what the fatal recovery does with the result of [reset_link],
    which is also what it returns.  If the result is RECOVERED it waits
    for the link and rescans only if the link came up, and logs success
    either way, with no notification; for any other result it neither
    waits nor rescans, notifies DISCONNECT for the reporting device and
    logs the failure. *)
Theorem fatal_outcome :
  forall (dev : pci_node D) (dev_bus_self : option (pci_node D))
         (udev : pci_node D) (parent : list (pci_node D))
         (reset_link : pci_dev D -> pci_ers_result),
    fatal_udev PCI_HEADER_TYPE_BRIDGE dev dev_bus_self = Some udev ->
    subordinate udev = Some parent ->
    let d := pci_name (node_dev dev) in
    let u := pci_name (node_dev udev) in
    let up := pcie_wait_for_link_result (node_dev udev) in
    let result := reset_link (node_dev udev) in
    exists m,
      pcie_do_fatal_recovery PCI_HEADER_TYPE_BRIDGE pcie_aer_is_native
        pcie_wait_for_link_result dev dev_bus_self reset_link = Some m /\
      fst (value m) = result /\
      filter is_fatal_outcome (trace m) =
        (if pci_ers_result_eq_dec result PCI_ERS_RESULT_RECOVERED
         then Ev_wait_for_link u up ::
              (if up then [Ev_rescan_bus u] else []) ++
              [Ev_pci_info d "Device recovery from fatal error successful"]
         else [Ev_uevent_ers d PCI_ERS_RESULT_DISCONNECT;
               Ev_pci_info d "Device recovery from fatal error failed"]).
Proof.
  intros dev dev_bus_self udev parent reset_link Hudev Hparent d u up result.
  eexists. split; [exact (fatal_run_flat _ _ _ _ reset_link Hudev Hparent)|].
  unfold value, trace. cbn [fst snd]. split; [reflexivity|].
  subst d u up result. fatal_filter.
Qed.

(** X21: the fatal recovery clears AER status only when the reporting
    device is itself a bridge: then its fatal status, and its device
    status too if AER is handled natively.  For any other reporter the
    bridge above it is reset and no status is cleared. *)
Theorem fatal_status_clear :
  forall (dev : pci_node D) (dev_bus_self : option (pci_node D))
         (udev : pci_node D) (parent : list (pci_node D))
         (reset_link : pci_dev D -> pci_ers_result),
    fatal_udev PCI_HEADER_TYPE_BRIDGE dev dev_bus_self = Some udev ->
    subordinate udev = Some parent ->
    let d := node_dev dev in
    exists m,
      pcie_do_fatal_recovery PCI_HEADER_TYPE_BRIDGE pcie_aer_is_native
        pcie_wait_for_link_result dev dev_bus_self reset_link = Some m /\
      filter is_status_clear (trace m) =
        (if hdr_type d =? PCI_HEADER_TYPE_BRIDGE
         then Ev_aer_clear_fatal_status (pci_name d) ::
              (if pcie_aer_is_native d then [Ev_clear_device_status (pci_name d)] else [])
         else []) /\
      ((hdr_type d =? PCI_HEADER_TYPE_BRIDGE) = true -> udev = dev) /\
      ((hdr_type d =? PCI_HEADER_TYPE_BRIDGE) = false -> dev_bus_self = Some udev).
Proof.
  intros dev dev_bus_self udev parent reset_link Hudev Hparent d.
  eexists. split; [exact (fatal_run_flat _ _ _ _ reset_link Hudev Hparent)|].
  unfold value, trace. cbn [fst snd]. split; [|split].
  - fold d. fatal_filter.
  - intros H. unfold fatal_udev in Hudev. fold d in Hudev. rewrite H in Hudev.
    injection Hudev as <-. reflexivity.
  - intros H. unfold fatal_udev in Hudev. fold d in Hudev. rewrite H in Hudev.
    exact Hudev.
Qed.

(** X22: the fatal recovery marks the devices before it takes the global
    rescan/remove lock; it takes the lock and a reference on the
    reporting device once, and gives both back in reverse order at the
    end; every removal, the link reset, the wait and the rescan happen
    in between. *)
Theorem fatal_lock_bracket :
  forall (dev : pci_node D) (dev_bus_self : option (pci_node D))
         (udev : pci_node D) (parent : list (pci_node D))
         (reset_link : pci_dev D -> pci_ers_result),
    fatal_udev PCI_HEADER_TYPE_BRIDGE dev dev_bus_self = Some udev ->
    subordinate udev = Some parent ->
    let d := pci_name (node_dev dev) in
    exists m inside,
      pcie_do_fatal_recovery PCI_HEADER_TYPE_BRIDGE pcie_aer_is_native
        pcie_wait_for_link_result dev dev_bus_self reset_link = Some m /\
      trace m =
        map Ev_set_disconnected (map (@pci_name D) (bus_devs parent)) ++
        Ev_lock_rescan_remove :: Ev_pci_dev_get d :: inside ++
        [Ev_pci_dev_put d; Ev_unlock_rescan_remove] /\
      filter is_rescan_bracket inside = [] /\
      filter is_teardown inside =
        removals (bus_devs parent) ++
        [Ev_reset_link (pci_name (node_dev udev)) (reset_link (node_dev udev))] /\
      filter is_fatal_outcome inside = filter is_fatal_outcome (trace m).
Proof.
  intros dev dev_bus_self udev parent reset_link Hudev Hparent d.
  eexists. eexists. split; [exact (fatal_run_flat _ _ _ _ reset_link Hudev Hparent)|].
  unfold value, trace. cbn [fst snd]. split; [reflexivity|].
  split; [|split]; fatal_filter.
Qed.

(** X23: the fatal recovery calls no driver callback: no
    [error_detected], [mmio_enabled], [slot_reset] or [resume] of any
    device. *)
Theorem fatal_calls_no_driver :
  forall (dev : pci_node D) (dev_bus_self : option (pci_node D))
         (udev : pci_node D) (parent : list (pci_node D))
         (reset_link : pci_dev D -> pci_ers_result),
    fatal_udev PCI_HEADER_TYPE_BRIDGE dev dev_bus_self = Some udev ->
    subordinate udev = Some parent ->
    exists m,
      pcie_do_fatal_recovery PCI_HEADER_TYPE_BRIDGE pcie_aer_is_native
        pcie_wait_for_link_result dev dev_bus_self reset_link = Some m /\
      filter is_callback (trace m) = [] /\
      filter is_uevent (trace m) =
        (if pci_ers_result_eq_dec (reset_link (node_dev udev)) PCI_ERS_RESULT_RECOVERED
         then []
         else [Ev_uevent_ers (pci_name (node_dev dev)) PCI_ERS_RESULT_DISCONNECT]).
Proof.
  intros dev dev_bus_self udev parent reset_link Hudev Hparent.
  eexists. split; [exact (fatal_run_flat _ _ _ _ reset_link Hudev Hparent)|].
  unfold value, trace. cbn [fst snd]. split; fatal_filter.
Qed.

End FatalMore.

(** * The further properties on the concrete topologies *)

(** fold_merge_result_veto on a veto between two optimistic votes. *)
Lemma fold_merge_result_veto_witness :
  In PCI_ERS_RESULT_NO_AER_DRIVER
    [PCI_ERS_RESULT_CAN_RECOVER; PCI_ERS_RESULT_NO_AER_DRIVER; PCI_ERS_RESULT_RECOVERED] /\
  fold_left merge_result
    [PCI_ERS_RESULT_CAN_RECOVER; PCI_ERS_RESULT_NO_AER_DRIVER; PCI_ERS_RESULT_RECOVERED]
    PCI_ERS_RESULT_CAN_RECOVER = PCI_ERS_RESULT_NO_AER_DRIVER.
Proof.
  assert (H : In PCI_ERS_RESULT_NO_AER_DRIVER
                [PCI_ERS_RESULT_CAN_RECOVER; PCI_ERS_RESULT_NO_AER_DRIVER;
                 PCI_ERS_RESULT_RECOVERED])
    by (right; left; reflexivity).
  split; [exact H|].
  exact (fold_merge_result_veto _ PCI_ERS_RESULT_CAN_RECOVER H).
Defined.

(** fold_merge_result_recovered on an abstention followed by two
    optimistic votes. *)
Lemma fold_merge_result_recovered_witness :
  fold_left merge_result
    [PCI_ERS_RESULT_NONE; PCI_ERS_RESULT_CAN_RECOVER; PCI_ERS_RESULT_RECOVERED]
    PCI_ERS_RESULT_CAN_RECOVER = PCI_ERS_RESULT_RECOVERED /\
  Forall (fun v => v = PCI_ERS_RESULT_NONE \/ optimistic v)
    [PCI_ERS_RESULT_NONE; PCI_ERS_RESULT_CAN_RECOVER; PCI_ERS_RESULT_RECOVERED].
Proof.
  split; [reflexivity|].
  exact (fold_merge_result_recovered
           [PCI_ERS_RESULT_NONE; PCI_ERS_RESULT_CAN_RECOVER; PCI_ERS_RESULT_RECOVERED]
           PCI_ERS_RESULT_CAN_RECOVER eq_refl).
Defined.

(** nonfatal_returned_vote on [wants_reset] with a failing bus reset. *)
Lemma nonfatal_returned_vote_witness :
  nonfatal_port ROOT_PORT DOWNSTREAM wants_reset None = Some wants_reset /\
  subordinate wants_reset = Some (children wants_reset) /\
  exists m,
    pcie_do_nonfatal_recovery BRIDGE ROOT_PORT DOWNSTREAM reset_fails native wants_reset None
    = Some m /\
    fst (value m) = PCI_ERS_RESULT_DISCONNECT.
Proof.
  split; [reflexivity|]. split; [reflexivity|].
  pose proof (nonfatal_returned_vote nat BRIDGE ROOT_PORT DOWNSTREAM reset_fails native
                wants_reset None wants_reset (children wants_reset) eq_refl eq_refl) as H.
  cbv zeta in H. destruct H as (m & Hm & Hval & _).
  exists m. split; [exact Hm|]. rewrite Hval. reflexivity.
Defined.

(** nonfatal_success_path on [healthy]. *)
Lemma nonfatal_success_path_witness :
  nonfatal_port ROOT_PORT DOWNSTREAM healthy None = Some healthy /\
  subordinate healthy = Some (children healthy) /\
  exists m,
    pcie_do_nonfatal_recovery BRIDGE ROOT_PORT DOWNSTREAM reset_ok native healthy None
    = Some m /\
    fst (value m) = PCI_ERS_RESULT_RECOVERED /\
    map (@error_state nat) (bus_devs (snd (value m)))
    = [pci_channel_io_normal; pci_channel_io_normal; pci_channel_io_normal].
Proof.
  split; [reflexivity|]. split; [reflexivity|].
  eexists. split; [reflexivity|]. split; [reflexivity|].
  pose proof (nonfatal_success_path nat BRIDGE ROOT_PORT DOWNSTREAM reset_ok native
                healthy None healthy (children healthy) _ eq_refl eq_refl eq_refl eq_refl) as H.
  cbv zeta in H. destruct H as (Hbus & _ & _).
  rewrite Hbus. reflexivity.
Defined.

(** nonfatal_no_driver_veto_all on [driverless], whose endpoint 01:00.1
    has no driver. *)
Lemma nonfatal_no_driver_veto_all_witness :
  nonfatal_port ROOT_PORT DOWNSTREAM driverless None = Some driverless /\
  subordinate driverless = Some (children driverless) /\
  In (endpoint "01:00.1" pci_channel_io_normal None) (bus_devs (children driverless)) /\
  hdr_type (endpoint "01:00.1" pci_channel_io_normal None) <> BRIDGE /\
  no_error_detected (endpoint "01:00.1" pci_channel_io_normal None) /\
  exists m,
    pcie_do_nonfatal_recovery BRIDGE ROOT_PORT DOWNSTREAM reset_ok native driverless None
    = Some m /\
    fst (value m) = PCI_ERS_RESULT_NO_AER_DRIVER /\
    filter is_reset_bus (trace m) = [].
Proof.
  assert (Hin : In (endpoint "01:00.1" pci_channel_io_normal None)
                  (bus_devs (children driverless)))
    by (right; right; left; reflexivity).
  assert (Hhdr : hdr_type (endpoint "01:00.1" pci_channel_io_normal None) <> BRIDGE)
    by (cbv; discriminate).
  assert (Hno : no_error_detected (endpoint "01:00.1" pci_channel_io_normal None))
    by (left; reflexivity).
  split; [reflexivity|]. split; [reflexivity|].
  split; [exact Hin|]. split; [exact Hhdr|]. split; [exact Hno|].
  pose proof (nonfatal_no_driver_veto_all nat BRIDGE ROOT_PORT DOWNSTREAM reset_ok native
                driverless None driverless (children driverless) _ eq_refl eq_refl
                Hin Hhdr (or_intror Hno)) as H.
  cbv zeta in H. destruct H as (m & Hm & Hval & _ & _ & Hreset).
  exists m. split; [exact Hm|]. rewrite Hval. split; [reflexivity | exact Hreset].
Defined.

(** nonfatal_keeps_topology on [unplugged]: the endpoint marked
    PERM_FAILURE stays so, the frozen one ends NORMAL. *)
Lemma nonfatal_keeps_topology_witness :
  nonfatal_port ROOT_PORT DOWNSTREAM unplugged None = Some unplugged /\
  subordinate unplugged = Some (children unplugged) /\
  exists m,
    pcie_do_nonfatal_recovery BRIDGE ROOT_PORT DOWNSTREAM reset_ok native unplugged None
    = Some m /\
    map (@node_shape nat) (snd (value m)) = map (@node_shape nat) (children unplugged) /\
    map (@error_state nat) (bus_devs (snd (value m)))
    = [pci_channel_io_normal; pci_channel_io_normal; pci_channel_io_perm_failure].
Proof.
  split; [reflexivity|]. split; [reflexivity|].
  destruct (nonfatal_keeps_topology nat BRIDGE ROOT_PORT DOWNSTREAM reset_ok native
              unplugged None unplugged (children unplugged) eq_refl eq_refl)
    as (m & Hm & Hshape & _ & Hstates & _).
  exists m. split; [exact Hm|]. split; [exact Hshape|]. rewrite Hstates. reflexivity.
Defined.

(** nonfatal_resets_once on [wants_reset]. *)
Lemma nonfatal_resets_once_witness :
  nonfatal_port ROOT_PORT DOWNSTREAM wants_reset None = Some wants_reset /\
  subordinate wants_reset = Some (children wants_reset) /\
  exists m,
    pcie_do_nonfatal_recovery BRIDGE ROOT_PORT DOWNSTREAM reset_ok native wants_reset None
    = Some m /\
    filter is_reset_bus (trace m) = [Ev_pci_reset_bus "00:1c.0" 0].
Proof.
  split; [reflexivity|]. split; [reflexivity|].
  pose proof (nonfatal_resets_once nat BRIDGE ROOT_PORT DOWNSTREAM reset_ok native
                wants_reset None wants_reset (children wants_reset) eq_refl eq_refl) as H.
  cbv zeta in H. destruct H as (m & Hm & Hreset).
  exists m. split; [exact Hm|]. rewrite Hreset. reflexivity.
Defined.

(** nonfatal_callbacks_order on [wants_reset]: all four kinds of callback
    are called. *)
Lemma nonfatal_callbacks_order_witness :
  nonfatal_port ROOT_PORT DOWNSTREAM wants_reset None = Some wants_reset /\
  subordinate wants_reset = Some (children wants_reset) /\
  exists m,
    pcie_do_nonfatal_recovery BRIDGE ROOT_PORT DOWNSTREAM reset_ok native wants_reset None
    = Some m /\
    filter is_callback (trace m) =
      [Ev_error_detected "01:00.0" pci_channel_io_normal PCI_ERS_RESULT_CAN_RECOVER;
       Ev_error_detected "02:00.0" pci_channel_io_normal PCI_ERS_RESULT_CAN_RECOVER;
       Ev_error_detected "01:00.1" pci_channel_io_normal PCI_ERS_RESULT_CAN_RECOVER;
       Ev_mmio_enabled "01:00.0" PCI_ERS_RESULT_RECOVERED;
       Ev_mmio_enabled "02:00.0" PCI_ERS_RESULT_NEED_RESET;
       Ev_mmio_enabled "01:00.1" PCI_ERS_RESULT_RECOVERED;
       Ev_slot_reset "02:00.0" PCI_ERS_RESULT_RECOVERED;
       Ev_resume "01:00.0"; Ev_resume "02:00.0"; Ev_resume "01:00.1"].
Proof.
  split; [reflexivity|]. split; [reflexivity|].
  pose proof (nonfatal_callbacks_order nat BRIDGE ROOT_PORT DOWNSTREAM reset_ok native
                wants_reset None wants_reset (children wants_reset) eq_refl eq_refl) as H.
  cbv zeta in H. destruct H as (m & Hm & Hcalls).
  exists m. split; [exact Hm|].
  rewrite Hcalls. injection Hm as <-. reflexivity.
Defined.

(** nonfatal_empty_bus on a root port with nothing below it. *)
Lemma nonfatal_empty_bus_witness :
  nonfatal_port ROOT_PORT DOWNSTREAM (Node root_port (Some [])) None
    = Some (Node root_port (Some [])) /\
  subordinate (Node root_port (Some [])) = Some [] /\
  pcie_do_nonfatal_recovery BRIDGE ROOT_PORT DOWNSTREAM reset_ok native
    (Node root_port (Some [])) None
  = Some ((PCI_ERS_RESULT_RECOVERED, []),
          [Ev_pci_dbg "00:1c.0" "broadcast error_detected message";
           Ev_pci_dbg "00:1c.0" "broadcast mmio_enabled message";
           Ev_pci_dbg "00:1c.0" "broadcast resume message";
           Ev_clear_device_status "00:1c.0";
           Ev_aer_clear_nonfatal_status "00:1c.0";
           Ev_pci_info "00:1c.0" "device recovery successful"]).
Proof.
  split; [reflexivity|]. split; [reflexivity|].
  exact (nonfatal_empty_bus nat BRIDGE ROOT_PORT DOWNSTREAM reset_ok native
           (Node root_port (Some [])) None (Node root_port (Some [])) eq_refl eq_refl).
Defined.

(** fatal_outcome on [healthy] with a link reset that fails. *)
Lemma fatal_outcome_witness :
  fatal_udev BRIDGE healthy None = Some healthy /\
  subordinate healthy = Some (children healthy) /\
  exists m,
    pcie_do_fatal_recovery BRIDGE native link_up healthy None
      (fun _ => PCI_ERS_RESULT_DISCONNECT) = Some m /\
    fst (value m) = PCI_ERS_RESULT_DISCONNECT /\
    filter is_fatal_outcome (trace m) =
      [Ev_uevent_ers "00:1c.0" PCI_ERS_RESULT_DISCONNECT;
       Ev_pci_info "00:1c.0" "Device recovery from fatal error failed"].
Proof.
  split; [reflexivity|]. split; [reflexivity|].
  pose proof (fatal_outcome nat BRIDGE native link_up healthy None healthy
                (children healthy) (fun _ => PCI_ERS_RESULT_DISCONNECT) eq_refl eq_refl) as H.
  cbv zeta in H. destruct H as (m & Hm & Hval & Hout).
  exists m. split; [exact Hm|]. split; [exact Hval | exact Hout].
Defined.

(** fatal_status_clear for the endpoint 01:00.1 reporting the error: the
    root port above it is reset and no status is cleared. *)
Lemma fatal_status_clear_witness :
  fatal_udev BRIDGE (Node (endpoint "01:00.1" pci_channel_io_normal (Some recovering)) None)
    (Some healthy) = Some healthy /\
  subordinate healthy = Some (children healthy) /\
  exists m,
    pcie_do_fatal_recovery BRIDGE native link_up
      (Node (endpoint "01:00.1" pci_channel_io_normal (Some recovering)) None)
      (Some healthy) link_recovered = Some m /\
    filter is_status_clear (trace m) = [].
Proof.
  split; [reflexivity|]. split; [reflexivity|].
  pose proof (fatal_status_clear nat BRIDGE native link_up
                (Node (endpoint "01:00.1" pci_channel_io_normal (Some recovering)) None)
                (Some healthy) healthy (children healthy) link_recovered eq_refl eq_refl) as H.
  cbv zeta in H. destruct H as (m & Hm & Hclear & _).
  exists m. split; [exact Hm | exact Hclear].
Defined.

(** fatal_lock_bracket on [healthy]. *)
Lemma fatal_lock_bracket_witness :
  fatal_udev BRIDGE healthy None = Some healthy /\
  subordinate healthy = Some (children healthy) /\
  exists m inside,
    pcie_do_fatal_recovery BRIDGE native link_up healthy None link_recovered = Some m /\
    trace m =
      [Ev_set_disconnected "01:00.0"; Ev_set_disconnected "02:00.0";
       Ev_set_disconnected "01:00.1"] ++
      Ev_lock_rescan_remove :: Ev_pci_dev_get "00:1c.0" :: inside ++
      [Ev_pci_dev_put "00:1c.0"; Ev_unlock_rescan_remove] /\
    filter is_rescan_bracket inside = [].
Proof.
  split; [reflexivity|]. split; [reflexivity|].
  pose proof (fatal_lock_bracket nat BRIDGE native link_up healthy None healthy
                (children healthy) link_recovered eq_refl eq_refl) as H.
  cbv zeta in H. destruct H as (m & inside & Hm & Htrace & Hbracket & _).
  exists m, inside. split; [exact Hm|]. split; [exact Htrace | exact Hbracket].
Defined.

(** fatal_calls_no_driver on [healthy], every device of which has a
    driver with callbacks. *)
Lemma fatal_calls_no_driver_witness :
  fatal_udev BRIDGE healthy None = Some healthy /\
  subordinate healthy = Some (children healthy) /\
  exists m,
    pcie_do_fatal_recovery BRIDGE native link_up healthy None link_recovered = Some m /\
    filter is_callback (trace m) = [] /\
    filter is_uevent (trace m) = [].
Proof.
  split; [reflexivity|]. split; [reflexivity|].
  destruct (fatal_calls_no_driver nat BRIDGE native link_up healthy None healthy
              (children healthy) link_recovered eq_refl eq_refl)
    as (m & Hm & Hcalls & Huevents).
  exists m. split; [exact Hm|]. split; [exact Hcalls | exact Huevents].
Defined.
